(** * FormAnalyser: ingestion, structured decoding, tools and orchestrator

    A shallow embedding of [src/document_processor.py], [src/llm_client.py],
    [src/tools.py] and [src/agent.py].

    Conventions of the model.
    - A Python [str] is a [string]; a character is a code point below 256.
    - A Python exception is a value of [exn]; a call that may raise returns
      [exn + A] ([inl] = raised, [inr] = returned).
    - A [dict] is an association list in insertion order ([PyDict]).
    - The filesystem, the PDF / OCR libraries and the language model are
      external: they are read from a [World] of oracles.  The pure library
      functions [json.loads], [csv.reader] and [repr], and the digit
      limit of [int], are parameters ([Runtime]). *)

From Stdlib Require Import String Ascii List ZArith Bool Arith Lia.
From Stdlib Require Import DecimalString.
Import ListNotations.
Local Open Scope string_scope.
Local Open Scope list_scope.

Set Implicit Arguments.
Set Warnings "-register-all".

(* ------------------------------------------------------------------ *)
(** ** Python string primitives *)

Module PyStr.

(** [str.isspace] on one character (code points below 256). *)
Definition is_space (c : ascii) : bool :=
  let n := nat_of_ascii c in
  (((9 <=? n) && (n <=? 13)) || ((28 <=? n) && (n <=? 32))
   || (n =? 133) || (n =? 160))%nat.

Definition is_empty (s : string) : bool :=
  match s with EmptyString => true | _ => false end.

Fixpoint lstrip (s : string) : string :=
  match s with
  | EmptyString => EmptyString
  | String c s' => if is_space c then lstrip s' else s
  end.

Fixpoint rstrip (s : string) : string :=
  match s with
  | EmptyString => EmptyString
  | String c s' =>
      let r := rstrip s' in
      if is_empty r && is_space c then EmptyString else String c r
  end.

(** [s.strip()] *)
Definition strip (s : string) : string := rstrip (lstrip s).

(** [s.startswith(p)] *)
Fixpoint startswith (s p : string) {struct p} : bool :=
  match p, s with
  | EmptyString, _ => true
  | String a p', String b s' => Ascii.eqb a b && startswith s' p'
  | String _ _, EmptyString => false
  end.

(** [s.split(sep)] for a one-character separator: never the empty list. *)
Fixpoint split (sep : ascii) (s : string) : list string :=
  match s with
  | EmptyString => [EmptyString]
  | String c s' =>
      if Ascii.eqb c sep then EmptyString :: split sep s'
      else match split sep s' with
           | h :: t => String c h :: t
           | [] => [String c EmptyString]
           end
  end.

(** [sep.join(l)] *)
Fixpoint join (sep : string) (l : list string) : string :=
  match l with
  | [] => EmptyString
  | [x] => x
  | x :: t => x ++ sep ++ join sep t
  end.

(** [l[1:-1]] *)
Definition slice_1_m1 (A : Type) (l : list A) : list A := removelast (tl l).

Fixpoint contains_char (c : ascii) (s : string) : bool :=
  match s with
  | EmptyString => false
  | String a s' => Ascii.eqb a c || contains_char c s'
  end.

(** The suffix of [s] that starts at the first occurrence of [c]. *)
Fixpoint from_first (c : ascii) (s : string) : option string :=
  match s with
  | EmptyString => None
  | String a s' => if Ascii.eqb a c then Some s else from_first c s'
  end.

(** The prefix of [s] that ends at the last occurrence of [c]. *)
Fixpoint upto_last (c : ascii) (s : string) : option string :=
  match s with
  | EmptyString => None
  | String a s' =>
      match upto_last c s' with
      | Some r => Some (String a r)
      | None => if Ascii.eqb a c then Some (String a EmptyString) else None
      end
  end.

(** [s.count(c)] for a one-character needle. *)
Fixpoint count_char (c : ascii) (s : string) : nat :=
  match s with
  | EmptyString => 0
  | String a s' => (if Ascii.eqb a c then 1 else 0) + count_char c s'
  end.

(** [str.lower] on one character (code points below 256). *)
Definition lower_char (c : ascii) : ascii :=
  let n := nat_of_ascii c in
  if (((65 <=? n) && (n <=? 90))
      || ((192 <=? n) && (n <=? 222) && negb (n =? 215)))%nat
  then ascii_of_nat (n + 32) else c.

Fixpoint lower (s : string) : string :=
  match s with
  | EmptyString => EmptyString
  | String c s' => String (lower_char c) (lower s')
  end.

(** [s.rfind(c)]: index of the last occurrence, if any. *)
Fixpoint rfind (c : ascii) (s : string) : option nat :=
  match s with
  | EmptyString => None
  | String a s' =>
      match rfind c s' with
      | Some i => Some (S i)
      | None => if Ascii.eqb a c then Some 0 else None
      end
  end.

(** [s[n:]] *)
Fixpoint drop (n : nat) (s : string) : string :=
  match n, s with
  | S n', String _ s' => drop n' s'
  | _, _ => s
  end.

(** [str(n)] for a natural number and for an integer. *)
Definition of_nat (n : nat) : string := NilZero.string_of_uint (Nat.to_uint n).
Definition of_Z (z : Z) : string := NilZero.string_of_int (Z.to_int z).

Definition newline : ascii := ascii_of_nat 10.
Definition nl : string := String newline EmptyString.

End PyStr.

(* ------------------------------------------------------------------ *)
(** ** Exceptions *)

Inductive exn : Type :=
| FileNotFoundError (msg : string)
| ImportError (msg : string)
| ValueError (msg : string)
    (** a plain [ValueError] *)
| JSONDecodeError (msg doc : string)
    (** [json.JSONDecodeError], a subclass of [ValueError]; [doc] is the text
        that was being parsed *)
| AttributeError (msg : string)
| TypeError (msg : string)
| KeyError (key : string)
| OverflowError (msg : string)
| RecursionError (msg : string)
| RuntimeError (msg : string)
| OSError (msg : string)
| LibraryError (msg : string)
    (** any other [Exception] raised by an external library or by the
        generation transport *).

Definition result (A : Type) : Type := (exn + A)%type.

(** [isinstance(e, ValueError)] *)
Definition is_ValueError (e : exn) : bool :=
  match e with
  | ValueError _ | JSONDecodeError _ _ => true
  | _ => false
  end.

(** [isinstance(e, json.JSONDecodeError)] *)
Definition is_JSONDecodeError (e : exn) : bool :=
  match e with
  | JSONDecodeError _ _ => true
  | _ => false
  end.

(** [str(e)] *)
Definition exn_str (e : exn) : string :=
  match e with
  | FileNotFoundError m | ImportError m | ValueError m | AttributeError m
  | TypeError m | OverflowError m | RecursionError m | RuntimeError m
  | OSError m | LibraryError m => m
  | JSONDecodeError m _ => m
  | KeyError k => "'" ++ k ++ "'"
  end.

(* ------------------------------------------------------------------ *)
(** ** Dictionaries with string keys, in insertion order *)

Module PyDict.
Section Dict.
Variable V : Type.

Definition t : Type := list (string * V).

(** [d.get(k)] *)
Fixpoint get (k : string) (d : t) : option V :=
  match d with
  | [] => None
  | (k', v) :: d' => if String.eqb k k' then Some v else get k d'
  end.

(** [k in d] *)
Definition mem (k : string) (d : t) : bool :=
  match get k d with Some _ => true | None => false end.

(** [d[k] = v]: an existing key keeps its position. *)
Fixpoint set (k : string) (v : V) (d : t) : t :=
  match d with
  | [] => [(k, v)]
  | (k', v') :: d' =>
      if String.eqb k k' then (k', v) :: d' else (k', v') :: set k v d'
  end.

(** [d.get(k, default)] *)
Definition get_default (k : string) (default : V) (d : t) : V :=
  match get k d with Some v => v | None => default end.

(** [list(d.keys())] *)
Definition keys (d : t) : list string := map fst d.

(** [len(d)] *)
Definition len (d : t) : nat := length d.

(** [d.clear()] leaves the empty dictionary. *)
Definition clear (d : t) : t := [].

(** [{**d, k: v}] *)
Definition update1 (d : t) (k : string) (v : V) : t := set k v d.
End Dict.
End PyDict.

(* ------------------------------------------------------------------ *)
(** ** JSON values, as [json.loads] returns them *)

(** A Python [float], kept symbolic: no floating-point arithmetic is
    performed by the model. *)
Inductive pyfloat : Type :=
| FloatLit (lexeme : string)      (** the float a literal denotes *)
| FloatDiv (num den : Z)          (** [num / den], true division of ints *).

Inductive json : Type :=
| JNull
| JBool (b : bool)
| JInt (z : Z)
| JFloat (f : pyfloat)
| JString (s : string)
| JArray (items : list json)
| JObject (members : list (string * json)).

(** [{}], [[]], [0.0] and [""] as the tools use them for defaults. *)
Definition empty_dict : json := JObject [].
Definition empty_list : json := JArray [].
Definition zero_float : json := JFloat (FloatLit "0.0").
Definition empty_str : json := JString "".

(** [v is None] *)
Definition is_None (v : json) : bool :=
  match v with JNull => true | _ => false end.

(** The pure library functions the code calls. *)
Record Runtime : Type := {
  (** [json.loads(s)].  A text that is no JSON gives a [JSONDecodeError];
      the decoder also raises a plain [ValueError] (an integer literal
      beyond the digit limit) and a [RecursionError] (nesting too deep). *)
  json_loads : string -> result json;
  (** [[row for row in csv.reader(StringIO(s))]] *)
  csv_reader : string -> result (list (list string));
  (** [repr(v)], used for floats and containers *)
  py_repr : json -> string;
  (** [sys.get_int_max_str_digits()]: [0] when there is no limit, 4300
      unless it was changed *)
  int_max_str_digits : nat
}.

(** [str(v)] *)
Definition py_str (rt : Runtime) (v : json) : string :=
  match v with
  | JString s => s
  | JInt z => PyStr.of_Z z
  | JBool true => "True"
  | JBool false => "False"
  | JNull => "None"
  | JFloat _ | JArray _ | JObject _ => py_repr rt v
  end.

(* ------------------------------------------------------------------ *)
(** ** The outside world *)

Inductive read_outcome : Type :=
| ReadText (content : string)
| ReadUnicodeDecodeError
| ReadRaises (e : exn).

(** A page of an opened PDF: what [extract_text] and [extract_tables] do. *)
Record PdfPage : Type := {
  extract_text : result (option string);
  extract_tables : result (list (list (list (option string))))
}.

Inductive pdf_outcome : Type :=
| PdfRaises (e : exn)
| PdfOpened (pdf_metadata : list (string * json)) (pdf_pages : list PdfPage).

(** An image opened by PIL, with what tesseract answers on it. *)
Record Image : Type := {
  size : Z * Z;
  mode : string;
  image_to_string : string -> result string;
  (** [str(c)] for every [c] of [image_to_data(...)["conf"]] *)
  image_to_data_conf : result (list string)
}.

Record World : Type := {
  (** [str(Path(p).resolve())]: it raises on some paths (a [ValueError]
      for an embedded null character and, before Python 3.13, a
      [RuntimeError] for a loop of symbolic links) *)
  path_resolve : string -> result string;
  (** [os.path.exists] *)
  path_exists : string -> bool;
  (** [open(p, encoding="utf-8").read()] *)
  open_utf8 : string -> read_outcome;
  (** [open(p, encoding="latin-1").read()] *)
  open_latin1 : string -> result string;
  (** [import pdfplumber] succeeds *)
  pdfplumber_importable : bool;
  pdfplumber_open : string -> pdf_outcome;
  (** [from pdf2image import convert_from_path; import pytesseract] succeed *)
  pdf_ocr_importable : bool;
  (** [convert_from_path(p)], each page image given by what
      [image_to_string(img, lang)] does on it *)
  convert_from_path : string -> string -> result (list (result string));
  (** [from PIL import Image; import pytesseract] succeed *)
  pil_importable : bool;
  image_open : string -> result Image;
  (** the raw text of the [n]-th reply of the language model, or the error
      its transport raises *)
  llm_reply : nat -> result string;
  (** [datetime.now().isoformat()] *)
  now : string
}.

(* ------------------------------------------------------------------ *)
(** ** document_processor.py *)

Inductive metaval : Type :=
| MetaJson (v : json)
| MetaSize (width height : Z).

Module ExtractedDocument.
Record t : Type := mk {
  file_path : string;
  file_type : string;
  raw_text : string;
  pages : list string;
  tables : list (list (list string));
  images : list string;
  metadata : list (string * metaval);
  extraction_method : string;
  extracted_at : string
}.
End ExtractedDocument.

Record DocumentProcessor : Type := {
  ocr_enabled : bool;
  ocr_language : string
}.

(** [DocumentProcessor()] *)
Definition default_processor : DocumentProcessor :=
  {| ocr_enabled := true; ocr_language := "eng" |}.

(** [Path(p).name] for a POSIX path. *)
Definition path_name (p : string) : string :=
  last (filter (fun c => negb (PyStr.is_empty c || String.eqb c "."))
               (PyStr.split "/" p)) "".

(** [Path(p).suffix] *)
Definition path_suffix (p : string) : string :=
  let name := path_name p in
  match PyStr.rfind "." name with
  | Some i => if ((0 <? i) && (i <? String.length name - 1))%nat
              then PyStr.drop i name else ""
  | None => ""
  end.

Definition type_map : list (string * string) :=
  [ (".pdf", "pdf");
    (".png", "png"); (".jpg", "jpg"); (".jpeg", "jpeg");
    (".tiff", "tiff"); (".tif", "tiff"); (".bmp", "bmp");
    (".txt", "txt"); (".text", "txt");
    (".json", "json"); (".csv", "csv");
    (".html", "html"); (".htm", "html");
    (".md", "markdown"); (".markdown", "markdown") ].

(** The extensions the interface recognizes, in the order of the table. *)
Definition recognized_extensions : list string :=
  [ ".pdf"; ".png"; ".jpg"; ".jpeg"; ".tiff"; ".tif"; ".bmp"; ".txt";
    ".text"; ".json"; ".csv"; ".html"; ".htm"; ".md"; ".markdown" ].

Definition _detect_file_type (file_path : string) : string :=
  let ext := PyStr.lower (path_suffix file_path) in
  match PyDict.get ext type_map with
  | Some t => t
  | None => "txt"
  end.

Section DocumentProcessing.
Variable rt : Runtime.
Variable w : World.
Variable self : DocumentProcessor.

Import ExtractedDocument.

(** The header line that precedes the text of page [i] (counted from 0). *)
Definition page_header (i : nat) (ocr : bool) : string :=
  PyStr.nl ++ "--- Page " ++ PyStr.of_nat (i + 1)
    ++ (if ocr then " (OCR)" else "") ++ " ---" ++ PyStr.nl.

(** The [for i, img in enumerate(images)] loop of [_ocr_pdf]. *)
Fixpoint ocr_pages_loop (i : nat) (imgs : list (result string))
         (pages : list string) (all_text : string)
  : result (string * list string) :=
  match imgs with
  | [] => inr (all_text, pages)
  | img :: rest =>
      match img with
      | inl e => inl e
      | inr page_text =>
          ocr_pages_loop (S i) rest (pages ++ [page_text])
                         (all_text ++ page_header i true ++ page_text)
      end
  end.

Definition _ocr_pdf (file_path : string) : result (string * list string) :=
  if negb (pdf_ocr_importable w) then inr ("", [])
  else
    match convert_from_path w file_path (ocr_language self) with
    | inl e => inl e
    | inr imgs => ocr_pages_loop 0 imgs [] ""
    end.

(** [str(cell).strip() if cell else ""] *)
Definition clean_cell (cell : option string) : string :=
  match cell with
  | Some s => if PyStr.is_empty s then "" else PyStr.strip s
  | None => ""
  end.

(** The tables of one page that pass [if table:], cleaned. *)
Definition clean_tables (page_tables : list (list (list (option string))))
  : list (list (list string)) :=
  map (map (map clean_cell))
      (filter (fun table => negb (Nat.eqb (length table) 0)) page_tables).

(** The local variables of [_process_pdf]. *)
Record pdf_locals : Type := {
  l_pages : list string;
  l_tables : list (list (list string));
  l_all_text : string;
  l_metadata : list (string * metaval)
}.

(** The [for i, page in enumerate(pdf.pages)] loop: the locals when it
    stops, and the exception that stopped it, if any. *)
Fixpoint pdf_pages_loop (i : nat) (ps : list PdfPage) (l : pdf_locals)
  : pdf_locals * option exn :=
  match ps with
  | [] => (l, None)
  | page :: rest =>
      match extract_text page with
      | inl e => (l, Some e)
      | inr t =>
          let page_text :=
            match t with
            | Some s => if PyStr.is_empty s then "" else s
            | None => ""
            end in
          let l1 := {| l_pages := l_pages l ++ [page_text];
                       l_tables := l_tables l;
                       l_all_text :=
                         l_all_text l ++ page_header i false ++ page_text;
                       l_metadata := l_metadata l |} in
          match extract_tables page with
          | inl e => (l1, Some e)
          | inr page_tables =>
              pdf_pages_loop (S i) rest
                {| l_pages := l_pages l1;
                   l_tables := l_tables l1 ++ clean_tables page_tables;
                   l_all_text := l_all_text l1;
                   l_metadata := l_metadata l1 |}
          end
      end
  end.

Definition set_ocr_result (l : pdf_locals) (r : string * list string)
  : pdf_locals :=
  {| l_pages := snd r;
     l_tables := l_tables l;
     l_all_text := fst r;
     l_metadata :=
       PyDict.set "ocr_used" (MetaJson (JBool true)) (l_metadata l) |}.

(** The [except Exception as e:] handler of [_process_pdf]. *)
Definition pdf_except (file_path : string) (e : exn) (l : pdf_locals)
  : pdf_locals :=
  let l1 := {| l_pages := l_pages l;
               l_tables := l_tables l;
               l_all_text := l_all_text l;
               l_metadata :=
                 PyDict.set "error" (MetaJson (JString (exn_str e)))
                            (l_metadata l) |} in
  if ocr_enabled self then
    match _ocr_pdf file_path with
    | inr r => set_ocr_result l1 r
    | inl _ => l1
    end
  else l1.

(** The locals before the [try:] block, and once the PDF is open. *)
Definition pdf_locals_init : pdf_locals :=
  {| l_pages := []; l_tables := []; l_all_text := ""; l_metadata := [] |}.

Definition pdf_locals_opened (info : list (string * json))
           (ps : list PdfPage) : pdf_locals :=
  {| l_pages := []; l_tables := []; l_all_text := "";
     l_metadata :=
       [ ("page_count", MetaJson (JInt (Z.of_nat (length ps))));
         ("pdf_info", MetaJson (JObject info)) ] |}.

(** The [try:] block of [_process_pdf] followed by its handler. *)
Definition pdf_try (file_path : string) : pdf_locals :=
  let l0 := pdf_locals_init in
  match pdfplumber_open w file_path with
  | PdfRaises e => pdf_except file_path e l0
  | PdfOpened info ps =>
      let l1 := pdf_locals_opened info ps in
      match pdf_pages_loop 0 ps l1 with
      | (l2, Some e) => pdf_except file_path e l2
      | (l2, None) =>
          if PyStr.is_empty (PyStr.strip (l_all_text l2))
             && ocr_enabled self
          then match _ocr_pdf file_path with
               | inr r => set_ocr_result l2 r
               | inl e => pdf_except file_path e l2
               end
          else l2
      end
  end.

(** [not metadata.get("ocr_used")] *)
Definition ocr_not_used (md : list (string * metaval)) : bool :=
  match PyDict.get "ocr_used" md with
  | Some (MetaJson (JBool true)) => false
  | _ => true
  end.

Definition _process_pdf (file_path : string) : result ExtractedDocument.t :=
  if negb (pdfplumber_importable w)
  then inl (ImportError "pdfplumber required: pip install pdfplumber")
  else
    let l := pdf_try file_path in
    inr {| file_path := file_path;
           file_type := "pdf";
           raw_text := PyStr.strip (l_all_text l);
           pages := l_pages l;
           tables := l_tables l;
           images := [];
           metadata := l_metadata l;
           extraction_method :=
             if ocr_not_used (l_metadata l) then "pdfplumber" else "ocr";
           extracted_at := now w |}.

(** [str.isdigit] on one character (code points below 256): the ASCII
    digits and the superscripts 2, 3 and 1. *)
Definition is_digit_char (c : ascii) : bool :=
  let n := nat_of_ascii c in
  (((48 <=? n) && (n <=? 57)) || (n =? 178) || (n =? 179) || (n =? 185))%nat.

Definition isdigit (s : string) : bool :=
  negb (PyStr.is_empty s)
  && forallb is_digit_char (list_ascii_of_string s).

(** The value of a string of ASCII digits, most significant first;
    [None] when a character is no ASCII digit. *)
Fixpoint int_of_digits (acc : Z) (s : string) : option Z :=
  match s with
  | EmptyString => Some acc
  | String c s' =>
      let n := nat_of_ascii c in
      if ((48 <=? n) && (n <=? 57))%nat
      then int_of_digits (10 * acc + Z.of_nat (n - 48)) s'
      else None
  end.

(** [int(s)] for a string that passed [isdigit]; [None] stands for the
    [ValueError] that [int] raises for a digit that is no ASCII digit (the
    superscripts), and for more digits than the limit. *)
Definition py_int (s : string) : option Z :=
  match int_of_digits 0 s with
  | None => None
  | Some z =>
      if ((0 <? int_max_str_digits rt)
          && (int_max_str_digits rt <? String.length s))%nat
      then None
      else Some z
  end.

(** Whether [num / den], for ints with [den > 0], is beyond the floats and
    raises [OverflowError]: the quotient rounds to a finite double only
    below [2^1024 - 2^970]. *)
Definition true_div_overflows (num den : Z) : bool :=
  (den * (2 ^ 1024 - 2 ^ 970) <=? num)%Z.

(** [[int(c) for c in data["conf"] if str(c).isdigit() and int(c) > 0]];
    [None] when an [int(c)] raises. *)
Fixpoint positive_confidences (conf : list string) : option (list Z) :=
  match conf with
  | [] => Some []
  | c :: rest =>
      if isdigit c then
        match py_int c with
        | None => None
        | Some n =>
            match positive_confidences rest with
            | None => None
            | Some l => Some (if (0 <? n)%Z then n :: l else l)
            end
        end
      else positive_confidences rest
  end.

(** The [try: ... except: avg_confidence = 0] block of [_process_image]:
    whatever is raised inside it gives [0]. *)
Definition avg_confidence (img : Image) : json :=
  match image_to_data_conf img with
  | inl _ => JInt 0
  | inr conf =>
      match positive_confidences conf with
      | None => JInt 0
      | Some [] => JInt 0
      | Some confidences =>
          let total := fold_right Z.add 0%Z confidences in
          let n := Z.of_nat (length confidences) in
          if true_div_overflows total n then JInt 0
          else JFloat (FloatDiv total n)
      end
  end.

Definition _process_image (file_path : string)
  : result ExtractedDocument.t :=
  if negb (ocr_enabled self) then
    inr {| file_path := file_path;
           file_type := _detect_file_type file_path;
           raw_text := "";
           pages := []; tables := []; images := [];
           metadata := [("error", MetaJson (JString "OCR disabled"))];
           extraction_method := "unknown";
           extracted_at := now w |}
  else if negb (pil_importable w) then
    inl (ImportError "Pillow and pytesseract required for image processing")
  else
    match image_open w file_path with
    | inl e => inl e
    | inr img =>
        match image_to_string img (ocr_language self) with
        | inl e => inl e
        | inr text =>
            inr {| file_path := file_path;
                   file_type := _detect_file_type file_path;
                   raw_text := PyStr.strip text;
                   pages := [text]; tables := []; images := [];
                   metadata :=
                     [ ("image_size",
                        MetaSize (fst (size img)) (snd (size img)));
                       ("image_mode", MetaJson (JString (mode img)));
                       ("ocr_confidence", MetaJson (avg_confidence img)) ];
                   extraction_method := "ocr";
                   extracted_at := now w |}
        end
    end.

(** [row.get(h, "")] on an element of the array, then [str]. *)
Definition json_cell (row : list (string * json)) (h : string) : string :=
  match PyDict.get h row with
  | Some v => py_str rt v
  | None => ""
  end.

(** [[str(row.get(h, "")) for h in headers]]: [None] when [row.get] is
    evaluated on a [row] that has no [get] (it is not an object), which
    takes a header. *)
Definition json_row (headers : list string) (row : json)
  : option (list string) :=
  match headers, row with
  | [], _ => Some []
  | _ :: _, JObject members => Some (map (json_cell members) headers)
  | _ :: _, _ => None
  end.

(** [[[str(row.get(h, "")) for h in headers] for row in data]] *)
Fixpoint json_rows (headers : list string) (data : list json)
  : option (list (list string)) :=
  match data with
  | [] => Some []
  | row :: rest =>
      match json_row headers row with
      | Some cells =>
          match json_rows headers rest with
          | Some rows => Some (cells :: rows)
          | None => None
          end
      | None => None
      end
  end.

(** The [try: ... except: pass] block of the JSON branch: the tables after
    it. *)
Definition json_tables (content : string) : list (list (list string)) :=
  match json_loads rt content with
  | inl _ => []
  | inr (JArray ((JObject first :: rest) as data)) =>
      let headers := PyDict.keys first in
      match json_rows headers data with
      | Some rows => [headers :: rows]
      | None => []
      end
  | inr _ => []
  end.

(** The two [open(...).read()] attempts of [_process_text]. *)
Definition read_content (file_path : string) : result string :=
  match open_utf8 w file_path with
  | ReadText content => inr content
  | ReadUnicodeDecodeError => open_latin1 w file_path
  | ReadRaises e => inl e
  end.

Definition _process_text (file_path : string) : result ExtractedDocument.t :=
  let file_type := _detect_file_type file_path in
  match read_content file_path with
  | inl e => inl e
  | inr content =>
      let tables_r : result (list (list (list string))) :=
        if String.eqb file_type "csv" then
          match csv_reader rt content with
          | inl e => inl e
          | inr rows => inr [rows]
          end
        else if String.eqb file_type "json" then inr (json_tables content)
        else inr [] in
      match tables_r with
      | inl e => inl e
      | inr tbls =>
          inr {| file_path := file_path;
                 file_type := file_type;
                 raw_text := PyStr.strip content;
                 pages := [content];
                 tables := tbls;
                 images := [];
                 metadata :=
                   [ ("char_count",
                      MetaJson (JInt (Z.of_nat (String.length content))));
                     ("line_count",
                      MetaJson (JInt (Z.of_nat
                        (PyStr.count_char PyStr.newline content + 1)))) ];
                 extraction_method := "text";
                 extracted_at := now w |}
      end
  end.

Definition image_types : list string := ["png"; "jpg"; "jpeg"; "tiff"; "bmp"].

(** What [process] does once the path is resolved. *)
Definition process_resolved_path (file_path : string)
  : result ExtractedDocument.t :=
  if negb (path_exists w file_path)
  then inl (FileNotFoundError ("Document not found: " ++ file_path))
  else
    let file_type := _detect_file_type file_path in
    if String.eqb file_type "pdf" then _process_pdf file_path
    else if existsb (String.eqb file_type) image_types
    then _process_image file_path
    else _process_text file_path.

Definition process (file_path : string) : result ExtractedDocument.t :=
  match path_resolve w file_path with
  | inl e => inl e
  | inr file_path => process_resolved_path file_path
  end.

End DocumentProcessing.

(* ------------------------------------------------------------------ *)
(** ** llm_client.py: decoding the reply of [generate_structured] *)

Section StructuredDecode.
Variable rt : Runtime.

Definition fence : string := "```".

(** [if content.startswith(fence): content = nl.join(content.split(nl)[1:-1])] *)
Definition strip_code_fence (content : string) : string :=
  if PyStr.startswith content fence
  then PyStr.join PyStr.nl
         (PyStr.slice_1_m1 (PyStr.split PyStr.newline content))
  else content.

(** [re.search(r'\{[\s\S]*\}', content)]: from the first opening brace to
    the last closing brace after it. *)
Definition brace_span (content : string) : option string :=
  match PyStr.from_first "{" content with
  | Some (String open rest) =>
      match PyStr.upto_last "}" rest with
      | Some r => Some (String open r)
      | None => None
      end
  | _ => None
  end.

(** The message of the [ValueError] raised when no brace span is found. *)
Definition parse_failure_message (e content : string) : string :=
  "Failed to parse JSON response: " ++ e ++ PyStr.nl
    ++ "Content: " ++ content.

(** The part of [ClaudeClient.generate_structured] that follows the call
    to [generate]: from the reply text to the parsed value. *)
Definition parse_structured (response_content : string) : result json :=
  let content := strip_code_fence (PyStr.strip response_content) in
  match json_loads rt content with
  | inr v => inr v
  | inl (JSONDecodeError e _) =>
      match brace_span content with
      | Some span => json_loads rt span
      | None => inl (ValueError (parse_failure_message e content))
      end
  | inl e => inl e
  end.

End StructuredDecode.

(* ------------------------------------------------------------------ *)
(** ** tools.py: typed results.  The fields hold whatever value the reply
       carries: nothing checks it against the declared type. *)

Module ExtractionResult.
Record t : Type := mk {
  fields : json; form_type : json; confidence : json; reasoning : json
}.
End ExtractionResult.

Module QAResult.
Record t : Type := mk {
  answer : json; confidence : json; evidence : json; reasoning : json
}.
End QAResult.

Module SummaryResult.
Record t : Type := mk {
  summary : json; key_points : json; form_type : json;
  important_values : json
}.
End SummaryResult.

Module AnalysisResult.
Record t : Type := mk {
  answer : json; insights : json; comparisons : json; statistics : json
}.
End AnalysisResult.

(** One call of the model, given by the arguments its prompt is built
    from.  The prompt itself is a text computed from these by slicing,
    [json.dumps] and concatenation, which do not raise on documents and on
    values that came out of [json.loads]; the reply of the model is not
    assumed to depend on it in any particular way (see [llm_reply]). *)
Inductive llm_request : Type :=
| ReqExtractFields (document : ExtractedDocument.t)
| ReqAnswerQuestion (question : string) (document : ExtractedDocument.t)
                    (extracted_fields : json)
| ReqSummarize (document : ExtractedDocument.t) (extracted_fields : json)
               (style : string)
| ReqAnalyze (question : string) (documents : list ExtractedDocument.t)
             (extracted_fields_list : list json)
| ReqClassifyTask (task : string) (question : option string) (num_docs : nat).

(** [type(v).__name__] *)
Definition type_name (v : json) : string :=
  match v with
  | JNull => "NoneType"
  | JBool _ => "bool"
  | JInt _ => "int"
  | JFloat _ => "float"
  | JString _ => "str"
  | JArray _ => "list"
  | JObject _ => "dict"
  end.

(** The [AttributeError] of calling [get] on a value that is no [dict]. *)
Definition no_get (v : json) : exn :=
  AttributeError ("'" ++ type_name v ++ "' object has no attribute 'get'").

(** [result.get(key, default)] on the value [generate_structured] returned. *)
Definition result_get (v : json) (key : string) (default : json)
  : result json :=
  match v with
  | JObject d => inr (PyDict.get_default key default d)
  | _ => inl (no_get v)
  end.

(** [v[key]] *)
Definition subscript (v : json) (key : string) : result json :=
  match v with
  | JObject d =>
      match PyDict.get key d with
      | Some x => inr x
      | None => inl (KeyError key)
      end
  | _ => inl (TypeError "indices must be integers or object is not subscriptable")
  end.

(** [len(v)] *)
Definition py_len (v : json) : result nat :=
  match v with
  | JObject d => inr (length d)
  | JArray l => inr (length l)
  | JString s => inr (String.length s)
  | _ => inl (TypeError "object has no len()")
  end.

(** The integers that [float(z)] accepts: those that round to a finite
    double. *)
Definition fits_float (z : Z) : bool :=
  (Z.abs z <? 2 ^ 1024 - 2 ^ 970)%Z.

(** Whether the format spec [.1%] applies to the value: what the f-strings
    of the log messages need. *)
Definition format_percent (v : json) : result unit :=
  match v with
  | JInt z => if fits_float z then inr tt
              else inl (OverflowError "int too large to convert to float")
  | JBool _ | JFloat _ => inr tt
  | JString _ => inl (ValueError "Unknown format code '%' for object of type 'str'")
  | JNull | JArray _ | JObject _ =>
      inl (TypeError ("unsupported format string passed to "
                        ++ type_name v ++ ".__format__"))
  end.

(* ------------------------------------------------------------------ *)
(** ** agent.py: state *)

Module ProcessedForm.
Record t : Type := mk {
  file_path : string;
  file_type : string;
  raw_text : string;
  extracted_fields : json;
  form_type : json;
  extraction_confidence : json;
  tables : list (list (list string));
  metadata : list (string * metaval);
  processed_at : string
}.
End ProcessedForm.

(** The mutable state of an [IntelligentFormAgent], with the history of
    the calls its client has made to the model. *)
Record Agent : Type := {
  verbose : bool;
  doc_processor : DocumentProcessor;
  _processed_forms : PyDict.t ProcessedForm.t;
  total_llm_calls : nat;
  call_history : list llm_request
}.

(** The state [__init__] leaves. *)
Definition new_agent (verbose : bool) : Agent :=
  {| verbose := verbose;
     doc_processor := default_processor;
     _processed_forms := [];
     total_llm_calls := 0;
     call_history := [] |}.

(** Computations that read and change the agent and may raise. *)
Definition M (A : Type) : Type := Agent -> result A * Agent.

Definition ret {A} (a : A) : M A := fun s => (inr a, s).

Definition raise {A} (e : exn) : M A := fun s => (inl e, s).

Definition bind {A B} (c : M A) (k : A -> M B) : M B :=
  fun s =>
    match c s with
    | (inr a, s') => k a s'
    | (inl e, s') => (inl e, s')
    end.

Definition lift {A} (r : result A) : M A := fun s => (r, s).

Declare Scope agent_scope.
Delimit Scope agent_scope with agent.
Notation "x <- c ;; k" := (bind c (fun x => k))
  (at level 100, c at next level, right associativity) : agent_scope.
Notation "c ;;; k" := (bind c (fun _ => k))
  (at level 100, right associativity) : agent_scope.

(** [[f(x) for x in l]] when [f] has effects. *)
Fixpoint for_each {A B} (f : A -> M B) (l : list A) : M (list B) :=
  match l with
  | [] => ret []
  | x :: t => (y <- f x ;; ys <- for_each f t ;; ret (y :: ys))%agent
  end.

(** [self.total_llm_calls += 1] *)
Definition count_llm_call : M unit :=
  fun s => (inr tt,
            {| verbose := verbose s;
               doc_processor := doc_processor s;
               _processed_forms := _processed_forms s;
               total_llm_calls := total_llm_calls s + 1;
               call_history := call_history s |}).

(** The agent after its client has sent [req] to the model. *)
Definition record_request (req : llm_request) (s : Agent) : Agent :=
  {| verbose := verbose s;
     doc_processor := doc_processor s;
     _processed_forms := _processed_forms s;
     total_llm_calls := total_llm_calls s;
     call_history := call_history s ++ [req] |}.

(** [self._processed_forms[file_path] = form] *)
Definition cache_form (file_path : string) (form : ProcessedForm.t) : M unit :=
  fun s => (inr tt,
            {| verbose := verbose s;
               doc_processor := doc_processor s;
               _processed_forms :=
                 PyDict.set file_path form (_processed_forms s);
               total_llm_calls := total_llm_calls s;
               call_history := call_history s |}).

(* ------------------------------------------------------------------ *)
(** ** The client, the tools and the agent's operations *)

Section AgentOperations.
Variable rt : Runtime.
Variable w : World.

Local Open Scope agent_scope.

(** [ClaudeClient.generate]: one call of the model.  The reply is the
    next one of the world; the request joins the history whether the
    transport raises or not. *)
Definition generate (req : llm_request) : M string :=
  fun s => (llm_reply w (length (call_history s)), record_request req s).

(** What [generate_structured] returns when it is called in state [s]. *)
Definition structured_reply (s : Agent) : result json :=
  match llm_reply w (length (call_history s)) with
  | inl e => inl e
  | inr response => parse_structured rt response
  end.

(** [ClaudeClient.generate_structured] *)
Definition generate_structured (req : llm_request) : M json :=
  response <- generate req ;;
  lift (parse_structured rt response).

(** [FieldExtractionTool.run] *)
Definition FieldExtractionTool_run (document : ExtractedDocument.t)
  : M ExtractionResult.t :=
  result <- generate_structured (ReqExtractFields document) ;;
  fields <- lift (result_get result "fields" empty_dict) ;;
  form_type <- lift (result_get result "form_type" JNull) ;;
  confidence <- lift (result_get result "confidence" zero_float) ;;
  reasoning <- lift (result_get result "reasoning" empty_str) ;;
  ret (ExtractionResult.mk fields form_type confidence reasoning).

(** [QuestionAnsweringTool.run] *)
Definition QuestionAnsweringTool_run (question : string)
           (document : ExtractedDocument.t) (extracted_fields : json)
  : M QAResult.t :=
  result <- generate_structured
              (ReqAnswerQuestion question document extracted_fields) ;;
  answer <- lift (result_get result "answer"
                             (JString "Unable to determine")) ;;
  confidence <- lift (result_get result "confidence" zero_float) ;;
  evidence <- lift (result_get result "evidence" empty_list) ;;
  reasoning <- lift (result_get result "reasoning" empty_str) ;;
  ret (QAResult.mk answer confidence evidence reasoning).

(** [SummarizationTool.run] *)
Definition SummarizationTool_run (document : ExtractedDocument.t)
           (extracted_fields : json) (style : string)
  : M SummaryResult.t :=
  result <- generate_structured
              (ReqSummarize document extracted_fields style) ;;
  summary <- lift (result_get result "summary" empty_str) ;;
  key_points <- lift (result_get result "key_points" empty_list) ;;
  form_type <- lift (result_get result "form_type" (JString "unknown")) ;;
  important_values <-
    lift (result_get result "important_values" empty_dict) ;;
  ret (SummaryResult.mk summary key_points form_type important_values).

(** [CrossDocumentAnalysisTool.run] *)
Definition CrossDocumentAnalysisTool_run (question : string)
           (documents : list ExtractedDocument.t)
           (extracted_fields_list : list json)
  : M AnalysisResult.t :=
  result <- generate_structured
              (ReqAnalyze question documents extracted_fields_list) ;;
  answer <- lift (result_get result "answer" empty_str) ;;
  insights <- lift (result_get result "insights" empty_list) ;;
  comparisons <- lift (result_get result "comparisons" empty_dict) ;;
  statistics <- lift (result_get result "statistics" empty_dict) ;;
  ret (AnalysisResult.mk answer insights comparisons statistics).

(** The f-string of the log message after field extraction: it is built
    whether [verbose] is set or not. *)
Definition log_extraction (r : ExtractionResult.t) : result unit :=
  match py_len (ExtractionResult.fields r) with
  | inl e => inl e
  | inr _ => format_percent (ExtractionResult.confidence r)
  end.

Definition process_form (file_path : string) (force_reprocess : bool)
  : M ProcessedForm.t :=
  fun s =>
    match (if negb force_reprocess
           then PyDict.get file_path (_processed_forms s) else None) with
    | Some form => (inr form, s)
    | None =>
        (extracted <- lift (process rt w (doc_processor s) file_path) ;;
         extraction_result <- FieldExtractionTool_run extracted ;;
         count_llm_call ;;;
         lift (log_extraction extraction_result) ;;;
         let form :=
           ProcessedForm.mk
             file_path
             (ExtractedDocument.file_type extracted)
             (ExtractedDocument.raw_text extracted)
             (ExtractionResult.fields extraction_result)
             (ExtractionResult.form_type extraction_result)
             (ExtractionResult.confidence extraction_result)
             (ExtractedDocument.tables extracted)
             (PyDict.update1 (ExtractedDocument.metadata extracted)
                "extraction_reasoning"
                (MetaJson (ExtractionResult.reasoning extraction_result)))
             (now w) in
         cache_form file_path form ;;;
         ret form) s
    end.

Definition process_forms (file_paths : list string)
  : M (list ProcessedForm.t) :=
  for_each (fun path => process_form path false) file_paths.

(** The [ExtractedDocument] that [ask], [summarize] and [analyze] rebuild
    from a form. *)
Definition document_of_form (form : ProcessedForm.t) : ExtractedDocument.t :=
  ExtractedDocument.mk
    (ProcessedForm.file_path form) (ProcessedForm.file_type form)
    (ProcessedForm.raw_text form) [] (ProcessedForm.tables form) []
    (ProcessedForm.metadata form) "unknown" (now w).

Definition ask (question : string) (form : ProcessedForm.t) : M QAResult.t :=
  result <- QuestionAnsweringTool_run question (document_of_form form)
              (ProcessedForm.extracted_fields form) ;;
  count_llm_call ;;;
  lift (format_percent (QAResult.confidence result)) ;;;
  ret result.

Definition summarize (form : ProcessedForm.t) (style : string)
  : M SummaryResult.t :=
  result <- SummarizationTool_run (document_of_form form)
              (ProcessedForm.extracted_fields form) style ;;
  count_llm_call ;;;
  ret result.

Definition analyze (question : string) (forms : list ProcessedForm.t)
  : M AnalysisResult.t :=
  result <- CrossDocumentAnalysisTool_run question
              (map document_of_form forms)
              (map ProcessedForm.extracted_fields forms) ;;
  count_llm_call ;;;
  ret result.

Definition ask_multiple (question : string) (forms : list ProcessedForm.t)
  : M AnalysisResult.t :=
  analyze question forms.

Definition _analyze_task (task : string) (question : option string)
           (num_docs : nat) : M json :=
  result <- generate_structured (ReqClassifyTask task question num_docs) ;;
  count_llm_call ;;;
  ret result.

(** The dictionaries [run_workflow] returns, by their ["type"]. *)
Inductive workflow_result : Type :=
| WfExtraction (task : string) (forms : list ProcessedForm.t)
| WfQA (task : string) (answer confidence evidence insights : json)
| WfSummarization (task : string)
                  (summaries : list (string * json * json))
| WfAnalysis (task : string)
             (answer insights statistics comparisons : json)
| WfGeneral (task : string) (forms : list ProcessedForm.t)
            (summaries : list json).

(** [question or task] *)
Definition question_or_task (question : option string) (task : string)
  : string :=
  match question with
  | Some q => if PyStr.is_empty q then task else q
  | None => task
  end.

(** [v == s] for a string [s] *)
Definition eq_str (v : json) (s : string) : bool :=
  match v with
  | JString t => String.eqb t s
  | _ => false
  end.

(** The [elif task_analysis["task_type"] == "qa":] branch. *)
Definition workflow_qa (task : string) (question : option string)
           (forms : list ProcessedForm.t) : M workflow_result :=
  match forms with
  | [form] =>
      result <- ask (question_or_task question task) form ;;
      ret (WfQA task (QAResult.answer result) (QAResult.confidence result)
                (QAResult.evidence result) empty_list)
  | _ =>
      result <- ask_multiple (question_or_task question task) forms ;;
      ret (WfQA task (AnalysisResult.answer result) JNull empty_list
                (AnalysisResult.insights result))
  end.

Definition run_workflow (task : string) (file_paths : list string)
           (question : option string) : M workflow_result :=
  forms <- process_forms file_paths ;;
  task_analysis <- _analyze_task task question (length forms) ;;
  task_type <- lift (subscript task_analysis "task_type") ;;
  if eq_str task_type "extract" then
    ret (WfExtraction task forms)
  else if eq_str task_type "qa" then
    workflow_qa task question forms
  else if eq_str task_type "summarize" then
    summaries <- for_each (fun f => summarize f "detailed") forms ;;
    ret (WfSummarization task
           (map (fun fs => (ProcessedForm.file_path (fst fs),
                            SummaryResult.summary (snd fs),
                            SummaryResult.key_points (snd fs)))
                (combine forms summaries)))
  else if eq_str task_type "analyze" then
    result <- analyze (question_or_task question task) forms ;;
    ret (WfAnalysis task (AnalysisResult.answer result)
           (AnalysisResult.insights result)
           (AnalysisResult.statistics result)
           (AnalysisResult.comparisons result))
  else
    summaries <- for_each (fun f => summarize f "detailed") forms ;;
    ret (WfGeneral task forms (map SummaryResult.summary summaries)).

End AgentOperations.

(** [get_stats] *)
Record Stats : Type := {
  stat_total_llm_calls : nat;
  stat_cached_forms : nat;
  stat_cached_form_paths : list string
}.

Definition get_stats (s : Agent) : Stats :=
  {| stat_total_llm_calls := total_llm_calls s;
     stat_cached_forms := PyDict.len (_processed_forms s);
     stat_cached_form_paths := PyDict.keys (_processed_forms s) |}.

Definition clear_cache (s : Agent) : Agent :=
  {| verbose := verbose s;
     doc_processor := doc_processor s;
     _processed_forms := PyDict.clear (_processed_forms s);
     total_llm_calls := total_llm_calls s;
     call_history := call_history s |}.

(* ------------------------------------------------------------------ *)
(** ** A reference instance of the runtime, for concrete runs

    [RefJson.loads] decodes the JSON grammar [json.loads] accepts, except
    for [\u] escapes, which it rejects; its error message is a fixed string,
    not the message of Python. *)

Module RefJson.

Definition is_ws (c : ascii) : bool :=
  let n := nat_of_ascii c in
  ((n =? 32) || (n =? 9) || (n =? 10) || (n =? 13))%nat.

Fixpoint skip_ws (s : string) : string :=
  match s with
  | String c s' => if is_ws c then skip_ws s' else s
  | EmptyString => EmptyString
  end.

Definition is_digit (c : ascii) : bool :=
  let n := nat_of_ascii c in ((48 <=? n) && (n <=? 57))%nat.

(** The longest prefix of digits, and what follows it. *)
Fixpoint span_digits (s : string) : string * string :=
  match s with
  | String c s' =>
      if is_digit c
      then let (d, r) := span_digits s' in (String c d, r)
      else (EmptyString, s)
  | EmptyString => (EmptyString, EmptyString)
  end.

Fixpoint digits_value (acc : Z) (s : string) : Z :=
  match s with
  | String c s' =>
      digits_value (10 * acc + Z.of_nat (nat_of_ascii c - 48)) s'
  | EmptyString => acc
  end.

Definition dquote : ascii := ascii_of_nat 34.

(** The body of a string after its opening quote. *)
Fixpoint parse_string (s : string) : option (string * string) :=
  match s with
  | EmptyString => None
  | String c s' =>
      if Ascii.eqb c dquote then Some (EmptyString, s')
      else if Ascii.eqb c "\" then
        match s' with
        | String e s'' =>
            let esc (x : ascii) :=
              match parse_string s'' with
              | Some (t, r) => Some (String x t, r)
              | None => None
              end in
            if Ascii.eqb e dquote then esc dquote
            else if Ascii.eqb e "\" then esc "\"%char
            else if Ascii.eqb e "/" then esc "/"%char
            else if Ascii.eqb e "b" then esc (ascii_of_nat 8)
            else if Ascii.eqb e "f" then esc (ascii_of_nat 12)
            else if Ascii.eqb e "n" then esc (ascii_of_nat 10)
            else if Ascii.eqb e "r" then esc (ascii_of_nat 13)
            else if Ascii.eqb e "t" then esc (ascii_of_nat 9)
            else None
        | EmptyString => None
        end
      else if (nat_of_ascii c <? 32)%nat then None
      else match parse_string s' with
           | Some (t, r) => Some (String c t, r)
           | None => None
           end
  end.

(** An optional fraction or exponent part: its lexeme and the rest. *)
Definition parse_frac (s : string) : string * string :=
  match s with
  | String "." s' =>
      match span_digits s' with
      | (EmptyString, _) => (EmptyString, s)
      | (d, r) => (String "." d, r)
      end
  | _ => (EmptyString, s)
  end.

Definition parse_exp (s : string) : string * string :=
  match s with
  | String e s' =>
      if Ascii.eqb e "e" || Ascii.eqb e "E" then
        let (sign, s'') :=
          match s' with
          | String "+" t => ("+", t)
          | String "-" t => ("-", t)
          | _ => (EmptyString, s')
          end in
        match span_digits s'' with
        | (EmptyString, _) => (EmptyString, s)
        | (d, r) => (String e (sign ++ d), r)
        end
      else (EmptyString, s)
  | EmptyString => (EmptyString, s)
  end.

(** A number whose sign has been read. *)
Definition parse_number (neg : bool) (s : string) : option (json * string) :=
  let int_part :=
    match s with
    | String "0" r => Some ("0", r)
    | String c _ =>
        if is_digit c then Some (span_digits s) else None
    | EmptyString => None
    end in
  match int_part with
  | None => None
  | Some (d, r) =>
      let (frac, r1) := parse_frac r in
      let (ex, r2) := parse_exp r1 in
      let sign := if neg then "-" else "" in
      if PyStr.is_empty frac && PyStr.is_empty ex
      then Some (JInt (if neg then - digits_value 0 d
                       else digits_value 0 d)%Z, r2)
      else Some (JFloat (FloatLit (sign ++ d ++ frac ++ ex)), r2)
  end.

Definition keyword (k : string) (v : json) (s : string)
  : option (json * string) :=
  if PyStr.startswith s k
  then Some (v, PyStr.drop (String.length k) s) else None.

Fixpoint parse_value (fuel : nat) (s : string) : option (json * string) :=
  match fuel with
  | O => None
  | S f =>
      match s with
      | String "{" r =>
          match skip_ws r with
          | String "}" r' => Some (JObject [], r')
          | r' => parse_members f r' []
          end
      | String "[" r =>
          match skip_ws r with
          | String "]" r' => Some (JArray [], r')
          | r' => parse_items f r' []
          end
      | String (Ascii false true false false false true false false) r =>
          match parse_string r with
          | Some (t, r') => Some (JString t, r')
          | None => None
          end
      | String "-" r =>
          match keyword "Infinity" (JFloat (FloatLit "-Infinity")) r with
          | Some x => Some x
          | None => parse_number true r
          end
      | String "t" _ => keyword "true" (JBool true) s
      | String "f" _ => keyword "false" (JBool false) s
      | String "n" _ => keyword "null" JNull s
      | String "N" _ => keyword "NaN" (JFloat (FloatLit "NaN")) s
      | String "I" _ => keyword "Infinity" (JFloat (FloatLit "Infinity")) s
      | _ => parse_number false s
      end
  end

with parse_items (fuel : nat) (s : string) (acc : list json)
  : option (json * string) :=
  match fuel with
  | O => None
  | S f =>
      match parse_value f (skip_ws s) with
      | None => None
      | Some (v, r) =>
          match skip_ws r with
          | String "," r' => parse_items f r' (acc ++ [v])
          | String "]" r' => Some (JArray (acc ++ [v]), r')
          | _ => None
          end
      end
  end

with parse_members (fuel : nat) (s : string) (acc : list (string * json))
  : option (json * string) :=
  match fuel with
  | O => None
  | S f =>
      match skip_ws s with
      | String (Ascii false true false false false true false false) r =>
          match parse_string r with
          | None => None
          | Some (k, r1) =>
              match skip_ws r1 with
              | String ":" r2 =>
                  match parse_value f (skip_ws r2) with
                  | None => None
                  | Some (v, r3) =>
                      match skip_ws r3 with
                      | String "," r4 =>
                          parse_members f r4 (PyDict.set k v acc)
                      | String "}" r4 =>
                          Some (JObject (PyDict.set k v acc), r4)
                      | _ => None
                      end
                  end
              | _ => None
              end
          end
      | _ => None
      end
  end.

Definition loads (s : string) : string + json :=
  match parse_value (2 * String.length s + 2) (skip_ws s) with
  | Some (v, r) =>
      if PyStr.is_empty (skip_ws r) then inr v else inl "invalid JSON"
  | None => inl "invalid JSON"
  end.

End RefJson.

(** JSON texts are written below with apostrophes where JSON has double
    quotes; [json_text] puts the double quotes back. *)
Fixpoint json_text (s : string) : string :=
  match s with
  | EmptyString => EmptyString
  | String c s' =>
      String (if Ascii.eqb c "'" then RefJson.dquote else c) (json_text s')
  end.

(** A runtime for concrete runs: the reference JSON decoder, a CSV reader
    that is never used on the inputs below, and a [repr] that names the
    kind of value only. *)
Definition ref_runtime : Runtime :=
  {| json_loads := fun s =>
       match RefJson.loads s with
       | inl m => inl (JSONDecodeError m s)
       | inr v => inr v
       end;
     csv_reader := fun _ => inl (LibraryError "csv.reader is not modelled");
     py_repr := fun v =>
       match v with
       | JFloat (FloatLit l) => l
       | JArray _ => "<list>"
       | JObject _ => "<dict>"
       | _ => "<value>"
       end;
     int_max_str_digits := 4300 |}.

(** Concrete worlds for the runs below: nothing exists and no library is
    installed unless a field says otherwise. *)
Definition empty_world : World :=
  {| path_resolve := fun p => inr (if PyStr.startswith p "/" then p
                                   else ("/work/" ++ p)%string);
     path_exists := fun _ => false;
     open_utf8 := fun _ => ReadRaises (OSError "cannot open");
     open_latin1 := fun _ => inl (OSError "cannot open");
     pdfplumber_importable := false;
     pdfplumber_open := fun _ => PdfRaises (LibraryError "no such pdf");
     pdf_ocr_importable := false;
     convert_from_path := fun _ _ => inl (LibraryError "no such pdf");
     pil_importable := false;
     image_open := fun _ => inl (LibraryError "no such image");
     llm_reply := fun _ => inl (LibraryError "no connection");
     now := "2024-01-15T10:00:00" |}.

(** A world with one UTF-8 text file at [path], and a model whose [n]-th
    reply is [replies n]. *)
Definition world_with_file (path content : string)
           (replies : nat -> result string) : World :=
  {| path_resolve := path_resolve empty_world;
     path_exists := fun p => String.eqb p path;
     open_utf8 := fun p => if String.eqb p path then ReadText content
                           else ReadRaises (OSError "cannot open");
     open_latin1 := open_latin1 empty_world;
     pdfplumber_importable := false;
     pdfplumber_open := pdfplumber_open empty_world;
     pdf_ocr_importable := false;
     convert_from_path := convert_from_path empty_world;
     pil_importable := false;
     image_open := image_open empty_world;
     llm_reply := replies;
     now := now empty_world |}.

(** [l[n]], for writing the replies of a model as a list. *)
Definition replies_of (l : list string) (n : nat) : result string :=
  match nth_error l n with
  | Some r => inr r
  | None => inl (LibraryError "no more replies")
  end.

(** A reply to a field-extraction request that fills every key. *)
Definition extraction_reply : string :=
  json_text ("{'fields': {'Name': 'John Doe'}, 'form_type': 'note', "
             ++ "'confidence': 0.9, 'reasoning': 'one line'}").

(** A world with one text file, [/work/form.txt], whose model answers every
    request with [extraction_reply]. *)
Definition form_world : World :=
  world_with_file "/work/form.txt" "Name: John Doe"
                  (fun _ => inr extraction_reply).

(** A JSON file of two objects, the second lacking a key of the first. *)
Definition people_json : string :=
  json_text "[{'name': 'Alice', 'amount': 100}, {'name': 'Bob'}]".

Definition people_world : World :=
  world_with_file "/work/people.json" people_json
                  (fun _ => inr extraction_reply).

(** The last request the client has sent, and which tool it belongs to:
    the question-answering tool serves the single-document path, the
    cross-document analysis tool the multi-document path. *)
Definition last_request (s : Agent) : option llm_request :=
  last (map Some (call_history s)) None.

Definition is_single_document_request (r : option llm_request) : bool :=
  match r with Some (ReqAnswerQuestion _ _ _) => true | _ => false end.

Definition is_multi_document_request (r : option llm_request) : bool :=
  match r with Some (ReqAnalyze _ _ _) => true | _ => false end.

(** A model that classifies the task as a question and then answers. *)
Definition qa_replies : nat -> result string :=
  replies_of [ json_text "{'task_type': 'qa'}";
               json_text "{'answer': 'no documents were given'}" ].

Definition no_file_world : World :=
  world_with_file "/work/none" "" qa_replies.

(** A world with the text file [/work/form.txt] whose model first extracts
    fields, then classifies the task as a question, then answers. *)
Definition qa_world : World :=
  world_with_file "/work/form.txt" "Total: $1,500"
    (replies_of [ extraction_reply;
                  json_text "{'task_type': 'qa', 'reasoning': 'a question'}";
                  json_text "{'answer': '$1,500', 'confidence': 0.9}" ]).

(** The document the tests of the tools use. *)
Definition sample_doc : ExtractedDocument.t :=
  ExtractedDocument.mk "test.txt" "txt" "Name: John Doe" [] [] [] []
                       "unknown" "2024-01-15T10:00:00".

(** A model whose reply is a mapping with an explicit [null], and one whose
    reply is a JSON array. *)
Definition null_evidence_world : World :=
  world_with_file "/work/none" ""
    (fun _ => inr (json_text "{'answer': 'John Doe', 'evidence': null}")).

Definition array_reply_world : World :=
  world_with_file "/work/none" "" (fun _ => inr "[]").

(** A model that omits every key. *)
Definition empty_reply_world : World :=
  world_with_file "/work/none" "" (fun _ => inr "{}").

(** A world where a PDF and an image exist but no extraction library is
    installed. *)
Definition no_library_world : World :=
  {| path_resolve := path_resolve empty_world;
     path_exists := fun p => String.eqb p "/work/claim.pdf"
                             || String.eqb p "/work/scan.png";
     open_utf8 := open_utf8 empty_world;
     open_latin1 := open_latin1 empty_world;
     pdfplumber_importable := false;
     pdfplumber_open := pdfplumber_open empty_world;
     pdf_ocr_importable := false;
     convert_from_path := convert_from_path empty_world;
     pil_importable := false;
     image_open := image_open empty_world;
     llm_reply := llm_reply empty_world;
     now := now empty_world |}.

(** A world where the PDF library is installed and fails on the one PDF
    there is, and where no OCR library is installed. *)
Definition broken_pdf_world : World :=
  {| path_resolve := path_resolve empty_world;
     path_exists := fun p => String.eqb p "/work/claim.pdf";
     open_utf8 := open_utf8 empty_world;
     open_latin1 := open_latin1 empty_world;
     pdfplumber_importable := true;
     pdfplumber_open := fun _ => PdfRaises (LibraryError "No /Root object");
     pdf_ocr_importable := false;
     convert_from_path := convert_from_path empty_world;
     pil_importable := false;
     image_open := image_open empty_world;
     llm_reply := llm_reply empty_world;
     now := now empty_world |}.

(* ------------------------------------------------------------------ *)
(** ** Further operations of the client and of the agent *)

(** [IntelligentFormAgent.compare] *)
Definition compare (rt : Runtime) (w : World)
           (form1 form2 : ProcessedForm.t) : M AnalysisResult.t :=
  analyze rt w
    ("Compare these two forms. What are the similarities and differences? "
     ++ "Identify matching fields and highlight any discrepancies.")
    [form1; form2].

(** A block of the [content] of an API response, by its [type]. *)
Inductive content_block : Type :=
| TextBlock (text : string)
| ToolUseBlock (id name : string) (input : json)
| OtherBlock (type : string).

Record api_response : Type := {
  response_content : list content_block;
  response_stop_reason : json
}.

Record tool_call : Type := {
  call_id : string;
  call_name : string;
  call_input : json
}.

(** The dictionary [generate_with_tools] returns. *)
Record tools_result : Type := {
  result_content : option string;
  result_tool_calls : list tool_call;
  result_stop_reason : json
}.

(** One turn of the [for block in response.content] loop. *)
Definition collect_block (r : tools_result) (block : content_block)
  : tools_result :=
  match block with
  | TextBlock text =>
      {| result_content := Some text;
         result_tool_calls := result_tool_calls r;
         result_stop_reason := result_stop_reason r |}
  | ToolUseBlock id name input =>
      {| result_content := result_content r;
         result_tool_calls :=
           result_tool_calls r
             ++ [{| call_id := id; call_name := name; call_input := input |}];
         result_stop_reason := result_stop_reason r |}
  | OtherBlock _ => r
  end.

(** [ClaudeClient.generate_with_tools], from what [messages.create]
    did. *)
Definition generate_with_tools (created : result api_response)
  : result tools_result :=
  match created with
  | inl e => inl e
  | inr response =>
      inr (fold_left collect_block (response_content response)
             {| result_content := None;
                result_tool_calls := [];
                result_stop_reason := response_stop_reason response |})
  end.

(** The text blocks and the tool-use blocks of a response, in order. *)
Definition block_texts (blocks : list content_block) : list string :=
  flat_map (fun b => match b with TextBlock t => [t] | _ => [] end) blocks.

Definition block_tool_calls (blocks : list content_block) : list tool_call :=
  flat_map (fun b =>
              match b with
              | ToolUseBlock id name input =>
                  [{| call_id := id; call_name := name; call_input := input |}]
              | _ => []
              end) blocks.

(** ** Invariants of the agent *)

(** From [s] to [s']: the settings are kept, the history has grown at its
    end, and the counter has grown by no more than the history. *)
Definition advances (s s' : Agent) : Prop :=
  verbose s' = verbose s
  /\ doc_processor s' = doc_processor s
  /\ exists h,
      call_history s' = call_history s ++ h
      /\ total_llm_calls s <= total_llm_calls s'
      /\ total_llm_calls s' <= total_llm_calls s + length h.

(** Every cached form is stored under its own [file_path], and no path
    is stored twice. *)
Definition cache_wf (s : Agent) : Prop :=
  NoDup (PyDict.keys (_processed_forms s))
  /\ forall k f,
      PyDict.get k (_processed_forms s) = Some f ->
      ProcessedForm.file_path f = k.

(** The request [summarize] sends for a form. *)
Definition summary_request (w : World) (style : string)
           (form : ProcessedForm.t) : llm_request :=
  ReqSummarize (document_of_form w form)
               (ProcessedForm.extracted_fields form) style.

(** A text file whose body is surrounded by blank space. *)
Definition padded_world : World :=
  world_with_file "/work/notes.txt"
    ("  " ++ PyStr.nl ++ "Total: $1,500 " ++ PyStr.nl)
    (fun _ => inr extraction_reply).

(** A JSON file whose array holds an object and a number. *)
Definition mixed_array_json : string :=
  json_text "[{'name': 'Alice'}, 7]".

Definition mixed_array_world : World :=
  world_with_file "/work/mixed.json" mixed_array_json
                  (fun _ => inr extraction_reply).

(** A JSON file whose array starts with an object without keys. *)
Definition keyless_array_json : string := "[{}, 5]".

Definition keyless_array_world : World :=
  world_with_file "/work/keyless.json" keyless_array_json
                  (fun _ => inr extraction_reply).

(** A world with one PDF, given by what the PDF library finds in it, and
    with the OCR libraries installed or not.  OCR, when it runs, reads
    [ocr_text] on each of its [ocr_pages] page images. *)
Definition pdf_world (opened : pdf_outcome) (ocr_installed : bool)
           (ocr_pages : list (result string)) : World :=
  {| path_resolve := path_resolve empty_world;
     path_exists := fun p => String.eqb p "/work/claim.pdf";
     open_utf8 := open_utf8 empty_world;
     open_latin1 := open_latin1 empty_world;
     pdfplumber_importable := true;
     pdfplumber_open := fun _ => opened;
     pdf_ocr_importable := ocr_installed;
     convert_from_path := fun _ _ => inr ocr_pages;
     pil_importable := ocr_installed;
     image_open := image_open empty_world;
     llm_reply := llm_reply empty_world;
     now := now empty_world |}.

(** A scanned PDF: one page without text layer, which OCR could read. *)
Definition scanned_pdf_world : World :=
  pdf_world
    (PdfOpened []
       [ {| extract_text := inr None; extract_tables := inr [] |} ])
    true [inr "Invoice 42"].

(** A PDF whose first page reads well and whose second page raises, on a
    machine without OCR libraries. *)
Definition damaged_pdf_pages : list PdfPage :=
  [ {| extract_text := inr (Some "Page one text");
       extract_tables := inr [ [ [Some " a "; None] ] ] |};
    {| extract_text := inl (LibraryError "bad xref");
       extract_tables := inr [] |} ].

Definition damaged_pdf_world : World :=
  pdf_world (PdfOpened [] damaged_pdf_pages) false [].

(** The [ExtractionResult] the extraction tool builds from a mapping, and
    the [ProcessedForm] that [process_form] builds from a document and an
    extraction result. *)
Definition extraction_of_mapping (m : list (string * json))
  : ExtractionResult.t :=
  ExtractionResult.mk
    (PyDict.get_default "fields" empty_dict m)
    (PyDict.get_default "form_type" JNull m)
    (PyDict.get_default "confidence" zero_float m)
    (PyDict.get_default "reasoning" empty_str m).

Definition build_form (w : World) (file_path : string)
           (extracted : ExtractedDocument.t)
           (extraction_result : ExtractionResult.t) : ProcessedForm.t :=
  ProcessedForm.mk
    file_path
    (ExtractedDocument.file_type extracted)
    (ExtractedDocument.raw_text extracted)
    (ExtractionResult.fields extraction_result)
    (ExtractionResult.form_type extraction_result)
    (ExtractionResult.confidence extraction_result)
    (ExtractedDocument.tables extracted)
    (PyDict.update1 (ExtractedDocument.metadata extracted)
       "extraction_reasoning"
       (MetaJson (ExtractionResult.reasoning extraction_result)))
    (now w).

(** The agent after [self.total_llm_calls += 1], and after a form has been
    stored in the cache. *)
Definition counted (s : Agent) : Agent := snd (count_llm_call s).

Definition with_form (file_path : string) (form : ProcessedForm.t)
           (s : Agent) : Agent :=
  snd (cache_form file_path form s).

(** Whether a decoded reply is a mapping. *)
Definition is_mapping (v : json) : bool :=
  match v with JObject _ => true | _ => false end.

(** A computation that leaves the cache of forms as it found it. *)
Definition keeps_cache {A} (c : M A) : Prop :=
  forall s, _processed_forms (snd (c s)) = _processed_forms s.

(** A computation after which the agent has advanced. *)
Definition advancing {A} (c : M A) : Prop :=
  forall s, advances s (snd (c s)).

(** A model whose extraction reply has a [null] confidence. *)
Definition null_confidence_world : World :=
  world_with_file "/work/form.txt" "Name: John Doe"
    (fun _ => inr (json_text
                     "{'fields': {'Name': 'John Doe'}, 'confidence': null}")).

(** A processed form, as [process_form] builds them. *)
Definition sample_form : ProcessedForm.t :=
  build_form empty_world "test.txt" sample_doc
    (extraction_of_mapping [("fields", JObject [("Name", JString "John Doe")])]).

(** The paths under which forms were processed. *)
Definition form_paths (forms : list ProcessedForm.t) : list string :=
  map ProcessedForm.file_path forms.

(** A model that extracts fields, answers the classification with a
    label outside the four known ones, and then summarizes. *)
Definition translate_world : World :=
  world_with_file "/work/form.txt" "Name: John Doe"
    (replies_of [ extraction_reply;
                  json_text "{'task_type': 'translate'}";
                  json_text "{'summary': 'A one-line note'}" ]).

(** A response of the API with two text blocks around a tool call. *)
Definition sample_response : api_response :=
  {| response_content :=
       [ TextBlock "Let me look that up.";
         ToolUseBlock "call_1" "extract_fields" (JObject []);
         OtherBlock "thinking";
         ToolUseBlock "call_2" "answer_question" (JObject []);
         TextBlock "Done." ];
     response_stop_reason := JString "tool_use" |}.

(* ------------------------------------------------------------------ *)
(** ** llm_client.py: the clients and their factory *)

(** What the constructors read from the process: whether [anthropic]
    could be imported, and [os.getenv] of the key. *)
Record ProcessEnv : Type := {
  ANTHROPIC_AVAILABLE : bool;
  getenv_api_key : option string
}.

Module ClaudeClient.
Record t : Type := mk {
  api_key : string;
  model : string;
  max_tokens : nat;
  temperature : pyfloat
}.
End ClaudeClient.

(** The keyword arguments of [ClaudeClient.__init__] after [api_key];
    [None] stands for an argument that is not passed. *)
Record client_kwargs : Type := {
  kw_model : option string;
  kw_max_tokens : option nat;
  kw_temperature : option pyfloat
}.

Definition no_kwargs : client_kwargs :=
  {| kw_model := None; kw_max_tokens := None; kw_temperature := None |}.

(** [a or b] for optional strings: [a] when it is a non-empty string. *)
Definition str_or (a b : option string) : option string :=
  match a with
  | Some x => if PyStr.is_empty x then b else a
  | None => b
  end.

(** [ClaudeClient.__init__] *)
Definition ClaudeClient_init (env : ProcessEnv) (api_key : option string)
           (kwargs : client_kwargs) : result ClaudeClient.t :=
  if negb (ANTHROPIC_AVAILABLE env) then
    inl (ImportError
           "anthropic package required. Install with: pip install anthropic")
  else
    match str_or api_key (getenv_api_key env) with
    | Some key =>
        if PyStr.is_empty key then
          inl (ValueError
                 "ANTHROPIC_API_KEY environment variable or api_key parameter required")
        else
          inr (ClaudeClient.mk key
                 (match kw_model kwargs with
                  | Some m => m
                  | None => "claude-sonnet-4-20250514"
                  end)
                 (match kw_max_tokens kwargs with
                  | Some n => n
                  | None => 4096
                  end)
                 (match kw_temperature kwargs with
                  | Some t => t
                  | None => FloatLit "0.0"
                  end))
    | None =>
        inl (ValueError
               "ANTHROPIC_API_KEY environment variable or api_key parameter required")
    end.

(** The prompt of a call: a text, or the request it is built from. *)
Definition prompt : Type := (string + llm_request)%type.

(** An entry of [MockLLMClient.call_history]. *)
Inductive mock_call : Type :=
| MockGenerate (p : prompt) (system : option string)
| MockStructured (p : prompt) (schema : json).

Record MockLLMClient : Type := {
  mock_call_history : list mock_call
}.

(** [MockLLMClient()] *)
Definition MockLLMClient_init : MockLLMClient :=
  {| mock_call_history := [] |}.

Inductive llm_client : Type :=
| IsClaude (c : ClaudeClient.t)
| IsMock (m : MockLLMClient).

(** [get_llm_client] *)
Definition get_llm_client (env : ProcessEnv) (provider : string)
           (api_key : option string) (kwargs : client_kwargs)
  : result llm_client :=
  if String.eqb provider "claude" then
    match ClaudeClient_init env api_key kwargs with
    | inl e => inl e
    | inr c => inr (IsClaude c)
    end
  else if String.eqb provider "mock" then inr (IsMock MockLLMClient_init)
  else inl (ValueError ("Unknown provider: " ++ provider)).

(** [IntelligentFormAgent.__init__]: the client is always asked from the
    factory as a Claude client. *)
Definition IntelligentFormAgent_init (env : ProcessEnv)
           (api_key : option string) (model : string) (verbose : bool)
  : result (llm_client * Agent) :=
  match get_llm_client env "claude" api_key
          {| kw_model := Some model; kw_max_tokens := None;
             kw_temperature := None |} with
  | inl e => inl e
  | inr llm => inr (llm, new_agent verbose)
  end.

(** [create_agent] *)
Definition create_agent (env : ProcessEnv) (api_key : option string)
           (verbose : bool) : result (llm_client * Agent) :=
  IntelligentFormAgent_init env api_key "claude-sonnet-4-20250514" verbose.

Module LLMResponse.
Record t : Type := mk {
  content : string;
  model : string;
  usage : list (string * Z)
}.
End LLMResponse.

(** [MockLLMClient.generate] *)
Definition Mock_generate (p : prompt) (system : option string)
           (self : MockLLMClient) : LLMResponse.t * MockLLMClient :=
  (LLMResponse.mk "Mock response for testing" "mock-model"
     [("input_tokens", 100%Z); ("output_tokens", 50%Z)],
   {| mock_call_history :=
        mock_call_history self ++ [MockGenerate p system] |}).

(** *** [str] of a schema *)

Definition hex_digit (n : nat) : ascii :=
  if (n <? 10)%nat then ascii_of_nat (48 + n) else ascii_of_nat (87 + n).

(** One character inside [repr] of a string delimited by [quote]. *)
Definition repr_char (quote c : ascii) : string :=
  let n := nat_of_ascii c in
  if Ascii.eqb c quote || Ascii.eqb c "\" then String "\" (String c "")
  else if (n =? 9)%nat then "\t"
  else if (n =? 10)%nat then "\n"
  else if (n =? 13)%nat then "\r"
  else if ((n <? 32) || (n =? 127) || ((128 <=? n) && (n <=? 160))
           || (n =? 173))%nat
  then String "\" (String "x" (String (hex_digit (n / 16))
                                 (String (hex_digit (n mod 16)) "")))
  else String c "".

Fixpoint repr_chars (quote : ascii) (s : string) : string :=
  match s with
  | EmptyString => EmptyString
  | String c s' => (repr_char quote c ++ repr_chars quote s')%string
  end.

(** [repr(s)] for a string: single quotes, unless the string holds a
    single quote and no double quote. *)
Definition repr_str (s : string) : string :=
  let quote :=
    if PyStr.contains_char "'" s
       && negb (PyStr.contains_char RefJson.dquote s)
    then RefJson.dquote else "'"%char in
  String quote (repr_chars quote s ++ String quote "").

(** [repr(v)] for the values schemas and replies are made of; the [repr]
    of a float is left to the runtime. *)
Fixpoint repr_value (rt : Runtime) (v : json) : string :=
  match v with
  | JNull => "None"
  | JBool true => "True"
  | JBool false => "False"
  | JInt z => PyStr.of_Z z
  | JFloat _ => py_repr rt v
  | JString s => repr_str s
  | JArray items =>
      let fix elements (l : list json) : list string :=
        match l with
        | [] => []
        | x :: l' => repr_value rt x :: elements l'
        end in
      ("[" ++ PyStr.join ", " (elements items) ++ "]")%string
  | JObject members =>
      let fix entries (l : list (string * json)) : list string :=
        match l with
        | [] => []
        | (k, x) :: l' =>
            (repr_str k ++ ": " ++ repr_value rt x)%string :: entries l'
        end in
      ("{" ++ PyStr.join ", " (entries members) ++ "}")%string
  end.

(** [needle in s] *)
Fixpoint contains (s needle : string) : bool :=
  PyStr.startswith s needle
  || match s with
     | EmptyString => false
     | String _ s' => contains s' needle
     end.

(** The canned replies of the mock client. *)
Definition mock_fields_reply : json :=
  JObject [("fields", JObject [("Name", JString "John Doe");
                               ("Amount", JString "$1,000")])].

Definition mock_answer_reply : json :=
  JObject [("answer", JString "Mock answer");
           ("confidence", JFloat (FloatLit "0.9"))].

Definition mock_summary_reply : json :=
  JObject [("summary", JString "Mock summary");
           ("key_points", JArray [JString "Point 1"; JString "Point 2"])].

(** [MockLLMClient.generate_structured] *)
Definition Mock_generate_structured (rt : Runtime) (p : prompt)
           (schema : json) (self : MockLLMClient)
  : result json * MockLLMClient :=
  let self' := {| mock_call_history :=
                    mock_call_history self ++ [MockStructured p schema] |} in
  let text := repr_value rt schema in
  if contains text "fields" then (inr mock_fields_reply, self')
  else if contains text "answer" then (inr mock_answer_reply, self')
  else if contains text "summary" then (inr mock_summary_reply, self')
  else (inr (JObject []), self').

(* ------------------------------------------------------------------ *)
(** ** tools.py: the schemas, and the tools over any client *)

(** [{"type": ty, "description": d}] and its array variant. *)
Definition schema_property (ty description : string) : json :=
  JObject [("type", JString ty); ("description", JString description)].

Definition schema_string_array (description : string) : json :=
  JObject [("type", JString "array");
           ("items", JObject [("type", JString "string")]);
           ("description", JString description)].

Definition schema_object (properties : list (string * json))
           (required : list string) : json :=
  JObject [("type", JString "object");
           ("properties", JObject properties);
           ("required", JArray (map JString required))].

(** The [schema] of [FieldExtractionTool.run] *)
Definition extraction_schema : json :=
  schema_object
    [ ("fields",
       schema_property "object" "Dictionary of field names to values");
      ("form_type",
       schema_property "string"
         "Type of form (e.g., W-2, insurance_claim, job_application)");
      ("confidence", schema_property "number" "Confidence score 0.0-1.0");
      ("reasoning",
       schema_property "string" "Explanation of extraction process") ]
    ["fields"; "form_type"; "confidence"; "reasoning"].

(** The [schema] of [QuestionAnsweringTool.run] *)
Definition qa_schema : json :=
  schema_object
    [ ("answer", schema_property "string" "The answer to the question");
      ("confidence", schema_property "number" "Confidence score 0.0-1.0");
      ("evidence",
       schema_string_array
         "Quotes or references from the document supporting the answer");
      ("reasoning",
       schema_property "string"
         "Explanation of how you arrived at the answer") ]
    ["answer"; "confidence"; "evidence"; "reasoning"].

(** The [schema] of [SummarizationTool.run] *)
Definition summary_schema : json :=
  schema_object
    [ ("summary", schema_property "string" "The document summary");
      ("key_points",
       schema_string_array "List of key points from the document");
      ("form_type", schema_property "string" "Type of form");
      ("important_values",
       schema_property "object" "Dictionary of the most important values") ]
    ["summary"; "key_points"; "form_type"; "important_values"].

(** The [schema] of [CrossDocumentAnalysisTool.run] *)
Definition analysis_schema : json :=
  schema_object
    [ ("answer", schema_property "string" "Direct answer to the question");
      ("insights",
       schema_string_array "Key insights discovered from the analysis");
      ("comparisons",
       schema_property "object" "Comparisons between documents");
      ("statistics",
       schema_property "object"
         "Calculated statistics (totals, averages, etc.)") ]
    ["answer"; "insights"; "comparisons"; "statistics"].

(** The [schema] of [_analyze_task] *)
Definition task_schema : json :=
  schema_object
    [ ("task_type",
       JObject [("type", JString "string");
                ("enum", JArray [JString "extract"; JString "qa";
                                 JString "summarize"; JString "analyze"])]);
      ("reasoning", JObject [("type", JString "string")]) ]
    ["task_type"].

(** [BaseLLMClient], by the one method the tools call. *)
Class BaseLLMClient (C : Type) : Type := {
  generate_structured_on : llm_request -> json -> C -> result json * C
}.

(** The Claude client of an agent: the schema goes into the prompt. *)
#[export] Instance Claude_client (rt : Runtime) (w : World)
  : BaseLLMClient Agent :=
  {| generate_structured_on := fun req _ => generate_structured rt w req |}.

#[export] Instance Mock_client (rt : Runtime) : BaseLLMClient MockLLMClient :=
  {| generate_structured_on :=
       fun req schema => Mock_generate_structured rt (inr req) schema |}.

(** The [return XResult(...)] statements of the four tools. *)
Definition extraction_result_of (reply : json) : result ExtractionResult.t :=
  match reply with
  | JObject m => inr (extraction_of_mapping m)
  | _ => inl (no_get reply)
  end.

Definition qa_result_of (reply : json) : result QAResult.t :=
  match reply with
  | JObject m =>
      inr (QAResult.mk
             (PyDict.get_default "answer" (JString "Unable to determine") m)
             (PyDict.get_default "confidence" zero_float m)
             (PyDict.get_default "evidence" empty_list m)
             (PyDict.get_default "reasoning" empty_str m))
  | _ => inl (no_get reply)
  end.

Definition summary_result_of (reply : json) : result SummaryResult.t :=
  match reply with
  | JObject m =>
      inr (SummaryResult.mk
             (PyDict.get_default "summary" empty_str m)
             (PyDict.get_default "key_points" empty_list m)
             (PyDict.get_default "form_type" (JString "unknown") m)
             (PyDict.get_default "important_values" empty_dict m))
  | _ => inl (no_get reply)
  end.

Definition analysis_result_of (reply : json) : result AnalysisResult.t :=
  match reply with
  | JObject m =>
      inr (AnalysisResult.mk
             (PyDict.get_default "answer" empty_str m)
             (PyDict.get_default "insights" empty_list m)
             (PyDict.get_default "comparisons" empty_dict m)
             (PyDict.get_default "statistics" empty_dict m))
  | _ => inl (no_get reply)
  end.

(** A tool over any client: one structured call, then the typed result. *)
Definition tool_run_on {C A} {llm : BaseLLMClient C} (req : llm_request)
           (schema : json) (result_of : json -> result A) (self : C)
  : result A * C :=
  match generate_structured_on req schema self with
  | (inl e, self') => (inl e, self')
  | (inr reply, self') => (result_of reply, self')
  end.

Definition FieldExtractionTool_run_on {C} {llm : BaseLLMClient C}
           (document : ExtractedDocument.t) : C -> result ExtractionResult.t * C :=
  tool_run_on (ReqExtractFields document) extraction_schema
              extraction_result_of.

Definition QuestionAnsweringTool_run_on {C} {llm : BaseLLMClient C}
           (question : string) (document : ExtractedDocument.t)
           (extracted_fields : json) : C -> result QAResult.t * C :=
  tool_run_on (ReqAnswerQuestion question document extracted_fields)
              qa_schema qa_result_of.

Definition SummarizationTool_run_on {C} {llm : BaseLLMClient C}
           (document : ExtractedDocument.t) (extracted_fields : json)
           (style : string) : C -> result SummaryResult.t * C :=
  tool_run_on (ReqSummarize document extracted_fields style)
              summary_schema summary_result_of.

Definition CrossDocumentAnalysisTool_run_on {C} {llm : BaseLLMClient C}
           (question : string) (documents : list ExtractedDocument.t)
           (extracted_fields_list : list json)
  : C -> result AnalysisResult.t * C :=
  tool_run_on (ReqAnalyze question documents extracted_fields_list)
              analysis_schema analysis_result_of.

(** An environment with the package installed and a key exported, and one
    with neither. *)
Definition ready_env : ProcessEnv :=
  {| ANTHROPIC_AVAILABLE := true; getenv_api_key := Some "sk-env" |}.

Definition bare_env : ProcessEnv :=
  {| ANTHROPIC_AVAILABLE := true; getenv_api_key := None |}.



(** An image on which the OCR engine gives the readings [conf], and the
    superscript two, which passes [isdigit] and is no digit for [int]. *)
Definition scan_with_readings (conf : list string) : Image :=
  {| size := (640, 480)%Z;
     mode := "L";
     image_to_string := fun _ => inr "Invoice 42";
     image_to_data_conf := inr conf |}.

Definition superscript_two : string := String (ascii_of_nat 178) "".

(* ================================================================== *)
(** * Properties *)

(** ** Format detection *)

Lemma process_pdf_file_type w self fp d :
  _process_pdf w self fp = inr d ->
  ExtractedDocument.file_type d = "pdf".
Proof.
  unfold _process_pdf.
  destruct (negb (pdfplumber_importable w)); [discriminate|].
  intros H. inversion H. reflexivity.
Qed.

Lemma process_image_file_type rt w self fp d :
  _process_image rt w self fp = inr d ->
  ExtractedDocument.file_type d = _detect_file_type fp.
Proof.
  unfold _process_image.
  destruct (negb (ocr_enabled self)).
  - intros H. inversion H. reflexivity.
  - destruct (negb (pil_importable w)); [discriminate|].
    destruct (image_open w fp) as [e|img]; [discriminate|].
    destruct (image_to_string img (ocr_language self)) as [e|text];
      [discriminate|].
    intros H. inversion H. reflexivity.
Qed.

Lemma process_text_file_type rt w fp d :
  _process_text rt w fp = inr d ->
  ExtractedDocument.file_type d = _detect_file_type fp.
Proof.
  unfold _process_text.
  destruct (read_content w fp) as [e|content]; [discriminate|].
  destruct (String.eqb (_detect_file_type fp) "csv").
  - destruct (csv_reader rt content); [discriminate|].
    intros H. inversion H. reflexivity.
  - destruct (String.eqb (_detect_file_type fp) "json");
      intros H; inversion H; reflexivity.
Qed.

(** A call of [process] that returns a document has resolved the path to
    an existing one and has run the rest on it; a call on a path that
    resolves is the rest run on the resolved path. *)
Lemma process_returns rt w self p d :
  process rt w self p = inr d ->
  exists fp, path_resolve w p = inr fp
             /\ path_exists w fp = true
             /\ process_resolved_path rt w self fp = inr d.
Proof.
  unfold process. destruct (path_resolve w p) as [e|fp]; [discriminate|].
  intros H. exists fp. split; [reflexivity|]. split; [|exact H].
  unfold process_resolved_path in H.
  destruct (path_exists w fp); [reflexivity|discriminate].
Qed.


Lemma process_resolved_file_type rt w self fp d :
  process_resolved_path rt w self fp = inr d ->
  ExtractedDocument.file_type d = _detect_file_type fp.
Proof.
  unfold process_resolved_path.
  destruct (negb (path_exists w fp)); [discriminate|].
  destruct (String.eqb (_detect_file_type fp) "pdf") eqn:Epdf.
  - intros H. apply String.eqb_eq in Epdf. rewrite Epdf.
    eapply process_pdf_file_type; eauto.
  - destruct (existsb _ image_types).
    + apply process_image_file_type.
    + apply process_text_file_type.
Qed.

Lemma process_resolved_file_path rt w self fp d :
  process_resolved_path rt w self fp = inr d ->
  ExtractedDocument.file_path d = fp.
Proof.
  unfold process_resolved_path.
  destruct (negb (path_exists w fp)); [discriminate|].
  destruct (String.eqb _ "pdf").
  - unfold _process_pdf.
    destruct (negb (pdfplumber_importable w)); [discriminate|].
    intros H; inversion H; reflexivity.
  - destruct (existsb _ image_types).
    + unfold _process_image.
      destruct (negb (ocr_enabled _)); [intros H; inversion H; reflexivity|].
      destruct (negb (pil_importable w)); [discriminate|].
      destruct (image_open w _) as [e|img]; [discriminate|].
      destruct (image_to_string img _); [discriminate|].
      intros H; inversion H; reflexivity.
    + unfold _process_text.
      destruct (read_content w _); [discriminate|].
      destruct (String.eqb _ "csv").
      * destruct (csv_reader rt _); [discriminate|].
        intros H; inversion H; reflexivity.
      * destruct (String.eqb _ "json"); intros H; inversion H; reflexivity.
Qed.

(** The document bears the resolved path, and its tag is that of the
    resolved path. *)
Lemma process_file_path rt w self p d :
  process rt w self p = inr d ->
  path_resolve w p = inr (ExtractedDocument.file_path d).
Proof.
  intros H. destruct (process_returns _ _ _ _ H) as (fp & Hr & _ & Hd).
  rewrite (process_resolved_file_path _ _ _ _ Hd). exact Hr.
Qed.

Lemma process_file_type rt w self p d :
  process rt w self p = inr d ->
  ExtractedDocument.file_type d
  = _detect_file_type (ExtractedDocument.file_path d).
Proof.
  intros H. destruct (process_returns _ _ _ _ H) as (fp & Hr & _ & Hd).
  rewrite (process_resolved_file_path _ _ _ _ Hd).
  exact (process_resolved_file_type _ _ _ _ Hd).
Qed.

(** ** Missing files *)




(** ** Dictionaries *)

Lemma dict_get_set_same V k (v : V) d :
  PyDict.get k (PyDict.set k v d) = Some v.
Proof.
  induction d as [|[k' v'] d IH]; simpl.
  - rewrite String.eqb_refl. reflexivity.
  - destruct (String.eqb k k') eqn:E; simpl; rewrite E; auto.
Qed.

Lemma dict_get_set_other V k q (v : V) d :
  q <> k -> PyDict.get q (PyDict.set k v d) = PyDict.get q d.
Proof.
  intros Hne. induction d as [|[k' v'] d IH]; simpl.
  - destruct (String.eqb_spec q k); [contradiction|reflexivity].
  - destruct (String.eqb_spec k k') as [->|Hk]; simpl.
    + destruct (String.eqb_spec q k'); [contradiction|reflexivity].
    + destruct (String.eqb q k'); auto.
Qed.

Lemma dict_len_set_absent V k (v : V) d :
  PyDict.get k d = None ->
  PyDict.len (PyDict.set k v d) = S (PyDict.len d).
Proof.
  unfold PyDict.len. induction d as [|[k' v'] d IH]; simpl; [reflexivity|].
  destruct (String.eqb k k'); [discriminate|].
  intros H. simpl. rewrite IH; auto.
Qed.

Lemma dict_len_set_present V k (v : V) d :
  PyDict.get k d <> None ->
  PyDict.len (PyDict.set k v d) = PyDict.len d.
Proof.
  unfold PyDict.len. induction d as [|[k' v'] d IH]; simpl; [congruence|].
  destruct (String.eqb k k'); [reflexivity|].
  intros H. simpl. rewrite IH; auto.
Qed.

(** ** One call of the model per tool run *)

Lemma generate_structured_eq rt w req s :
  generate_structured rt w req s
  = (structured_reply rt w s, record_request req s).
Proof.
  unfold generate_structured, bind, generate, lift, structured_reply.
  destruct (llm_reply w (length (call_history s))); reflexivity.
Qed.

(** Unfolds a tool down to its one call of [generate_structured] and
    decides the cases of the reply. *)
Ltac tool_run_cases rt w s :=
  unfold bind; rewrite generate_structured_eq;
  destruct (structured_reply rt w s) as [?|[]]; reflexivity.

Lemma FieldExtractionTool_run_eq rt w d s :
  FieldExtractionTool_run rt w d s
  = (match structured_reply rt w s with
     | inl e => inl e
     | inr (JObject m) =>
         inr (ExtractionResult.mk
                (PyDict.get_default "fields" empty_dict m)
                (PyDict.get_default "form_type" JNull m)
                (PyDict.get_default "confidence" zero_float m)
                (PyDict.get_default "reasoning" empty_str m))
     | inr v => inl (no_get v)
     end, record_request (ReqExtractFields d) s).
Proof.
  unfold FieldExtractionTool_run. tool_run_cases rt w s.
Qed.

Lemma QuestionAnsweringTool_run_eq rt w q d fs s :
  QuestionAnsweringTool_run rt w q d fs s
  = (match structured_reply rt w s with
     | inl e => inl e
     | inr (JObject m) =>
         inr (QAResult.mk
                (PyDict.get_default "answer" (JString "Unable to determine") m)
                (PyDict.get_default "confidence" zero_float m)
                (PyDict.get_default "evidence" empty_list m)
                (PyDict.get_default "reasoning" empty_str m))
     | inr v => inl (no_get v)
     end, record_request (ReqAnswerQuestion q d fs) s).
Proof.
  unfold QuestionAnsweringTool_run. tool_run_cases rt w s.
Qed.

Lemma SummarizationTool_run_eq rt w d fs style s :
  SummarizationTool_run rt w d fs style s
  = (match structured_reply rt w s with
     | inl e => inl e
     | inr (JObject m) =>
         inr (SummaryResult.mk
                (PyDict.get_default "summary" empty_str m)
                (PyDict.get_default "key_points" empty_list m)
                (PyDict.get_default "form_type" (JString "unknown") m)
                (PyDict.get_default "important_values" empty_dict m))
     | inr v => inl (no_get v)
     end, record_request (ReqSummarize d fs style) s).
Proof.
  unfold SummarizationTool_run. tool_run_cases rt w s.
Qed.

Lemma CrossDocumentAnalysisTool_run_eq rt w q ds fl s :
  CrossDocumentAnalysisTool_run rt w q ds fl s
  = (match structured_reply rt w s with
     | inl e => inl e
     | inr (JObject m) =>
         inr (AnalysisResult.mk
                (PyDict.get_default "answer" empty_str m)
                (PyDict.get_default "insights" empty_list m)
                (PyDict.get_default "comparisons" empty_dict m)
                (PyDict.get_default "statistics" empty_dict m))
     | inr v => inl (no_get v)
     end, record_request (ReqAnalyze q ds fl) s).
Proof.
  unfold CrossDocumentAnalysisTool_run. tool_run_cases rt w s.
Qed.

(** ** The cache of processed forms *)

(** What one call of [process_form] that is not served from the cache does
    to the agent. *)
Lemma process_form_run rt w p force s r s' :
  (if negb force then PyDict.get p (_processed_forms s) else None) = None ->
  process_form rt w p force s = (r, s') ->
  verbose s' = verbose s /\ doc_processor s' = doc_processor s
  /\ ((exists e, process rt w (doc_processor s) p = inl e
                 /\ r = inl e /\ s' = s)
      \/ (exists d,
             process rt w (doc_processor s) p = inr d
             /\ call_history s' = call_history s ++ [ReqExtractFields d]
             /\ ((exists f,
                     r = inr f
                     /\ _processed_forms s' = PyDict.set p f (_processed_forms s)
                     /\ total_llm_calls s' = total_llm_calls s + 1
                     /\ ProcessedForm.file_path f = p)
                 \/ (exists e,
                        r = inl e
                        /\ _processed_forms s' = _processed_forms s)))).
Proof.
  intros Hmiss. unfold process_form. rewrite Hmiss.
  unfold bind at 1. unfold lift at 1.
  destruct (process rt w (doc_processor s) p) as [e|d].
  - intros H. inversion H; subst. repeat split; auto. left. eauto.
  - unfold bind at 1. rewrite FieldExtractionTool_run_eq.
    destruct (structured_reply rt w s) as [e|v].
    + intros H. inversion H; subst. repeat split; auto.
      right. exists d. repeat split; auto. right. eauto.
    + destruct v;
        try (intros H; inversion H; subst; repeat split; auto;
             right; exists d; repeat split; auto; right; eauto; fail).
      unfold bind, count_llm_call, lift, cache_form, ret. cbn [fst snd].
      match goal with
      | |- context [log_extraction ?er] => destruct (log_extraction er)
      end.
      * intros H. inversion H; subst. repeat split; auto.
        right. exists d. repeat split; auto. right. eauto.
      * intros H. inversion H; subst. repeat split; auto.
        right. exists d. repeat split; auto. left.
        eexists. repeat split; reflexivity.
Qed.

(** A call that finds its path in the cache returns the stored form and
    changes nothing, in any world. *)
Lemma process_form_hit rt w p s f :
  PyDict.get p (_processed_forms s) = Some f ->
  process_form rt w p false s = (inr f, s).
Proof.
  intros H. unfold process_form. simpl. rewrite H. reflexivity.
Qed.

(** C1, as amended: when [p] is not cached and the first call of
    [process_form] returns a form, that call made exactly one call of the
    model (a field extraction), counted it and cached the form; a second
    unforced call returns the cached form without any call or change; a
    forced call makes at most one further call, and when it returns a form
    it has made exactly one, counted it, and put that form in place of the
    cached one, every other entry being kept. *)
Theorem process_form_caching rt w s p f s1 :
  PyDict.get p (_processed_forms s) = None ->
  process_form rt w p false s = (inr f, s1) ->
  (exists d, process rt w (doc_processor s) p = inr d
             /\ call_history s1 = call_history s ++ [ReqExtractFields d])
  /\ total_llm_calls s1 = total_llm_calls s + 1
  /\ PyDict.get p (_processed_forms s1) = Some f
  /\ (forall w', process_form rt w' p false s1 = (inr f, s1))
  /\ (forall w' r s2,
         process_form rt w' p true s1 = (r, s2) ->
         length (call_history s2) <= length (call_history s1) + 1
         /\ (forall f',
                r = inr f' ->
                (exists d', call_history s2
                            = call_history s1 ++ [ReqExtractFields d'])
                /\ total_llm_calls s2 = total_llm_calls s1 + 1
                /\ _processed_forms s2
                   = PyDict.set p f' (_processed_forms s1)
                /\ PyDict.get p (_processed_forms s2) = Some f'
                /\ PyDict.len (_processed_forms s2)
                   = PyDict.len (_processed_forms s1)
                /\ (forall q, q <> p ->
                              PyDict.get q (_processed_forms s2)
                              = PyDict.get q (_processed_forms s1)))).
Proof.
  intros Hmiss Hrun.
  destruct (process_form_run rt w p false s Hmiss Hrun)
    as (_ & _ & [(e & _ & He & _) | (d & Hd & Hh & Hres)]);
    [discriminate|].
  destruct Hres as [(f0 & Hf & Hc & Ht & _) | (e & He & _)];
    [|discriminate].
  inversion Hf; subst f0.
  assert (Hget : PyDict.get p (_processed_forms s1) = Some f).
  { rewrite Hc. apply dict_get_set_same. }
  split; [eauto|]. split; [exact Ht|]. split; [exact Hget|].
  split; [intros w'; apply process_form_hit; exact Hget|].
  intros w' r s2 Hforce.
  destruct (process_form_run rt w' p true s1 eq_refl Hforce)
    as (_ & _ & [(e & _ & He & Hs) | (d' & _ & Hh' & Hres')]).
  - subst. split; [lia|]. intros f' Hf'. discriminate.
  - split; [rewrite Hh', length_app; simpl; lia|].
    intros f' ->.
    destruct Hres' as [(f1 & Hf1 & Hc1 & Ht1 & _) | (e & He & _)];
      [|discriminate].
    inversion Hf1; subst f1.
    split; [eauto|]. split; [exact Ht1|]. split; [exact Hc1|].
    split; [rewrite Hc1; apply dict_get_set_same|].
    split.
    + rewrite Hc1. apply dict_len_set_present. congruence.
    + intros q Hq. rewrite Hc1. apply dict_get_set_other. exact Hq.
Qed.

(** ** Clearing the cache *)

(** C9: [clear_cache] empties the cache, so that [get_stats] reports zero
    cached forms and no cached path, and leaves the call counter and every
    other attribute of the agent as they were; after it no path is served
    from the cache, so a call of [process_form] that returns a form has
    called the model once more and holds the only cache entry. *)
Theorem clear_cache_frame s :
  stat_cached_forms (get_stats (clear_cache s)) = 0
  /\ stat_cached_form_paths (get_stats (clear_cache s)) = []
  /\ (forall p, PyDict.get p (_processed_forms (clear_cache s)) = None)
  /\ total_llm_calls (clear_cache s) = total_llm_calls s
  /\ stat_total_llm_calls (get_stats (clear_cache s))
     = stat_total_llm_calls (get_stats s)
  /\ verbose (clear_cache s) = verbose s
  /\ doc_processor (clear_cache s) = doc_processor s
  /\ call_history (clear_cache s) = call_history s
  /\ (forall rt w p f s',
         process_form rt w p false (clear_cache s) = (inr f, s') ->
         (exists d, call_history s' = call_history s ++ [ReqExtractFields d])
         /\ total_llm_calls s' = total_llm_calls s + 1
         /\ stat_cached_form_paths (get_stats s') = [p]).
Proof.
  repeat (split; [reflexivity|]).
  intros rt w p f s' Hrun.
  destruct (@process_form_run rt w p false (clear_cache s) _ s' eq_refl Hrun)
    as (_ & _ & [(e & _ & He & _) | (d & _ & Hh & Hres)]); [discriminate|].
  destruct Hres as [(f0 & _ & Hc & Ht & _) | (e & He & _)]; [|discriminate].
  split; [exists d; exact Hh|]. split; [exact Ht|].
  unfold get_stats. simpl. rewrite Hc. reflexivity.
Qed.

Lemma clear_cache_frame_witness :
  let w := form_world in
  let s := snd (process_form ref_runtime w "form.txt" false
                             (new_agent false)) in
  stat_cached_forms (get_stats s) = 1
  /\ stat_cached_forms (get_stats (clear_cache s)) = 0
  /\ stat_total_llm_calls (get_stats (clear_cache s)) = 1
  /\ exists f s',
      process_form ref_runtime w "form.txt" false (clear_cache s)
      = (inr f, s')
      /\ total_llm_calls s' = 2
      /\ stat_cached_form_paths (get_stats s') = ["form.txt"].
Proof.
  intros w s.
  split; [vm_compute; reflexivity|].
  split; [vm_compute; reflexivity|].
  split; [vm_compute; reflexivity|].
  destruct (process_form ref_runtime w "form.txt" false (clear_cache s))
    as [[e|f] s'] eqn:Hrun; [vm_compute in Hrun; discriminate|].
  exists f, s'. split; [reflexivity|].
  destruct (clear_cache_frame s)
    as (_ & _ & _ & _ & _ & _ & _ & _ & Hafter).
  destruct (Hafter ref_runtime w "form.txt" f s' Hrun) as (_ & Ht & Hk).
  split; [rewrite Ht; vm_compute; reflexivity|exact Hk].
Defined.

(** ** Two spellings of one file *)

Lemma process_resolved rt w self p q :
  path_resolve w p = path_resolve w q ->
  process rt w self p = process rt w self q.
Proof.
  intros H. unfold process. rewrite H. reflexivity.
Qed.

(** C10: the cache is keyed by the string the caller passes, while
    ingestion works on the resolved path.  For two different strings that
    resolve to the same file, neither cached, two calls of [process_form]
    that return forms have ingested the same document twice, made one
    field-extraction call each, and left two cache entries, one under each
    string. *)
Theorem cache_keyed_by_path_string rt w s p1 p2 f1 s1 f2 s2 :
  p1 <> p2 ->
  path_resolve w p1 = path_resolve w p2 ->
  PyDict.get p1 (_processed_forms s) = None ->
  PyDict.get p2 (_processed_forms s) = None ->
  process_form rt w p1 false s = (inr f1, s1) ->
  process_form rt w p2 false s1 = (inr f2, s2) ->
  (exists d,
      process rt w (doc_processor s) p1 = inr d
      /\ process rt w (doc_processor s) p2 = inr d
      /\ path_resolve w p1 = inr (ExtractedDocument.file_path d)
      /\ call_history s2
         = call_history s ++ [ReqExtractFields d; ReqExtractFields d])
  /\ total_llm_calls s2 = total_llm_calls s + 2
  /\ PyDict.get p1 (_processed_forms s2) = Some f1
  /\ PyDict.get p2 (_processed_forms s2) = Some f2
  /\ ProcessedForm.file_path f1 = p1
  /\ ProcessedForm.file_path f2 = p2
  /\ PyDict.len (_processed_forms s2) = PyDict.len (_processed_forms s) + 2.
Proof.
  intros Hne Hres Hm1 Hm2 Hrun1 Hrun2.
  destruct (process_form_run rt w p1 false s Hm1 Hrun1)
    as (_ & Hdp & [(e & _ & He & _) | (d & Hd & Hh & Hr)]); [discriminate|].
  destruct Hr as [(g1 & Hg1 & Hc1 & Ht1 & Hfp1) | (e & He & _)];
    [|discriminate].
  inversion Hg1; subst g1.
  assert (Hm2' : PyDict.get p2 (_processed_forms s1) = None).
  { rewrite Hc1, dict_get_set_other; auto. }
  destruct (process_form_run rt w p2 false s1 Hm2' Hrun2)
    as (_ & _ & [(e & _ & He & _) | (d' & Hd' & Hh' & Hr')]); [discriminate|].
  destruct Hr' as [(g2 & Hg2 & Hc2 & Ht2 & Hfp2) | (e & He & _)];
    [|discriminate].
  inversion Hg2; subst g2.
  rewrite Hdp in Hd'.
  rewrite (process_resolved rt w (doc_processor s) p2 p1) in Hd' by auto.
  rewrite Hd in Hd'. inversion Hd'; subst d'.
  split.
  { exists d. split; [exact Hd|]. split.
    - rewrite (process_resolved rt w (doc_processor s) p2 p1) by auto.
      exact Hd.
    - split.
      + eapply process_file_path. exact Hd.
      + rewrite Hh', Hh, <- app_assoc. reflexivity. }
  split; [lia|].
  split.
  { rewrite Hc2, dict_get_set_other by auto. rewrite Hc1.
    apply dict_get_set_same. }
  split; [rewrite Hc2; apply dict_get_set_same|].
  split; [exact Hfp1|]. split; [exact Hfp2|].
  rewrite Hc2, dict_len_set_absent by exact Hm2'.
  rewrite Hc1, dict_len_set_absent by exact Hm1. lia.
Qed.

Lemma process_form_caching_witness :
  let w := form_world in
  exists f s1,
    PyDict.get "form.txt" (_processed_forms (new_agent false)) = None
    /\ process_form ref_runtime w "form.txt" false (new_agent false)
       = (inr f, s1)
    /\ total_llm_calls s1 = 1
    /\ length (call_history s1) = 1
    /\ process_form ref_runtime w "form.txt" false s1 = (inr f, s1)
    /\ exists f' s2,
        process_form ref_runtime w "form.txt" true s1 = (inr f', s2)
        /\ total_llm_calls s2 = 2
        /\ PyDict.get "form.txt" (_processed_forms s2) = Some f'
        /\ PyDict.len (_processed_forms s2) = 1.
Proof.
  intro w.
  destruct (process_form ref_runtime w "form.txt" false (new_agent false))
    as [[e|f] s1] eqn:Hrun; [vm_compute in Hrun; discriminate|].
  exists f, s1.
  destruct (process_form_caching ref_runtime w (new_agent false) "form.txt"
              eq_refl Hrun) as ((d & _ & Hh) & Ht & Hget & Hhit & Hforce).
  split; [reflexivity|]. split; [reflexivity|].
  split; [exact Ht|].
  split; [rewrite Hh; reflexivity|].
  split; [apply Hhit|].
  destruct (process_form ref_runtime w "form.txt" true s1)
    as [[e|f'] s2] eqn:Hrun2.
  - exfalso. vm_compute in Hrun. inversion Hrun; subst.
    vm_compute in Hrun2. discriminate.
  - exists f', s2. split; [reflexivity|].
    destruct (Hforce w _ _ Hrun2) as (_ & Hok).
    destruct (Hok f' eq_refl) as (_ & Ht2 & Hc2 & Hg2 & Hl2 & _).
    split; [rewrite Ht2, Ht; reflexivity|].
    split; [exact Hg2|].
    rewrite Hl2. vm_compute in Hrun. inversion Hrun; subst. reflexivity.
Defined.

(** C1 as stated fails: when the reply of the model holds no JSON, each of
    two unforced calls of [process_form] on the same existing path calls
    the model, raises, and caches nothing. *)
Lemma process_form_retries_after_failure :
  let w := world_with_file "/work/form.txt" "Name: John Doe"
             (fun _ => inr "I cannot read this document.") in
  (exists e1 s1 e2 s2,
      process_form ref_runtime w "form.txt" false (new_agent false)
      = (inl e1, s1)
      /\ process_form ref_runtime w "form.txt" false s1 = (inl e2, s2)
      /\ length (call_history s1) = 1
      /\ length (call_history s2) = 2
      /\ _processed_forms s2 = []
      /\ is_ValueError e1 = true /\ is_ValueError e2 = true)
  /\ ~ (forall rt w p s r1 s1 r2 s2,
           PyDict.get p (_processed_forms s) = None ->
           process_form rt w p false s = (r1, s1) ->
           process_form rt w p false s1 = (r2, s2) ->
           length (call_history s2) = length (call_history s) + 1).
Proof.
  intro w.
  assert (H1 : exists e1 s1 e2 s2,
             process_form ref_runtime w "form.txt" false (new_agent false)
             = (inl e1, s1)
             /\ process_form ref_runtime w "form.txt" false s1 = (inl e2, s2)
             /\ length (call_history s1) = 1
             /\ length (call_history s2) = 2
             /\ _processed_forms s2 = []
             /\ is_ValueError e1 = true /\ is_ValueError e2 = true).
  { do 4 eexists. split; [vm_compute; reflexivity|].
    split; [vm_compute; reflexivity|].
    repeat split; reflexivity. }
  split; [exact H1|].
  intros Hall.
  destruct H1 as (e1 & s1 & e2 & s2 & Ha & Hb & _ & Hlen & _).
  specialize (Hall ref_runtime w "form.txt" (new_agent false)
                   _ _ _ _ eq_refl Ha Hb).
  rewrite Hlen in Hall. simpl in Hall. discriminate.
Qed.

Lemma cache_keyed_by_path_string_witness :
  let w := form_world in
  exists f1 s1 f2 s2,
    "form.txt" <> "/work/form.txt"
    /\ path_resolve w "form.txt" = path_resolve w "/work/form.txt"
    /\ process_form ref_runtime w "form.txt" false (new_agent false)
       = (inr f1, s1)
    /\ process_form ref_runtime w "/work/form.txt" false s1 = (inr f2, s2)
    /\ total_llm_calls s2 = 2
    /\ PyDict.keys (_processed_forms s2) = ["form.txt"; "/work/form.txt"]
    /\ PyDict.len (_processed_forms s2) = 2.
Proof.
  intro w.
  destruct (process_form ref_runtime w "form.txt" false (new_agent false))
    as [[e|f1] s1] eqn:Hrun1; [vm_compute in Hrun1; discriminate|].
  destruct (process_form ref_runtime w "/work/form.txt" false s1)
    as [[e|f2] s2] eqn:Hrun2.
  { exfalso. vm_compute in Hrun1. inversion Hrun1; subst.
    vm_compute in Hrun2. discriminate. }
  exists f1, s1, f2, s2.
  assert (Hne : "form.txt" <> "/work/form.txt") by discriminate.
  destruct (cache_keyed_by_path_string ref_runtime w (new_agent false)
              Hne eq_refl eq_refl eq_refl Hrun1 Hrun2)
    as (_ & Ht & _ & _ & _ & _ & Hlen).
  split; [exact Hne|]. split; [reflexivity|].
  split; [reflexivity|]. split; [exact Hrun2|].
  split; [exact Ht|].
  split; [|exact Hlen].
  vm_compute in Hrun1. inversion Hrun1; subst.
  vm_compute in Hrun2. inversion Hrun2; subst. reflexivity.
Defined.

(** ** Tables from JSON arrays *)

Lemma json_row_object rt headers row :
  json_row rt headers (JObject row) = Some (map (json_cell rt row) headers).
Proof. destruct headers; reflexivity. Qed.

Lemma json_rows_objects rt headers rows :
  json_rows rt headers (map JObject rows)
  = Some (map (fun row => map (json_cell rt row) headers) rows).
Proof.
  induction rows as [|row rows IH]; [reflexivity|].
  cbn [map json_rows]. rewrite json_row_object, IH. reflexivity.
Qed.

Lemma process_json_file rt w self p fp content :
  path_resolve w p = inr fp ->
  path_exists w fp = true ->
  _detect_file_type fp = "json" ->
  read_content w fp = inr content ->
  exists d, process rt w self p = inr d
            /\ ExtractedDocument.tables d = json_tables rt content
            /\ ExtractedDocument.raw_text d = PyStr.strip content.
Proof.
  intros Hres Hex Hft Hread. unfold process. rewrite Hres.
  unfold process_resolved_path. rewrite Hex, Hft. simpl.
  unfold _process_text. rewrite Hft, Hread. simpl.
  eexists. split; [reflexivity|]. split; reflexivity.
Qed.

(** C6: for a file detected as JSON whose text parses as a non-empty
    array of objects, ingestion returns a document with exactly one table:
    its header is the keys of the first object in their order, and one row
    follows per object, holding for each header [str] of the object's value
    for that key, or the empty string when the object lacks the key.  When
    the text does not parse, ingestion still returns a document, with no
    table. *)
Theorem json_array_table rt w self p fp content :
  path_resolve w p = inr fp ->
  path_exists w fp = true ->
  _detect_file_type fp = "json" ->
  read_content w fp = inr content ->
  (forall first rows,
      json_loads rt content = inr (JArray (map JObject (first :: rows))) ->
      exists d,
        process rt w self p = inr d
        /\ ExtractedDocument.tables d
           = [ PyDict.keys first
               :: map (fun row => map (json_cell rt row) (PyDict.keys first))
                      (first :: rows) ]
        /\ (forall table, In table (ExtractedDocument.tables d) ->
                          length table = 1 + length (first :: rows)))
  /\ (forall e,
         json_loads rt content = inl e ->
         exists d, process rt w self p = inr d
                   /\ ExtractedDocument.tables d = []).
Proof.
  intros Hres Hex Hft Hread.
  destruct (@process_json_file rt w self p fp content Hres Hex Hft Hread)
    as (d & Hd & Ht & _).
  split.
  - intros first rows Hloads. exists d. split; [exact Hd|].
    assert (Htab : ExtractedDocument.tables d
                   = [ PyDict.keys first
                       :: map (fun row =>
                                 map (json_cell rt row) (PyDict.keys first))
                              (first :: rows) ]).
    { rewrite Ht. unfold json_tables. rewrite Hloads.
      cbn [map].
      change (JObject first :: map JObject rows)
        with (map JObject (first :: rows)).
      rewrite json_rows_objects. reflexivity. }
    split; [exact Htab|].
    intros table Hin. rewrite Htab in Hin.
    destruct Hin as [<- | []]. simpl. rewrite length_map. reflexivity.
  - intros e Hloads. exists d. split; [exact Hd|].
    rewrite Ht. unfold json_tables. rewrite Hloads. reflexivity.
Qed.

Lemma json_array_table_witness :
  let w := people_world in
  exists d,
    process ref_runtime w default_processor "people.json" = inr d
    /\ ExtractedDocument.tables d
       = [ [ ["name"; "amount"]; ["Alice"; "100"]; ["Bob"; ""] ] ].
Proof.
  intro w.
  destruct (@json_array_table ref_runtime w default_processor "people.json"
              "/work/people.json" people_json eq_refl eq_refl eq_refl eq_refl)
    as (Hok & _).
  destruct (Hok [("name", JString "Alice"); ("amount", JInt 100)]
                [[("name", JString "Bob")]] eq_refl) as (d & Hd & Ht & _).
  exists d. split; [exact Hd|]. rewrite Ht. reflexivity.
Defined.

(** ** Routing of a question in [run_workflow] *)

Lemma for_each_length A B (f : A -> M B) l s ys s' :
  for_each f l s = (inr ys, s') -> length ys = length l.
Proof.
  revert s ys s'. induction l as [|x l IH]; intros s ys s'; simpl.
  - unfold ret. intros H. inversion H. reflexivity.
  - unfold bind at 1. destruct (f x s) as [[e|y] s1]; [discriminate|].
    unfold bind at 1. destruct (for_each f l s1) as [[e|ys'] s2] eqn:E;
      [discriminate|].
    unfold ret. intros H. inversion H; subst. simpl.
    f_equal. eapply IH; eauto.
Qed.

Lemma last_request_app s h r :
  call_history s = h ++ [r] -> last_request s = Some r.
Proof.
  intros H. unfold last_request. rewrite H, map_app. simpl.
  apply last_last.
Qed.

Lemma ask_history rt w q form s :
  call_history (snd (ask rt w q form s))
  = call_history s
      ++ [ReqAnswerQuestion q (document_of_form w form)
                            (ProcessedForm.extracted_fields form)].
Proof.
  unfold ask, bind at 1. rewrite QuestionAnsweringTool_run_eq.
  destruct (structured_reply rt w s) as [e|[]]; try reflexivity.
  unfold bind, count_llm_call, lift, ret. cbn [QAResult.confidence].
  match goal with
  | |- context [format_percent ?c] => destruct (format_percent c)
  end; reflexivity.
Qed.

Lemma analyze_history rt w q forms s :
  call_history (snd (analyze rt w q forms s))
  = call_history s
      ++ [ReqAnalyze q (map (document_of_form w) forms)
                     (map ProcessedForm.extracted_fields forms)].
Proof.
  unfold analyze, bind at 1. rewrite CrossDocumentAnalysisTool_run_eq.
  destruct (structured_reply rt w s) as [e|[]]; reflexivity.
Qed.

Lemma workflow_qa_history rt w task q forms s :
  call_history (snd (workflow_qa rt w task q forms s))
  = call_history s
      ++ [match forms with
          | [form] =>
              ReqAnswerQuestion (question_or_task q task)
                (document_of_form w form)
                (ProcessedForm.extracted_fields form)
          | _ =>
              ReqAnalyze (question_or_task q task)
                (map (document_of_form w) forms)
                (map ProcessedForm.extracted_fields forms)
          end].
Proof.
  unfold workflow_qa.
  destruct forms as [|form [|form' forms]].
  - unfold bind, ask_multiple.
    pose proof (analyze_history rt w (question_or_task q task) [] s) as H.
    destruct (analyze rt w (question_or_task q task) [] s) as [[e|r] s'];
      exact H.
  - unfold bind.
    pose proof (ask_history rt w (question_or_task q task) form s) as H.
    destruct (ask rt w (question_or_task q task) form s) as [[e|r] s'];
      exact H.
  - unfold bind, ask_multiple.
    pose proof (analyze_history rt w (question_or_task q task)
                  (form :: form' :: forms) s) as H.
    destruct (analyze rt w (question_or_task q task)
                (form :: form' :: forms) s) as [[e|r] s']; exact H.
Qed.

(** C7, as amended: when every path has been processed and the task is
    classified as [qa], [run_workflow] continues as its question branch
    on one form per path; the last request it sends is a question-answering
    request on that single form exactly when the number of paths is 1, and a
    cross-document analysis request over all the forms exactly when the
    number of paths is not 1 (none, or two or more). *)
Theorem run_workflow_qa_routing rt w task paths q s forms s1 ta s2 :
  process_forms rt w paths s = (inr forms, s1) ->
  _analyze_task rt w task q (length forms) s1 = (inr ta, s2) ->
  subscript ta "task_type" = inr (JString "qa") ->
  let final := snd (run_workflow rt w task paths q s) in
  length forms = length paths
  /\ run_workflow rt w task paths q s = workflow_qa rt w task q forms s2
  /\ is_single_document_request (last_request final)
     = Nat.eqb (length paths) 1
  /\ is_multi_document_request (last_request final)
     = negb (Nat.eqb (length paths) 1)
  /\ (forall form,
         forms = [form] ->
         call_history final
         = call_history s2
             ++ [ReqAnswerQuestion (question_or_task q task)
                   (document_of_form w form)
                   (ProcessedForm.extracted_fields form)])
  /\ (length paths <> 1 ->
      call_history final
      = call_history s2
          ++ [ReqAnalyze (question_or_task q task)
                (map (document_of_form w) forms)
                (map ProcessedForm.extracted_fields forms)]).
Proof.
  intros Hforms Htask Htype final.
  assert (Hlen : length forms = length paths).
  { eapply for_each_length. exact Hforms. }
  assert (Hrun : run_workflow rt w task paths q s
                 = workflow_qa rt w task q forms s2).
  { unfold run_workflow. unfold bind at 1. rewrite Hforms.
    unfold bind at 1. rewrite Htask.
    unfold bind at 1. unfold lift at 1. rewrite Htype. reflexivity. }
  assert (Hhist := workflow_qa_history rt w task q forms s2).
  subst final. rewrite Hrun.
  split; [exact Hlen|]. split; [reflexivity|].
  rewrite <- Hlen.
  destruct forms as [|form [|form' forms]].
  - rewrite (@last_request_app _ _ _ Hhist). repeat split; try reflexivity.
    + intros f Hf. discriminate.
    + intros _. exact Hhist.
  - rewrite (@last_request_app _ _ _ Hhist). repeat split; try reflexivity.
    + intros f Hf. inversion Hf; subst. exact Hhist.
    + intros Hne. simpl in Hne. congruence.
  - rewrite (@last_request_app _ _ _ Hhist). repeat split; try reflexivity.
    + intros f Hf. discriminate.
    + intros _. exact Hhist.
Qed.

Lemma run_workflow_qa_routing_witness :
  let w := qa_world in
  let final := snd (run_workflow ref_runtime w "What is the total?"
                                 ["form.txt"] None (new_agent false)) in
  is_single_document_request (last_request final) = true
  /\ is_multi_document_request (last_request final) = false
  /\ total_llm_calls final = 3.
Proof.
  intros w final.
  destruct (process_forms ref_runtime w ["form.txt"] (new_agent false))
    as [[e|forms] s1] eqn:Hforms; [vm_compute in Hforms; discriminate|].
  destruct (_analyze_task ref_runtime w "What is the total?" None
              (length forms) s1) as [[e|ta] s2] eqn:Htask.
  { exfalso. vm_compute in Hforms. inversion Hforms; subst.
    vm_compute in Htask. discriminate. }
  assert (Htype : subscript ta "task_type" = inr (JString "qa")).
  { vm_compute in Hforms. inversion Hforms; subst.
    vm_compute in Htask. inversion Htask; subst. reflexivity. }
  destruct (run_workflow_qa_routing ref_runtime w "What is the total?"
              ["form.txt"] None (new_agent false) Hforms Htask Htype)
    as (_ & _ & Hsingle & Hmulti & _).
  split; [exact Hsingle|]. split; [exact Hmulti|].
  vm_compute. reflexivity.
Defined.

(** C7 as stated fails: with no document at all, a task classified as
    [qa] goes down the multi-document analysis path. *)
Lemma run_workflow_qa_without_documents :
  let w := no_file_world in
  let run := run_workflow ref_runtime w "What is the total?" [] None
                          (new_agent false) in
  (exists answer insights,
      fst run = inr (WfQA "What is the total?" answer JNull empty_list insights))
  /\ call_history (snd run)
     = [ ReqClassifyTask "What is the total?" None 0;
         ReqAnalyze "What is the total?" [] [] ]
  /\ is_multi_document_request (last_request (snd run)) = true
  /\ ~ (forall rt w task paths q s forms s1 ta s2,
           process_forms rt w paths s = (inr forms, s1) ->
           _analyze_task rt w task q (length forms) s1 = (inr ta, s2) ->
           subscript ta "task_type" = inr (JString "qa") ->
           (is_multi_document_request
              (last_request (snd (run_workflow rt w task paths q s))) = true
            <-> 2 <= length paths)).
Proof.
  intros w run.
  split; [do 2 eexists; vm_compute; reflexivity|].
  split; [vm_compute; reflexivity|].
  split; [vm_compute; reflexivity|].
  intros H.
  assert (Hm : is_multi_document_request (last_request (snd run)) = true)
    by (vm_compute; reflexivity).
  specialize (H ref_runtime w "What is the total?" [] None (new_agent false)
                [] (new_agent false)).
  destruct (_analyze_task ref_runtime w "What is the total?" None
              (length (@nil ProcessedForm.t)) (new_agent false))
    as [[e|ta] s2] eqn:Htask; [vm_compute in Htask; discriminate|].
  specialize (H ta s2 eq_refl eq_refl).
  assert (Htype : subscript ta "task_type" = inr (JString "qa")).
  { vm_compute in Htask. inversion Htask; subst. reflexivity. }
  apply H in Htype. apply Htype in Hm. simpl in Hm. lia.
Qed.

(** ** Defaults for the keys a reply omits *)

Lemma get_default_missing V key (default : V) m :
  PyDict.get key m = None -> PyDict.get_default key default m = default.
Proof. unfold PyDict.get_default. intros ->. reflexivity. Qed.

Lemma get_default_present V key (default x : V) m :
  PyDict.get key m = Some x -> PyDict.get_default key default m = x.
Proof. unfold PyDict.get_default. intros ->. reflexivity. Qed.

(** C5, as amended: when the reply decodes to a mapping, each of the four
    tools returns its typed result without raising, after one call of the
    model; every field is the value of its key when the key is present
    (whatever that value is, [null] included) and the default when the key
    is missing: the empty mapping, the empty list, [0.0], the empty string,
    or the tool's placeholder text.  When the reply decodes to a value that
    is not a mapping, each tool raises [AttributeError]. *)
Theorem tools_fill_missing_keys rt w s v :
  structured_reply rt w s = inr v ->
  (forall m,
      v = JObject m ->
      (forall d,
          FieldExtractionTool_run rt w d s
          = (inr (ExtractionResult.mk
                    (PyDict.get_default "fields" empty_dict m)
                    (PyDict.get_default "form_type" JNull m)
                    (PyDict.get_default "confidence" zero_float m)
                    (PyDict.get_default "reasoning" empty_str m)),
             record_request (ReqExtractFields d) s))
      /\ (forall q d fs,
             QuestionAnsweringTool_run rt w q d fs s
             = (inr (QAResult.mk
                       (PyDict.get_default "answer"
                          (JString "Unable to determine") m)
                       (PyDict.get_default "confidence" zero_float m)
                       (PyDict.get_default "evidence" empty_list m)
                       (PyDict.get_default "reasoning" empty_str m)),
                record_request (ReqAnswerQuestion q d fs) s))
      /\ (forall d fs style,
             SummarizationTool_run rt w d fs style s
             = (inr (SummaryResult.mk
                       (PyDict.get_default "summary" empty_str m)
                       (PyDict.get_default "key_points" empty_list m)
                       (PyDict.get_default "form_type" (JString "unknown") m)
                       (PyDict.get_default "important_values" empty_dict m)),
                record_request (ReqSummarize d fs style) s))
      /\ (forall q ds fl,
             CrossDocumentAnalysisTool_run rt w q ds fl s
             = (inr (AnalysisResult.mk
                       (PyDict.get_default "answer" empty_str m)
                       (PyDict.get_default "insights" empty_list m)
                       (PyDict.get_default "comparisons" empty_dict m)
                       (PyDict.get_default "statistics" empty_dict m)),
                record_request (ReqAnalyze q ds fl) s))
      /\ (forall key default,
             PyDict.get key m = None ->
             PyDict.get_default key default m = default)
      /\ (forall key default x,
             PyDict.get key m = Some x ->
             PyDict.get_default key default m = x))
  /\ ((forall m, v <> JObject m) ->
      (forall d, fst (FieldExtractionTool_run rt w d s) = inl (no_get v))
      /\ (forall q d fs,
             fst (QuestionAnsweringTool_run rt w q d fs s)
             = inl (no_get v))
      /\ (forall d fs style,
             fst (SummarizationTool_run rt w d fs style s)
             = inl (no_get v))
      /\ (forall q ds fl,
             fst (CrossDocumentAnalysisTool_run rt w q ds fl s)
             = inl (no_get v)))
  /\ is_None empty_dict = false
  /\ is_None empty_list = false
  /\ is_None zero_float = false.
Proof.
  intros Hreply. split.
  - intros m ->.
    split; [intros; rewrite FieldExtractionTool_run_eq, Hreply; reflexivity|].
    split; [intros; rewrite QuestionAnsweringTool_run_eq, Hreply; reflexivity|].
    split; [intros; rewrite SummarizationTool_run_eq, Hreply; reflexivity|].
    split; [intros; rewrite CrossDocumentAnalysisTool_run_eq, Hreply;
            reflexivity|].
    split; [intros; apply get_default_missing; assumption|].
    intros; apply get_default_present; assumption.
  - split; [|repeat split].
    intros Hnot.
    split; [intros; rewrite FieldExtractionTool_run_eq, Hreply|].
    2: split; [intros; rewrite QuestionAnsweringTool_run_eq, Hreply|].
    3: split; [intros; rewrite SummarizationTool_run_eq, Hreply|].
    4: intros; rewrite CrossDocumentAnalysisTool_run_eq, Hreply.
    all: destruct v; try reflexivity; exfalso; eapply Hnot; reflexivity.
Qed.

Lemma tools_fill_missing_keys_witness :
  let w := empty_reply_world in
  QuestionAnsweringTool_run ref_runtime w "What is the name?" sample_doc
                            JNull (new_agent false)
  = (inr (QAResult.mk (JString "Unable to determine") zero_float
                      empty_list empty_str),
     record_request (ReqAnswerQuestion "What is the name?" sample_doc JNull)
                    (new_agent false))
  /\ fst (CrossDocumentAnalysisTool_run ref_runtime w "Compare the names"
            [sample_doc; sample_doc] [JObject []; JObject []]
            (new_agent false))
     = inr (AnalysisResult.mk empty_str empty_list empty_dict empty_dict)
  /\ fst (FieldExtractionTool_run ref_runtime array_reply_world sample_doc
                                  (new_agent false))
     = inl (AttributeError "'list' object has no attribute 'get'").
Proof.
  intro w.
  destruct (@tools_fill_missing_keys ref_runtime w (new_agent false)
              (JObject []) eq_refl) as (Hmap & _).
  destruct (Hmap [] eq_refl) as (_ & Hqa & _ & Han & _).
  split; [apply Hqa|].
  split; [rewrite Han; reflexivity|].
  destruct (@tools_fill_missing_keys ref_runtime array_reply_world
              (new_agent false) (JArray []) eq_refl) as (_ & Hnot & _).
  apply Hnot. intros m Hm. discriminate.
Defined.

(** C5 as stated fails: a reply that decodes to a mapping with an explicit
    [null] under [evidence] gives a result whose [evidence] is [None], and
    a reply that decodes to a JSON array makes the tool raise. *)
Lemma tool_passes_null_through :
  (exists r s',
      QuestionAnsweringTool_run ref_runtime null_evidence_world
        "What is the name?" sample_doc JNull (new_agent false) = (inr r, s')
      /\ QAResult.answer r = JString "John Doe"
      /\ QAResult.evidence r = JNull)
  /\ (json_loads ref_runtime "[]" = inr (JArray [])
      /\ fst (QuestionAnsweringTool_run ref_runtime array_reply_world
                "What is the name?" sample_doc JNull (new_agent false))
         = inl (AttributeError "'list' object has no attribute 'get'"))
  /\ ~ (forall rt w s m q d fs r s',
           structured_reply rt w s = inr (JObject m) ->
           QuestionAnsweringTool_run rt w q d fs s = (inr r, s') ->
           is_None (QAResult.evidence r) = false).
Proof.
  assert (H : exists r s',
             QuestionAnsweringTool_run ref_runtime null_evidence_world
               "What is the name?" sample_doc JNull (new_agent false)
             = (inr r, s')
             /\ QAResult.answer r = JString "John Doe"
             /\ QAResult.evidence r = JNull).
  { do 2 eexists. split; [vm_compute; reflexivity|]. split; reflexivity. }
  split; [exact H|].
  split; [split; vm_compute; reflexivity|].
  intros Hall. destruct H as (r & s' & Hrun & _ & Hev).
  assert (Hreply : structured_reply ref_runtime null_evidence_world
                     (new_agent false)
                   = inr (JObject [("answer", JString "John Doe");
                                   ("evidence", JNull)]))
    by (vm_compute; reflexivity).
  specialize (Hall _ _ _ _ _ _ _ _ _ Hreply Hrun).
  rewrite Hev in Hall. discriminate.
Qed.

(** ** Which failures of ingestion are soft *)

Lemma pdf_except_error_note w self fp e l :
  PyDict.get "error" (l_metadata (pdf_except w self fp e l))
  = Some (MetaJson (JString (exn_str e))).
Proof.
  unfold pdf_except.
  destruct (ocr_enabled self); [destruct (_ocr_pdf w self fp)|]; simpl;
    try apply dict_get_set_same.
  rewrite dict_get_set_other by discriminate. apply dict_get_set_same.
Qed.

Lemma pdf_except_without_ocr w self fp e l :
  ocr_enabled self = false ->
  l_pages (pdf_except w self fp e l) = l_pages l
  /\ l_tables (pdf_except w self fp e l) = l_tables l
  /\ l_all_text (pdf_except w self fp e l) = l_all_text l.
Proof.
  intros H. unfold pdf_except. rewrite H. repeat split.
Qed.

Lemma pdf_except_with_ocr w self fp e l :
  ocr_enabled self = true ->
  l_tables (pdf_except w self fp e l) = l_tables l
  /\ match _ocr_pdf w self fp with
     | inr r =>
         l_all_text (pdf_except w self fp e l) = fst r
         /\ l_pages (pdf_except w self fp e l) = snd r
     | inl _ =>
         l_all_text (pdf_except w self fp e l) = l_all_text l
         /\ l_pages (pdf_except w self fp e l) = l_pages l
     end.
Proof.
  intros H. unfold pdf_except. rewrite H.
  destruct (_ocr_pdf w self fp) as [e'|r]; simpl; repeat split.
Qed.

Lemma ocr_pdf_without_libraries w self fp :
  pdf_ocr_importable w = false -> _ocr_pdf w self fp = inr ("", []).
Proof. intros H. unfold _ocr_pdf. rewrite H. reflexivity. Qed.

(** C3, as amended: for a path that resolves to an existing file,
    - a PDF is ingested without raising whenever the PDF library can be
      imported: an exception while opening or reading it is recorded under
      the [error] key of the metadata, and the tables read before it are
      kept.  With OCR off, the text and the pages read before it are kept.
      With OCR on, they are replaced by those of the OCR pass, which are
      empty when the OCR libraries are missing; when the OCR pass itself
      raises, its failure is swallowed and what was read is kept.  When
      the PDF library cannot be imported, [ImportError] is raised;
    - an image gives a document with empty text and an [error] note when
      OCR is disabled; with OCR enabled, a missing imaging library raises
      [ImportError] and errors of opening or recognising the image are
      propagated;
    - any other file gives a document whenever it can be read and, for
      CSV, the reader does not raise; a JSON body that does not parse gives
      a document without tables. *)
Theorem ingestion_failures rt w self p fp :
  path_resolve w p = inr fp ->
  path_exists w fp = true ->
  let ft := _detect_file_type fp in
  let is_image := existsb (String.eqb ft) image_types in
  (ft = "pdf" ->
   (pdfplumber_importable w = false ->
    process rt w self p
    = inl (ImportError "pdfplumber required: pip install pdfplumber"))
   /\ (pdfplumber_importable w = true ->
       exists d,
         process rt w self p = inr d
         /\ (forall e l,
                (pdfplumber_open w fp = PdfRaises e /\ l = pdf_locals_init)
                \/ (exists info ps,
                       pdfplumber_open w fp = PdfOpened info ps
                       /\ pdf_pages_loop 0 ps (pdf_locals_opened info ps)
                          = (l, Some e)) ->
                PyDict.get "error" (ExtractedDocument.metadata d)
                = Some (MetaJson (JString (exn_str e)))
                /\ ExtractedDocument.tables d = l_tables l
                /\ (ocr_enabled self = false ->
                    ExtractedDocument.pages d = l_pages l
                    /\ ExtractedDocument.raw_text d
                       = PyStr.strip (l_all_text l))
                /\ (ocr_enabled self = true ->
                    match _ocr_pdf w self fp with
                    | inr (ocr_text, ocr_pages) =>
                        ExtractedDocument.pages d = ocr_pages
                        /\ ExtractedDocument.raw_text d
                           = PyStr.strip ocr_text
                    | inl _ =>
                        ExtractedDocument.pages d = l_pages l
                        /\ ExtractedDocument.raw_text d
                           = PyStr.strip (l_all_text l)
                    end)
                /\ (ocr_enabled self = true ->
                    pdf_ocr_importable w = false ->
                    ExtractedDocument.pages d = []
                    /\ ExtractedDocument.raw_text d = ""))))
  /\ (ft <> "pdf" -> is_image = true ->
      (ocr_enabled self = false ->
       exists d,
         process rt w self p = inr d
         /\ ExtractedDocument.raw_text d = ""
         /\ ExtractedDocument.metadata d
            = [("error", MetaJson (JString "OCR disabled"))])
      /\ (ocr_enabled self = true ->
          (pil_importable w = false ->
           process rt w self p
           = inl (ImportError
                    "Pillow and pytesseract required for image processing"))
          /\ (pil_importable w = true ->
              match image_open w fp with
              | inl e => process rt w self p = inl e
              | inr img =>
                  match image_to_string img (ocr_language self) with
                  | inl e => process rt w self p = inl e
                  | inr text =>
                      exists d, process rt w self p = inr d
                                /\ ExtractedDocument.raw_text d
                                   = PyStr.strip text
                  end
              end)))
  /\ (ft <> "pdf" -> is_image = false ->
      match read_content w fp with
      | inl e => process rt w self p = inl e
      | inr content =>
          (ft = "csv" ->
           match csv_reader rt content with
           | inl e => process rt w self p = inl e
           | inr rows =>
               exists d, process rt w self p = inr d
                         /\ ExtractedDocument.tables d = [rows]
           end)
          /\ (ft <> "csv" ->
              exists d,
                process rt w self p = inr d
                /\ ExtractedDocument.raw_text d = PyStr.strip content
                /\ (ft = "json" ->
                    forall e, json_loads rt content = inl e ->
                              ExtractedDocument.tables d = []))
      end).
Proof.
  intros Hres Hex ft is_image.
  assert (Hproc : process rt w self p
                  = if String.eqb ft "pdf" then _process_pdf w self fp
                    else if is_image then _process_image rt w self fp
                         else _process_text rt w fp).
  { unfold process. rewrite Hres. unfold process_resolved_path.
    rewrite Hex. reflexivity. }
  split; [|split].
  - intros Hpdf. rewrite Hproc, Hpdf. simpl. unfold _process_pdf.
    split; [intros ->; reflexivity|].
    intros ->. simpl. eexists. split; [reflexivity|].
    cbn [ExtractedDocument.metadata ExtractedDocument.tables
         ExtractedDocument.pages ExtractedDocument.raw_text].
    intros e l Hfail.
    assert (Htry : pdf_try w self fp = pdf_except w self fp e l).
    { unfold pdf_try.
      destruct Hfail as [(Hopen & ->) | (info & ps & Hopen & Hloop)];
        rewrite Hopen; [reflexivity|].
      cbv zeta. rewrite Hloop. reflexivity. }
    rewrite Htry.
    split; [apply pdf_except_error_note|].
    split.
    { unfold pdf_except.
      destruct (ocr_enabled self); [destruct (_ocr_pdf w self fp)|];
        reflexivity. }
    split.
    { intros Hocr.
      destruct (pdf_except_without_ocr w self fp e l Hocr) as (-> & _ & ->).
      split; reflexivity. }
    split.
    { intros Hocr.
      destruct (pdf_except_with_ocr w self fp e l Hocr) as (_ & Hpass).
      destruct (_ocr_pdf w self fp) as [e'|[ocr_text ocr_pages]];
        destruct Hpass as (-> & ->); split; reflexivity. }
    intros Hocr Hlib.
    destruct (pdf_except_with_ocr w self fp e l Hocr) as (_ & Hpass).
    rewrite (ocr_pdf_without_libraries w self fp Hlib) in Hpass.
    destruct Hpass as (-> & ->). split; reflexivity.
  - intros Hnpdf Himg. rewrite Hproc.
    destruct (String.eqb_spec ft "pdf") as [Heq|_]; [contradiction|].
    rewrite Himg. unfold _process_image.
    split.
    + intros ->. simpl. eexists. repeat split.
    + intros ->. simpl. split; [intros ->; reflexivity|].
      intros ->. simpl.
      destruct (image_open w fp) as [e|img]; [reflexivity|].
      destruct (image_to_string img (ocr_language self)) as [e|text];
        [reflexivity|].
      eexists. split; reflexivity.
  - intros Hnpdf Himg. rewrite Hproc.
    destruct (String.eqb_spec ft "pdf") as [Heq|_]; [contradiction|].
    rewrite Himg. unfold _process_text. fold ft.
    destruct (read_content w fp) as [e|content]; [reflexivity|].
    split.
    + intros Hcsv. rewrite Hcsv. simpl.
      destruct (csv_reader rt content) as [e|rows]; [reflexivity|].
      eexists. split; reflexivity.
    + intros Hncsv.
      destruct (String.eqb_spec ft "csv") as [Heq|_]; [contradiction|].
      destruct (String.eqb_spec ft "json") as [Hjson|Hnjson].
      * eexists. split; [reflexivity|]. split; [reflexivity|].
        intros _ e He. simpl. unfold json_tables. rewrite He. reflexivity.
      * eexists. split; [reflexivity|]. split; [reflexivity|].
        intros Hj. contradiction.
Qed.

Lemma ingestion_failures_witness :
  (exists d,
      process ref_runtime broken_pdf_world default_processor "claim.pdf"
      = inr d
      /\ PyDict.get "error" (ExtractedDocument.metadata d)
         = Some (MetaJson (JString "No /Root object"))
      /\ ExtractedDocument.raw_text d = "")
  /\ (exists d,
         process ref_runtime damaged_pdf_world default_processor "claim.pdf"
         = inr d
         /\ PyDict.get "error" (ExtractedDocument.metadata d)
            = Some (MetaJson (JString "bad xref"))
         /\ ExtractedDocument.pages d = []
         /\ ExtractedDocument.raw_text d = "").
Proof.
  split.
  - destruct (@ingestion_failures ref_runtime broken_pdf_world
                default_processor "claim.pdf" "/work/claim.pdf"
                eq_refl eq_refl) as (Hpdf & _).
    destruct (Hpdf eq_refl) as (_ & Hok).
    destruct (Hok eq_refl) as (d & Hd & Hfail).
    exists d. split; [exact Hd|].
    destruct (Hfail (LibraryError "No /Root object") pdf_locals_init)
      as (Hnote & _); [left; split; reflexivity|].
    split; [exact Hnote|].
    vm_compute in Hd. inversion Hd. reflexivity.
  - destruct (@ingestion_failures ref_runtime damaged_pdf_world
                default_processor "claim.pdf" "/work/claim.pdf"
                eq_refl eq_refl) as (Hpdf & _).
    destruct (Hpdf eq_refl) as (_ & Hok).
    destruct (Hok eq_refl) as (d & Hd & Hfail).
    exists d. split; [exact Hd|].
    destruct (pdf_pages_loop 0 damaged_pdf_pages
                (pdf_locals_opened [] damaged_pdf_pages))
      as [l [e|]] eqn:Hloop; [|vm_compute in Hloop; discriminate].
    assert (He : e = LibraryError "bad xref")
      by (vm_compute in Hloop; inversion Hloop; reflexivity).
    subst e.
    destruct (Hfail (LibraryError "bad xref") l)
      as (Hnote & _ & _ & _ & Hempty).
    { right. exists [], damaged_pdf_pages. split; [reflexivity|exact Hloop]. }
    split; [exact Hnote|]. apply Hempty; reflexivity.
Defined.

(** C3 as stated fails: for a PDF and for an image that exist, ingestion
    raises [ImportError] when the extraction library is not installed. *)
Lemma ingestion_raises_without_libraries :
  let w := no_library_world in
  path_resolve w "claim.pdf" = inr "/work/claim.pdf"
  /\ path_exists w "/work/claim.pdf" = true
  /\ process ref_runtime w default_processor "claim.pdf"
     = inl (ImportError "pdfplumber required: pip install pdfplumber")
  /\ path_resolve w "scan.png" = inr "/work/scan.png"
  /\ path_exists w "/work/scan.png" = true
  /\ process ref_runtime w default_processor "scan.png"
     = inl (ImportError
              "Pillow and pytesseract required for image processing")
  /\ ~ (forall rt w self p fp,
           path_resolve w p = inr fp ->
           path_exists w fp = true ->
           exists d, process rt w self p = inr d).
Proof.
  intro w.
  split; [reflexivity|]. split; [reflexivity|].
  split; [reflexivity|]. split; [reflexivity|].
  split; [reflexivity|]. split; [reflexivity|].
  intros Hall.
  destruct (Hall ref_runtime w default_processor "claim.pdf"
                 "/work/claim.pdf" eq_refl eq_refl)
    as (d & Hd).
  vm_compute in Hd. discriminate.
Qed.

(** ** Strings *)

Lemma str_app_assoc (a b c : string) :
  ((a ++ b) ++ c = a ++ (b ++ c))%string.
Proof. induction a; simpl; congruence. Qed.

Lemma str_app_empty_r (a : string) : (a ++ "" = a)%string.
Proof. induction a; simpl; congruence. Qed.

Lemma lstrip_app_space ws s :
  PyStr.lstrip ws = "" -> PyStr.lstrip (ws ++ s) = PyStr.lstrip s.
Proof.
  induction ws as [|c ws IH]; simpl; [reflexivity|].
  destruct (PyStr.is_space c); [exact IH|discriminate].
Qed.

Lemma lstrip_app_nonspace a c b :
  PyStr.is_space c = false ->
  PyStr.lstrip (a ++ String c b) = (PyStr.lstrip a ++ String c b)%string.
Proof.
  intros Hc. induction a as [|x a IH]; simpl.
  - rewrite Hc. reflexivity.
  - destruct (PyStr.is_space x); [exact IH|reflexivity].
Qed.

Lemma rstrip_app_space s ws :
  PyStr.rstrip ws = "" -> PyStr.rstrip (s ++ ws) = PyStr.rstrip s.
Proof.
  intros H. induction s as [|c s IH]; simpl; [exact H|].
  rewrite IH. reflexivity.
Qed.

Lemma rstrip_app_nonspace a c b :
  PyStr.is_space c = false ->
  PyStr.rstrip (a ++ String c b) = (a ++ String c (PyStr.rstrip b))%string.
Proof.
  intros Hc. induction a as [|x a IH]; simpl.
  - rewrite Hc, andb_false_r. reflexivity.
  - rewrite IH. destruct a; reflexivity.
Qed.

Lemma contains_char_app c a b :
  PyStr.contains_char c (a ++ b)
  = PyStr.contains_char c a || PyStr.contains_char c b.
Proof.
  induction a as [|x a IH]; simpl; [reflexivity|].
  rewrite IH, orb_assoc. reflexivity.
Qed.

Lemma contains_char_lstrip c s :
  PyStr.contains_char c s = false ->
  PyStr.contains_char c (PyStr.lstrip s) = false.
Proof.
  induction s as [|x s IH]; simpl; [reflexivity|].
  intros H. apply orb_false_iff in H. destruct H as [Hx Hs].
  destruct (PyStr.is_space x); [auto|]. simpl. rewrite Hx, Hs. reflexivity.
Qed.

Lemma contains_char_rstrip c s :
  PyStr.contains_char c s = false ->
  PyStr.contains_char c (PyStr.rstrip s) = false.
Proof.
  induction s as [|x s IH]; simpl; [reflexivity|].
  intros H. apply orb_false_iff in H. destruct H as [Hx Hs].
  destruct (PyStr.is_empty (PyStr.rstrip s) && PyStr.is_space x);
    [reflexivity|].
  simpl. rewrite Hx, IH; auto.
Qed.

Lemma from_first_app c a b :
  PyStr.contains_char c a = false ->
  PyStr.from_first c (a ++ String c b) = Some (String c b).
Proof.
  induction a as [|x a IH]; simpl.
  - rewrite Ascii.eqb_refl. reflexivity.
  - intros H. apply orb_false_iff in H. destruct H as [-> Ha]. auto.
Qed.

Lemma upto_last_none c s :
  PyStr.contains_char c s = false -> PyStr.upto_last c s = None.
Proof.
  induction s as [|x s IH]; simpl; [reflexivity|].
  intros H. apply orb_false_iff in H. destruct H as [-> Hs].
  rewrite IH; auto.
Qed.

Lemma upto_last_app c a b :
  PyStr.contains_char c b = false ->
  PyStr.upto_last c (a ++ String c b) = Some (a ++ String c "")%string.
Proof.
  intros Hb. induction a as [|x a IH]; simpl.
  - rewrite upto_last_none by exact Hb. rewrite Ascii.eqb_refl. reflexivity.
  - rewrite IH. reflexivity.
Qed.

Lemma split_not_nil c s : PyStr.split c s <> [].
Proof.
  destruct s as [|x s]; simpl; [discriminate|].
  destruct (Ascii.eqb x c); [discriminate|].
  destruct (PyStr.split c s); discriminate.
Qed.

Lemma split_app c a b :
  PyStr.split c (a ++ String c b) = PyStr.split c a ++ PyStr.split c b.
Proof.
  induction a as [|x a IH]; simpl.
  - rewrite Ascii.eqb_refl. reflexivity.
  - destruct (Ascii.eqb x c); [rewrite IH; reflexivity|].
    rewrite IH.
    destruct (PyStr.split c a) as [|h t] eqn:E; [|reflexivity].
    exfalso. eapply split_not_nil. exact E.
Qed.

Lemma split_no_sep c s :
  PyStr.contains_char c s = false -> PyStr.split c s = [s].
Proof.
  induction s as [|x s IH]; simpl; [reflexivity|].
  intros H. apply orb_false_iff in H. destruct H as [-> Hs].
  rewrite IH; auto.
Qed.

Lemma join_split c s :
  PyStr.join (String c "") (PyStr.split c s) = s.
Proof.
  induction s as [|x s IH]; [reflexivity|].
  simpl PyStr.split.
  destruct (PyStr.split c s) as [|h t] eqn:E.
  { exfalso. eapply split_not_nil. exact E. }
  destruct (Ascii.eqb_spec x c) as [->|Hne].
  - simpl. simpl in IH. rewrite IH. reflexivity.
  - destruct t; simpl in *; rewrite <- IH; reflexivity.
Qed.

(** A block that starts and ends with a character that is no space is what
    [strip] leaves of it, whatever whitespace surrounds it. *)
Lemma strip_padding ws1 c b ws2 :
  PyStr.lstrip ws1 = "" -> PyStr.rstrip ws2 = "" ->
  PyStr.is_space c = false -> PyStr.rstrip (String c b) = String c b ->
  PyStr.strip (ws1 ++ String c b ++ ws2) = String c b.
Proof.
  intros H1 H2 Hc Hb. unfold PyStr.strip.
  rewrite lstrip_app_space by exact H1.
  change (String c b ++ ws2)%string with (String c (b ++ ws2)).
  simpl PyStr.lstrip. rewrite Hc.
  change (String c (b ++ ws2)) with (String c b ++ ws2)%string.
  rewrite rstrip_app_space by exact H2. exact Hb.
Qed.

Lemma rstrip_app_fixed a b :
  PyStr.rstrip b = b -> b <> "" ->
  PyStr.rstrip (a ++ b) = (a ++ b)%string.
Proof.
  intros Hb Hne. induction a as [|x a IH]; simpl; [exact Hb|].
  rewrite IH. destruct a; [destruct b; [contradiction|]|]; reflexivity.
Qed.

(** ** Decoding the reply of the model *)

Lemma strip_code_fence_block tag J :
  PyStr.contains_char PyStr.newline tag = false ->
  strip_code_fence (fence ++ tag ++ PyStr.nl ++ J ++ PyStr.nl ++ fence) = J.
Proof.
  intros Htag. unfold strip_code_fence.
  assert (Hstart : PyStr.startswith
                     (fence ++ tag ++ PyStr.nl ++ J ++ PyStr.nl ++ fence)
                     fence = true) by reflexivity.
  rewrite Hstart.
  replace (fence ++ tag ++ PyStr.nl ++ J ++ PyStr.nl ++ fence)%string
    with ((fence ++ tag)
            ++ String PyStr.newline (J ++ String PyStr.newline fence))%string
    by (rewrite str_app_assoc; reflexivity).
  rewrite !split_app.
  rewrite (split_no_sep PyStr.newline (fence ++ tag)).
  2:{ rewrite contains_char_app, Htag. reflexivity. }
  rewrite (split_no_sep PyStr.newline fence) by reflexivity.
  unfold PyStr.slice_1_m1. cbn [app tl].
  rewrite removelast_last. apply join_split.
Qed.

Lemma strip_fenced_block ws1 tag J ws2 :
  PyStr.lstrip ws1 = "" -> PyStr.rstrip ws2 = "" ->
  PyStr.strip (ws1 ++ fence ++ tag ++ PyStr.nl ++ J ++ PyStr.nl
                   ++ fence ++ ws2)
  = (fence ++ tag ++ PyStr.nl ++ J ++ PyStr.nl ++ fence)%string.
Proof.
  intros H1 H2.
  replace (fence ++ tag ++ PyStr.nl ++ J ++ PyStr.nl ++ fence ++ ws2)%string
    with ((fence ++ tag ++ PyStr.nl ++ J ++ PyStr.nl ++ fence) ++ ws2)%string
    by (rewrite !str_app_assoc; reflexivity).
  apply (strip_padding ws1 ws2 (c := "`")
           (b := ("``" ++ tag ++ PyStr.nl ++ J ++ PyStr.nl ++ fence)%string));
    auto.
  change (String "`" ("``" ++ tag ++ PyStr.nl ++ J ++ PyStr.nl ++ fence))
    with (fence ++ tag ++ PyStr.nl ++ J ++ PyStr.nl ++ fence)%string.
  replace (fence ++ tag ++ PyStr.nl ++ J ++ PyStr.nl ++ fence)%string
    with ((fence ++ tag ++ PyStr.nl ++ J ++ PyStr.nl) ++ fence)%string
    by (rewrite !str_app_assoc; reflexivity).
  apply rstrip_app_fixed; [reflexivity|discriminate].
Qed.

Lemma strip_prose P1 body P2 :
  PyStr.strip (P1 ++ String "{" (body ++ String "}" P2))
  = (PyStr.lstrip P1
       ++ String "{" (body ++ String "}" (PyStr.rstrip P2)))%string.
Proof.
  unfold PyStr.strip. rewrite lstrip_app_nonspace by reflexivity.
  replace (PyStr.lstrip P1 ++ String "{" (body ++ String "}" P2))%string
    with ((PyStr.lstrip P1 ++ String "{" body) ++ String "}" P2)%string
    by (rewrite str_app_assoc; reflexivity).
  rewrite rstrip_app_nonspace by reflexivity.
  rewrite str_app_assoc. reflexivity.
Qed.

Lemma brace_span_prose P1 body P2 :
  PyStr.contains_char "{" P1 = false ->
  PyStr.contains_char "}" P2 = false ->
  brace_span (P1 ++ String "{" (body ++ String "}" P2))
  = Some (String "{" (body ++ "}")).
Proof.
  intros H1 H2. unfold brace_span.
  rewrite from_first_app by exact H1.
  rewrite upto_last_app by exact H2. reflexivity.
Qed.

(** C2, as amended.  With [content] the trimmed reply, its first and last
    lines removed when it starts with a code fence:
    - (a) a reply that is JSON once trimmed decodes to its value;
    - (b) a reply made of a fence line, a JSON text and a closing fence
      line of its own, with whitespace around, decodes to the value of the
      JSON text;
    - (c) a JSON object with prose before it that holds no opening brace
      and prose after it that holds no closing brace decodes to the value
      of the object, when the whole is rejected with a [JSONDecodeError];
    - the decode raises exactly when [json.loads] raises on [content] and
      either its error is no [JSONDecodeError] (the plain [ValueError] of
      the digit limit, a [RecursionError]), which is passed on without a
      retry, or [content] holds no span from its first opening brace to
      its last closing brace (a [ValueError] whose message carries the
      parse error and [content]), or [json.loads] raises on that span (its
      error, whatever it is, is passed on);
    - the error is a [ValueError] whenever the errors of [json.loads] on
      [content] and on the span are;
    - a value that is returned is the value [json.loads] gave for
      [content] or for that span, never a substitute. *)
Theorem parse_structured_recovery rt raw :
  let content := strip_code_fence (PyStr.strip raw) in
  (forall v,
      PyStr.startswith (PyStr.strip raw) fence = false ->
      json_loads rt (PyStr.strip raw) = inr v ->
      parse_structured rt raw = inr v)
  /\ (forall ws1 tag J ws2 v,
         raw = (ws1 ++ fence ++ tag ++ PyStr.nl ++ J ++ PyStr.nl
                    ++ fence ++ ws2)%string ->
         PyStr.lstrip ws1 = "" -> PyStr.rstrip ws2 = "" ->
         PyStr.contains_char PyStr.newline tag = false ->
         json_loads rt J = inr v ->
         parse_structured rt raw = inr v)
  /\ (forall P1 body P2 v m doc,
         raw = (P1 ++ "{" ++ body ++ "}" ++ P2)%string ->
         PyStr.contains_char "{" P1 = false ->
         PyStr.contains_char "}" P2 = false ->
         PyStr.startswith (PyStr.strip raw) fence = false ->
         json_loads rt ("{" ++ body ++ "}") = inr v ->
         json_loads rt (PyStr.strip raw) = inl (JSONDecodeError m doc) ->
         parse_structured rt raw = inr v)
  /\ (forall err,
         parse_structured rt raw = inl err <->
         exists e,
           json_loads rt content = inl e
           /\ ((is_JSONDecodeError e = false /\ err = e)
               \/ (exists m doc,
                      e = JSONDecodeError m doc
                      /\ ((brace_span content = None
                           /\ err = ValueError
                                      (parse_failure_message m content))
                          \/ (exists span,
                                 brace_span content = Some span
                                 /\ json_loads rt span = inl err)))))
  /\ (forall err,
         parse_structured rt raw = inl err ->
         (forall e, json_loads rt content = inl e -> is_ValueError e = true) ->
         (forall span e,
             brace_span content = Some span ->
             json_loads rt span = inl e -> is_ValueError e = true) ->
         is_ValueError err = true)
  /\ (forall v,
         parse_structured rt raw = inr v ->
         json_loads rt content = inr v
         \/ exists span, brace_span content = Some span
                         /\ json_loads rt span = inr v).
Proof.
  intros content. unfold parse_structured. fold content.
  split.
  { intros v Hnf Hv. subst content. unfold strip_code_fence.
    rewrite Hnf, Hv. reflexivity. }
  split.
  { intros ws1 tag J ws2 v -> H1 H2 Htag Hv. subst content.
    rewrite strip_fenced_block by assumption.
    rewrite strip_code_fence_block by assumption.
    rewrite Hv. reflexivity. }
  split.
  { intros P1 body P2 v m doc -> H1 H2 Hnf Hv He. subst content.
    unfold strip_code_fence. rewrite Hnf, He.
    change (P1 ++ "{" ++ body ++ "}" ++ P2)%string
      with (P1 ++ String "{" (body ++ String "}" P2))%string.
    rewrite strip_prose.
    rewrite brace_span_prose
      by (auto using contains_char_lstrip, contains_char_rstrip).
    change ("{" ++ body ++ "}")%string
      with (String "{" (body ++ "}")) in Hv.
    rewrite Hv. reflexivity. }
  assert (Hraise : forall err,
             match json_loads rt content with
             | inl (JSONDecodeError e _) =>
                 match brace_span content with
                 | Some span => json_loads rt span
                 | None => inl (ValueError (parse_failure_message e content))
                 end
             | inl e => inl e
             | inr v => inr v
             end = inl err <->
             exists e,
               json_loads rt content = inl e
               /\ ((is_JSONDecodeError e = false /\ err = e)
                   \/ (exists m doc,
                          e = JSONDecodeError m doc
                          /\ ((brace_span content = None
                               /\ err = ValueError
                                          (parse_failure_message m content))
                              \/ (exists span,
                                     brace_span content = Some span
                                     /\ json_loads rt span = inl err))))).
  { intros err. split.
    - destruct (json_loads rt content) as [e|v]; [|discriminate].
      intros H. exists e. split; [reflexivity|].
      destruct e; try (left; split; [reflexivity|congruence]).
      right. exists msg, doc. split; [reflexivity|].
      destruct (brace_span content) as [span|].
      + right. exists span. split; [reflexivity|exact H].
      + left. split; [reflexivity|congruence].
    - intros (e & He & [(Hk & ->) | (m & doc & -> & Hrest)]); rewrite He.
      + destruct e; try reflexivity. discriminate.
      + destruct Hrest as [(Hnone & ->) | (span & Hs & Hspan)].
        * rewrite Hnone. reflexivity.
        * rewrite Hs. exact Hspan. }
  split; [exact Hraise|].
  split.
  { intros err Herr Hcontent Hspan.
    apply Hraise in Herr.
    destruct Herr as (e & He & [(_ & ->) | (m & doc & -> & Hrest)]).
    - exact (Hcontent e He).
    - destruct Hrest as [(_ & ->) | (span & Hs & Hsp)]; [reflexivity|].
      exact (Hspan span err Hs Hsp). }
  intros v.
  destruct (json_loads rt content) as [e|v'].
  - destruct e; try discriminate.
    destruct (brace_span content) as [span|]; [|discriminate].
    intros H. right. exists span. auto.
  - intros H. inversion H; subst. left. reflexivity.
Qed.

Lemma parse_structured_recovery_witness :
  parse_structured ref_runtime
    ("Here is the result: " ++ "{" ++ json_text "'name': 'Ann'" ++ "}"
       ++ " Hope this helps.")
  = inr (JObject [("name", JString "Ann")])
  /\ parse_structured ref_runtime
       ("  " ++ fence ++ "json" ++ PyStr.nl ++ json_text "{'name': 'Ann'}"
          ++ PyStr.nl ++ fence ++ PyStr.nl)
     = inr (JObject [("name", JString "Ann")])
  /\ parse_structured ref_runtime (json_text " {'name': 'Ann'} ")
     = inr (JObject [("name", JString "Ann")])
  /\ parse_structured ref_runtime "I cannot read this document."
     = inl (ValueError (parse_failure_message "invalid JSON"
                          "I cannot read this document.")).
Proof.
  split.
  { destruct (parse_structured_recovery ref_runtime
                ("Here is the result: " ++ "{" ++ json_text "'name': 'Ann'"
                   ++ "}" ++ " Hope this helps."))
      as (_ & _ & Hprose & _).
    apply (Hprose "Here is the result: " (json_text "'name': 'Ann'")
                  " Hope this helps." _ "invalid JSON"
                  ("Here is the result: " ++ "{" ++ json_text "'name': 'Ann'"
                     ++ "}" ++ " Hope this helps.")%string);
      reflexivity. }
  split.
  { destruct (parse_structured_recovery ref_runtime
                ("  " ++ fence ++ "json" ++ PyStr.nl
                   ++ json_text "{'name': 'Ann'}" ++ PyStr.nl ++ fence
                   ++ PyStr.nl))
      as (_ & Hfence & _).
    apply (Hfence "  " "json" (json_text "{'name': 'Ann'}") PyStr.nl);
      reflexivity. }
  split.
  { destruct (parse_structured_recovery ref_runtime
                (json_text " {'name': 'Ann'} ")) as (Hbare & _).
    apply Hbare; reflexivity. }
  destruct (parse_structured_recovery ref_runtime
              "I cannot read this document.") as (_ & _ & _ & Herr & _).
  apply Herr. exists (JSONDecodeError "invalid JSON"
                        "I cannot read this document.").
  split; [reflexivity|]. right.
  exists "invalid JSON", "I cannot read this document.".
  split; [reflexivity|]. left. split; reflexivity.
Defined.

(** C2 as stated fails: a JSON object after prose that itself holds braces
    is not recovered, because the span runs from the first opening brace of
    the reply to its last closing brace; and a fenced block whose closing
    fence ends the last line of the JSON loses that line. *)
Lemma parse_structured_prose_with_braces :
  let J := json_text "{'name': 'Ann'}" in
  let raw := ("The fields {name} are: " ++ J)%string in
  json_loads ref_runtime J = inr (JObject [("name", JString "Ann")])
  /\ brace_span (strip_code_fence (PyStr.strip raw))
     = Some ("{name} are: " ++ J)%string
  /\ parse_structured ref_runtime raw
     = inl (JSONDecodeError "invalid JSON" ("{name} are: " ++ J))
  /\ parse_structured ref_runtime (fence ++ "json" ++ PyStr.nl ++ J ++ fence)
     = inl (ValueError (parse_failure_message "invalid JSON" ""))
  /\ ~ (forall rt prose1 text prose2 m,
           json_loads rt text = inr (JObject m) ->
           parse_structured rt (prose1 ++ text ++ prose2) = inr (JObject m)).
Proof.
  intros J raw.
  split; [vm_compute; reflexivity|].
  split; [vm_compute; reflexivity|].
  assert (Hraw : parse_structured ref_runtime raw
                 = inl (JSONDecodeError "invalid JSON" ("{name} are: " ++ J)))
    by (vm_compute; reflexivity).
  split; [exact Hraw|].
  split; [vm_compute; reflexivity|].
  intros Hall.
  specialize (Hall ref_runtime "The fields {name} are: " J ""
                   [("name", JString "Ann")]).
  rewrite str_app_empty_r in Hall. fold raw in Hall.
  rewrite Hraw in Hall.
  assert (HJ : json_loads ref_runtime J
               = inr (JObject [("name", JString "Ann")]))
    by (vm_compute; reflexivity).
  specialize (Hall HJ). discriminate.
Qed.

(** ** The extension of a path *)

Lemma str_length_app a b :
  String.length (a ++ b) = String.length a + String.length b.
Proof. induction a; simpl; congruence. Qed.

Lemma drop_app a b : PyStr.drop (String.length a) (a ++ b) = b.
Proof.
  induction a as [|x a IH]; simpl; [destruct b; reflexivity|exact IH].
Qed.

Lemma rfind_none c s :
  PyStr.contains_char c s = false -> PyStr.rfind c s = None.
Proof.
  induction s as [|x s IH]; simpl; [reflexivity|].
  intros H. apply orb_false_iff in H. destruct H as [-> Hs].
  rewrite IH; auto.
Qed.

Lemma rfind_app c a b :
  PyStr.contains_char c b = false ->
  PyStr.rfind c (a ++ String c b) = Some (String.length a).
Proof.
  intros Hb. induction a as [|x a IH]; simpl.
  - rewrite rfind_none by exact Hb. rewrite Ascii.eqb_refl. reflexivity.
  - rewrite IH. reflexivity.
Qed.

Lemma last_component dir name :
  PyStr.contains_char "/" name = false ->
  name <> "" -> name <> "." ->
  path_name (dir ++ "/" ++ name) = name.
Proof.
  intros Hs Hne Hdot. unfold path_name.
  change (dir ++ "/" ++ name)%string with (dir ++ String "/" name)%string.
  rewrite split_app, (split_no_sep "/" name) by exact Hs.
  rewrite filter_app. simpl.
  assert (Hkeep : negb (PyStr.is_empty name || String.eqb name ".") = true).
  { destruct name as [|c n]; [contradiction|].
    cbn [PyStr.is_empty orb].
    destruct (String.eqb_spec (String c n) "."); [contradiction|reflexivity]. }
  rewrite Hkeep. apply last_last.
Qed.

(** The last component of a path that is a bare name, or a name after a
    directory. *)
Lemma last_component_of prefix name :
  prefix = "" \/ (exists dir, prefix = (dir ++ "/")%string) ->
  PyStr.contains_char "/" name = false ->
  name <> "" -> name <> "." ->
  path_name (prefix ++ name) = name.
Proof.
  intros [-> | (dir & ->)] Hs Hne Hdot.
  - unfold path_name. cbn [append].
    rewrite (split_no_sep "/" name) by exact Hs.
    cbn [filter].
    assert (Hkeep : negb (PyStr.is_empty name || String.eqb name ".") = true).
    { destruct name as [|c n]; [contradiction|].
      cbn [PyStr.is_empty orb].
      destruct (String.eqb_spec (String c n) ".");
        [contradiction|reflexivity]. }
    rewrite Hkeep. reflexivity.
  - rewrite str_app_assoc. apply last_component; assumption.
Qed.

Lemma path_suffix_extension prefix stem ext :
  prefix = "" \/ (exists dir, prefix = (dir ++ "/")%string) ->
  stem <> "" ->
  PyStr.contains_char "/" stem = false ->
  PyStr.contains_char "/" ext = false ->
  PyStr.contains_char "." ext = false ->
  ext <> "" ->
  path_suffix (prefix ++ stem ++ "." ++ ext) = ("." ++ ext)%string.
Proof.
  intros Hp Hst Hstem Hext Hdot Hne. unfold path_suffix.
  rewrite last_component_of; [|exact Hp| | |].
  - change (stem ++ "." ++ ext)%string with (stem ++ String "." ext)%string.
    rewrite rfind_app by exact Hdot.
    rewrite str_length_app. simpl String.length.
    assert (Hl1 : 0 < String.length stem)
      by (destruct stem; [contradiction|simpl; lia]).
    assert (Hl2 : 0 < String.length ext)
      by (destruct ext; [contradiction|simpl; lia]).
    assert (Hc : ((0 <? String.length stem)
                  && (String.length stem
                      <? String.length stem + S (String.length ext) - 1))%nat
                 = true).
    { apply andb_true_iff. split; apply Nat.ltb_lt; lia. }
    rewrite Hc. apply drop_app.
  - rewrite contains_char_app, Hstem. simpl. exact Hext.
  - destruct stem; [contradiction|discriminate].
  - destruct stem as [|c [|c' stem]]; [contradiction| |discriminate].
    destruct ext; [contradiction|discriminate].
Qed.

Lemma path_suffix_dotfile prefix ext :
  prefix = "" \/ (exists dir, prefix = (dir ++ "/")%string) ->
  PyStr.contains_char "/" ext = false ->
  PyStr.contains_char "." ext = false ->
  ext <> "" ->
  path_suffix (prefix ++ "." ++ ext) = "".
Proof.
  intros Hp Hext Hdot Hne. unfold path_suffix.
  rewrite last_component_of; [|exact Hp| | |].
  - change ("." ++ ext)%string with ("" ++ String "." ext)%string.
    rewrite rfind_app by exact Hdot. reflexivity.
  - simpl. exact Hext.
  - discriminate.
  - destruct ext; [contradiction|discriminate].
Qed.

Lemma path_suffix_trailing_dot prefix stem :
  prefix = "" \/ (exists dir, prefix = (dir ++ "/")%string) ->
  stem <> "" ->
  PyStr.contains_char "/" stem = false ->
  path_suffix (prefix ++ stem ++ ".") = "".
Proof.
  intros Hp Hst Hstem. unfold path_suffix.
  rewrite last_component_of; [|exact Hp| | |].
  - change (stem ++ ".")%string with (stem ++ String "." "")%string.
    rewrite rfind_app by reflexivity.
    rewrite str_length_app. simpl String.length.
    assert (Hc : ((0 <? String.length stem)
                  && (String.length stem <? String.length stem + 1 - 1))%nat
                 = false).
    { apply andb_false_iff. right. apply Nat.ltb_ge. lia. }
    rewrite Hc. reflexivity.
  - rewrite contains_char_app, Hstem. reflexivity.
  - destruct stem; [contradiction|discriminate].
  - destruct stem as [|c [|c' stem]]; [contradiction|discriminate|discriminate].
Qed.

Lemma path_suffix_no_dot prefix name :
  prefix = "" \/ (exists dir, prefix = (dir ++ "/")%string) ->
  name <> "" ->
  PyStr.contains_char "/" name = false ->
  PyStr.contains_char "." name = false ->
  path_suffix (prefix ++ name) = "".
Proof.
  intros Hp Hne Hs Hd. unfold path_suffix.
  rewrite last_component_of; [|exact Hp|exact Hs|exact Hne|].
  - rewrite rfind_none by exact Hd. reflexivity.
  - intros ->. discriminate.
Qed.

Lemma type_map_lookup ext :
  ~ In ext recognized_extensions -> PyDict.get ext type_map = None.
Proof.
  intros H. destruct (PyDict.get ext type_map) eqn:E; [|reflexivity].
  exfalso. apply H. revert E. unfold type_map. cbn [PyDict.get].
  repeat match goal with
         | |- context [String.eqb ext ?k] =>
             destruct (String.eqb_spec ext k);
             [subst ext; intros _; cbn; tauto|]
         end.
  discriminate.
Qed.

(** C8: the format tag of a path is fixed by the extension of its last
    component.  Take a path that is a name, alone or after a directory
    ([prefix] is empty or ends with a slash).
    - For a name [stem.ext], with a non-empty stem and an extension
      without dot, the tag is the entry of the table for [.ext] in lower
      case, and the plain-text tag when the table has none, whatever the
      directory and the stem are: two such paths whose extensions agree up
      to letter case have the same tag.
    - The table is closed: it has the fifteen recognized extensions, each
      listed once.
    - A name without dot, a name whose only dot is in front, and a name
      that ends with a dot have no extension and are plain text, even
      below a directory whose name has an extension.
    - The tag of an ingested document is the tag of its resolved path,
      whatever the file holds: two ingestions of a path that resolves the
      same way give the same tag, in any two worlds. *)
Theorem detect_file_type_by_extension :
  PyDict.keys type_map = recognized_extensions
  /\ NoDup (PyDict.keys type_map)
  /\ (forall prefix stem ext,
         prefix = "" \/ (exists dir, prefix = (dir ++ "/")%string) ->
         stem <> "" ->
         PyStr.contains_char "/" stem = false ->
         PyStr.contains_char "/" ext = false ->
         PyStr.contains_char "." ext = false ->
         ext <> "" ->
         let tag := _detect_file_type (prefix ++ stem ++ "." ++ ext) in
         tag = match PyDict.get (PyStr.lower ("." ++ ext)) type_map with
               | Some t => t
               | None => "txt"
               end
         /\ (~ In (PyStr.lower ("." ++ ext)) recognized_extensions ->
             tag = "txt")
         /\ (forall prefix' stem' ext',
                prefix' = "" \/ (exists dir, prefix' = (dir ++ "/")%string) ->
                stem' <> "" ->
                PyStr.contains_char "/" stem' = false ->
                PyStr.contains_char "/" ext' = false ->
                PyStr.contains_char "." ext' = false ->
                PyStr.lower ext' = PyStr.lower ext ->
                _detect_file_type (prefix' ++ stem' ++ "." ++ ext') = tag))
  /\ (forall prefix name,
         prefix = "" \/ (exists dir, prefix = (dir ++ "/")%string) ->
         name <> "" ->
         PyStr.contains_char "/" name = false ->
         (PyStr.contains_char "." name = false
          -> _detect_file_type (prefix ++ name) = "txt")
         /\ (PyStr.contains_char "." name = false
             -> _detect_file_type (prefix ++ "." ++ name) = "txt")
         /\ _detect_file_type (prefix ++ name ++ ".") = "txt")
  /\ (forall rt w self p d,
         process rt w self p = inr d ->
         exists fp,
           path_resolve w p = inr fp
           /\ ExtractedDocument.file_type d = _detect_file_type fp)
  /\ (forall rt1 w1 self1 rt2 w2 self2 p d1 d2,
         path_resolve w1 p = path_resolve w2 p ->
         process rt1 w1 self1 p = inr d1 ->
         process rt2 w2 self2 p = inr d2 ->
         ExtractedDocument.file_type d1 = ExtractedDocument.file_type d2).
Proof.
  assert (Htag : forall prefix stem ext,
             prefix = "" \/ (exists dir, prefix = (dir ++ "/")%string) ->
             stem <> "" ->
             PyStr.contains_char "/" stem = false ->
             PyStr.contains_char "/" ext = false ->
             PyStr.contains_char "." ext = false ->
             ext <> "" ->
             _detect_file_type (prefix ++ stem ++ "." ++ ext)
             = match PyDict.get (PyStr.lower ("." ++ ext)) type_map with
               | Some t => t
               | None => "txt"
               end).
  { intros prefix stem ext H0 H1 H2 H3 H4 H5. unfold _detect_file_type.
    rewrite path_suffix_extension by assumption. reflexivity. }
  assert (Hdoc : forall rt w self p d,
             process rt w self p = inr d ->
             exists fp,
               path_resolve w p = inr fp
               /\ ExtractedDocument.file_type d = _detect_file_type fp).
  { intros rt w self p d Hd.
    destruct (process_returns _ _ _ _ Hd) as (fp & Hr & _ & Hfp).
    exists fp. split; [exact Hr|].
    exact (process_resolved_file_type _ _ _ _ Hfp). }
  split; [reflexivity|].
  split.
  { cbn. repeat (constructor; [cbn; intuition discriminate|]). constructor. }
  split.
  { intros prefix stem ext H0 H1 H2 H3 H4 H5 tag. subst tag.
    split; [apply Htag; assumption|].
    split.
    - intros Hout. rewrite Htag by assumption.
      rewrite type_map_lookup by exact Hout. reflexivity.
    - intros prefix' stem' ext' G0 G1 G2 G3 G4 Hlow.
      assert (G5 : ext' <> "").
      { intros ->. destruct ext; [contradiction|discriminate]. }
      rewrite !Htag by assumption.
      change (PyStr.lower ("." ++ ext'))
        with (String "." (PyStr.lower ext')).
      change (PyStr.lower ("." ++ ext)) with (String "." (PyStr.lower ext)).
      rewrite Hlow. reflexivity. }
  split.
  { intros prefix name H0 H1 H2. unfold _detect_file_type.
    split; [|split].
    - intros H3. rewrite path_suffix_no_dot by assumption. reflexivity.
    - intros H3. rewrite path_suffix_dotfile by assumption. reflexivity.
    - rewrite path_suffix_trailing_dot by assumption. reflexivity. }
  split; [exact Hdoc|].
  intros rt1 w1 self1 rt2 w2 self2 p d1 d2 Hsame Hd1 Hd2.
  destruct (Hdoc _ _ _ _ _ Hd1) as (fp1 & Hr1 & ->).
  destruct (Hdoc _ _ _ _ _ Hd2) as (fp2 & Hr2 & ->).
  rewrite Hsame, Hr2 in Hr1. inversion Hr1. reflexivity.
Qed.

Lemma detect_file_type_by_extension_witness :
  let w := world_with_file "/work/Form.JSON" "[]" (replies_of []) in
  (exists d,
      process ref_runtime w default_processor "Form.JSON" = inr d
      /\ ExtractedDocument.file_type d = "json")
  /\ _detect_file_type "notes.docx" = "txt"
  /\ _detect_file_type "/scans.2024/.pdf" = "txt"
  /\ _detect_file_type "/scans.2024/README" = "txt".
Proof.
  intro w.
  destruct detect_file_type_by_extension
    as (_ & _ & Hext & Hnone & Hdoc & _).
  split.
  { destruct (process ref_runtime w default_processor "Form.JSON")
      as [e|d] eqn:Hd; [vm_compute in Hd; discriminate|].
    exists d. split; [reflexivity|].
    destruct (Hdoc _ _ _ _ _ Hd) as (fp & Hr & ->).
    vm_compute in Hr. inversion Hr; subst fp.
    destruct (Hext "/work/" "Form" "JSON") as (Htag & _);
      [right; exists "/work"; reflexivity
      |discriminate|reflexivity|reflexivity|reflexivity|discriminate|].
    exact Htag. }
  split.
  { destruct (Hext "" "notes" "docx") as (_ & Hother & _);
      [left; reflexivity
      |discriminate|reflexivity|reflexivity|reflexivity|discriminate|].
    apply Hother. vm_compute. intuition discriminate. }
  split.
  - destruct (Hnone "/scans.2024/" "pdf") as (_ & Hdot & _);
      [right; exists "/scans.2024"; reflexivity|discriminate|reflexivity|].
    apply Hdot. reflexivity.
  - destruct (Hnone "/scans.2024/" "README") as (Hplain & _);
      [right; exists "/scans.2024"; reflexivity|discriminate|reflexivity|].
    apply Hplain. reflexivity.
Defined.

(* ================================================================== *)
(** * Further properties *)

(** ** Trimmed text *)

Lemma lstrip_shape s :
  PyStr.lstrip s = ""
  \/ exists c t, PyStr.lstrip s = String c t /\ PyStr.is_space c = false.
Proof.
  induction s as [|c s IH]; simpl; [left; reflexivity|].
  destruct (PyStr.is_space c) eqn:E; [exact IH|].
  right. exists c, s. auto.
Qed.

Lemma rstrip_idem s : PyStr.rstrip (PyStr.rstrip s) = PyStr.rstrip s.
Proof.
  induction s as [|c s IH]; simpl; [reflexivity|].
  destruct (PyStr.is_empty (PyStr.rstrip s) && PyStr.is_space c) eqn:E;
    [reflexivity|].
  simpl. rewrite IH, E. reflexivity.
Qed.

Lemma rstrip_cons_nonspace c s :
  PyStr.is_space c = false ->
  PyStr.rstrip (String c s) = String c (PyStr.rstrip s).
Proof.
  intros H. simpl. rewrite H, andb_false_r. reflexivity.
Qed.

Lemma strip_shape s :
  PyStr.strip s = ""
  \/ exists c t, PyStr.strip s = String c (PyStr.rstrip t)
                 /\ PyStr.is_space c = false.
Proof.
  unfold PyStr.strip.
  destruct (lstrip_shape s) as [-> | (c & t & -> & Hc)];
    [left; reflexivity|].
  right. exists c, t. rewrite rstrip_cons_nonspace by exact Hc. auto.
Qed.

Lemma lstrip_strip s : PyStr.lstrip (PyStr.strip s) = PyStr.strip s.
Proof.
  destruct (strip_shape s) as [-> | (c & t & -> & Hc)]; [reflexivity|].
  simpl. rewrite Hc. reflexivity.
Qed.

Lemma rstrip_strip s : PyStr.rstrip (PyStr.strip s) = PyStr.strip s.
Proof. unfold PyStr.strip. apply rstrip_idem. Qed.

Lemma strip_idem s : PyStr.strip (PyStr.strip s) = PyStr.strip s.
Proof.
  unfold PyStr.strip at 1. rewrite lstrip_strip. apply rstrip_strip.
Qed.

Lemma process_raw_text_stripped rt w self p d :
  process rt w self p = inr d ->
  exists t, ExtractedDocument.raw_text d = PyStr.strip t.
Proof.
  intros Hp. destruct (process_returns _ _ _ _ Hp) as (fp & _ & _ & H).
  revert H. clear Hp. unfold process_resolved_path.
  destruct (negb (path_exists w fp)); [discriminate|].
  destruct (String.eqb _ "pdf").
  - unfold _process_pdf.
    destruct (negb (pdfplumber_importable w)); [discriminate|].
    intros H; inversion H; simpl; eauto.
  - destruct (existsb _ image_types).
    + unfold _process_image.
      destruct (negb (ocr_enabled _)).
      { intros H; inversion H; simpl. exists "". reflexivity. }
      destruct (negb (pil_importable w)); [discriminate|].
      destruct (image_open w _) as [e|img]; [discriminate|].
      destruct (image_to_string img _); [discriminate|].
      intros H; inversion H; simpl; eauto.
    + unfold _process_text.
      destruct (read_content w _); [discriminate|].
      destruct (String.eqb _ "csv").
      * destruct (csv_reader rt _); [discriminate|].
        intros H; inversion H; simpl; eauto.
      * destruct (String.eqb _ "json"); intros H; inversion H; simpl; eauto.
Qed.

(** X1: the text of every document ingestion returns is trimmed: it has
    no whitespace at either end, in each of the PDF, image and text
    branches. *)
Theorem raw_text_is_trimmed rt w self p d :
  process rt w self p = inr d ->
  PyStr.strip (ExtractedDocument.raw_text d) = ExtractedDocument.raw_text d
  /\ PyStr.lstrip (ExtractedDocument.raw_text d)
     = ExtractedDocument.raw_text d
  /\ PyStr.rstrip (ExtractedDocument.raw_text d)
     = ExtractedDocument.raw_text d.
Proof.
  intros H. destruct (process_raw_text_stripped _ _ _ _ H) as (t & ->).
  split; [apply strip_idem|]. split; [apply lstrip_strip|apply rstrip_strip].
Qed.

Lemma raw_text_is_trimmed_witness :
  exists d,
    process ref_runtime padded_world default_processor "notes.txt" = inr d
    /\ ExtractedDocument.raw_text d = "Total: $1,500"
    /\ PyStr.strip (ExtractedDocument.raw_text d)
       = ExtractedDocument.raw_text d.
Proof.
  destruct (process ref_runtime padded_world default_processor "notes.txt")
    as [e|d] eqn:Hd; [vm_compute in Hd; discriminate|].
  exists d. split; [reflexivity|].
  destruct (raw_text_is_trimmed _ _ _ _ Hd) as (Hs & _).
  split; [|exact Hs].
  vm_compute in Hd. inversion Hd. reflexivity.
Defined.

(** ** Only the last extension counts *)

(** X2: for a path whose last component is [stem.ext], with a non-empty
    stem and an extension free of dots, the detected format is the entry
    of the table for the lower-cased [.ext], or plain text when there is
    none: only the last extension counts, and its case does not.  A last
    component that only starts with a dot has no extension and is plain
    text. *)
Theorem detect_file_type_of_name dir stem ext :
  PyStr.contains_char "/" stem = false ->
  PyStr.contains_char "/" ext = false ->
  PyStr.contains_char "." ext = false ->
  ext <> "" ->
  (stem <> "" ->
   path_suffix (dir ++ "/" ++ stem ++ "." ++ ext) = ("." ++ ext)%string
   /\ _detect_file_type (dir ++ "/" ++ stem ++ "." ++ ext)
      = match PyDict.get (PyStr.lower ("." ++ ext)) type_map with
        | Some t => t
        | None => "txt"
        end)
  /\ (path_suffix (dir ++ "/" ++ "." ++ ext) = ""
      /\ _detect_file_type (dir ++ "/" ++ "." ++ ext) = "txt").
Proof.
  intros Hstem Hext Hdot Hne.
  assert (Hname : forall st,
             PyStr.contains_char "/" st = false ->
             path_name (dir ++ "/" ++ st ++ "." ++ ext)
             = (st ++ "." ++ ext)%string).
  { intros st Hst. apply last_component.
    - rewrite contains_char_app, Hst. simpl. exact Hext.
    - destruct st; discriminate.
    - destruct st as [|c [|c' st]]; simpl.
      + destruct ext; [contradiction|discriminate].
      + discriminate.
      + discriminate. }
  split.
  - intros Hst.
    assert (Hsuf : path_suffix (dir ++ "/" ++ stem ++ "." ++ ext)
                   = ("." ++ ext)%string).
    { unfold path_suffix. rewrite (Hname stem Hstem).
      change (stem ++ "." ++ ext)%string with (stem ++ String "." ext)%string.
      rewrite rfind_app by exact Hdot.
      rewrite str_length_app. simpl String.length.
      assert (Hl1 : 0 < String.length stem)
        by (destruct stem; [contradiction|simpl; lia]).
      assert (Hl2 : 0 < String.length ext)
        by (destruct ext; [contradiction|simpl; lia]).
      assert (Hc : ((0 <? String.length stem)
                    && (String.length stem
                        <? String.length stem + S (String.length ext) - 1))%nat
                   = true).
      { apply andb_true_iff. split; apply Nat.ltb_lt; lia. }
      rewrite Hc. apply drop_app. }
    split; [exact Hsuf|]. unfold _detect_file_type. rewrite Hsuf. reflexivity.
  - assert (Hsuf : path_suffix (dir ++ "/" ++ "." ++ ext) = "").
    { unfold path_suffix.
      change (dir ++ "/" ++ "." ++ ext)%string
        with (dir ++ "/" ++ "" ++ "." ++ ext)%string.
      rewrite (Hname "" eq_refl).
      change ("" ++ "." ++ ext)%string with ("" ++ String "." ext)%string.
      rewrite rfind_app by exact Hdot. reflexivity. }
    split; [exact Hsuf|]. unfold _detect_file_type. rewrite Hsuf. reflexivity.
Qed.

Lemma detect_file_type_of_name_witness :
  _detect_file_type ("/data/2024" ++ "/" ++ "report.v2.final" ++ "." ++ "PDF")
  = "pdf"
  /\ _detect_file_type ("/home/user" ++ "/" ++ "." ++ "json") = "txt".
Proof.
  destruct (@detect_file_type_of_name "/data/2024" "report.v2.final" "PDF"
              eq_refl eq_refl eq_refl) as (H & _); [discriminate|].
  destruct H as (_ & ->); [discriminate|].
  split; [reflexivity|].
  destruct (@detect_file_type_of_name "/home/user" "" "json"
              eq_refl eq_refl eq_refl) as (_ & _ & ->); [discriminate|].
  reflexivity.
Defined.

(** ** OCR confidence *)

Lemma positive_confidences_accepted rt conf vals :
  Forall2 (fun c v => py_int rt c = Some v) (filter isdigit conf) vals ->
  positive_confidences rt conf = Some (filter (Z.ltb 0) vals).
Proof.
  revert vals. induction conf as [|c conf IH]; intros vals H.
  - inversion H. reflexivity.
  - cbn [filter] in H. cbn [positive_confidences].
    destruct (isdigit c).
    + inversion H as [|c' v rest vals' Hc Hrest]; subst.
      rewrite Hc, (IH vals' Hrest). cbn [filter].
      destruct (0 <? v)%Z; reflexivity.
    + exact (IH vals H).
Qed.

Lemma positive_confidences_rejected rt conf c :
  In c conf -> isdigit c = true -> py_int rt c = None ->
  positive_confidences rt conf = None.
Proof.
  intros Hin Hd He. induction conf as [|x conf IH]; [contradiction|].
  cbn [positive_confidences].
  destruct Hin as [-> | Hin].
  - rewrite Hd, He. reflexivity.
  - rewrite (IH Hin).
    destruct (isdigit x); [|reflexivity].
    destruct (py_int rt x); reflexivity.
Qed.

Lemma positive_filter l : Forall (fun z => (0 < z)%Z) (filter (Z.ltb 0) l).
Proof.
  induction l as [|z l IH]; cbn [filter]; [constructor|].
  destruct (Z.ltb_spec 0 z); [constructor|]; assumption.
Qed.

Lemma sum_of_positive l :
  Forall (fun z => (0 < z)%Z) l ->
  (Z.of_nat (length l) <= fold_right Z.add 0 l)%Z.
Proof.
  induction 1 as [|z l Hz _ IH]; simpl; lia.
Qed.

Lemma sum_bounded bound l :
  Forall (fun z => (z <= bound)%Z) l ->
  (fold_right Z.add 0 l <= Z.of_nat (length l) * bound)%Z.
Proof.
  induction 1 as [|z l Hz _ IH]; [simpl; lia|].
  cbn [fold_right length]. rewrite Nat2Z.inj_succ. lia.
Qed.

(** X3: the OCR confidence of an image, from the readings of the OCR
    engine.  It is [0] when the readings cannot be obtained, and when one
    reading that passes [isdigit] is rejected by [int] (a superscript
    digit, more digits than the limit), whatever the other readings are.
    When [int] accepts them all, with [positive] the values above zero
    among those of the readings that pass [isdigit], in order, it is [0]
    when there is none or when the quotient is beyond the floats, and the
    quotient of their sum by their number otherwise; the quotient is never
    taken with a zero divisor, it is at least one, and it is not beyond
    the floats when every value is below [2^1024 - 2^970]. *)
Theorem avg_confidence_of_readings rt img :
  (forall e, image_to_data_conf img = inl e -> avg_confidence rt img = JInt 0)
  /\ (forall conf c,
         image_to_data_conf img = inr conf ->
         In c conf -> isdigit c = true -> py_int rt c = None ->
         avg_confidence rt img = JInt 0)
  /\ (forall conf vals,
         image_to_data_conf img = inr conf ->
         Forall2 (fun c v => py_int rt c = Some v) (filter isdigit conf) vals ->
         let positive := filter (Z.ltb 0) vals in
         let total := fold_right Z.add 0%Z positive in
         let n := Z.of_nat (length positive) in
         avg_confidence rt img
         = (if (n =? 0)%Z || true_div_overflows total n then JInt 0
            else JFloat (FloatDiv total n))
         /\ (positive <> [] -> (0 < n <= total)%Z)
         /\ (positive <> [] ->
             Forall (fun v => (v < 2 ^ 1024 - 2 ^ 970)%Z) vals ->
             avg_confidence rt img = JFloat (FloatDiv total n))).
Proof.
  split; [|split].
  - intros e He. unfold avg_confidence. rewrite He. reflexivity.
  - intros conf c Hconf Hin Hd He. unfold avg_confidence. rewrite Hconf.
    rewrite (positive_confidences_rejected rt conf c Hin Hd He).
    reflexivity.
  - intros conf vals Hconf Hvals positive total n.
    assert (Havg : avg_confidence rt img
                   = (if (n =? 0)%Z || true_div_overflows total n then JInt 0
                      else JFloat (FloatDiv total n))).
    { unfold avg_confidence. rewrite Hconf.
      rewrite (positive_confidences_accepted rt conf Hvals).
      fold positive. subst total n.
      destruct positive as [|z l]; [reflexivity|].
      cbv zeta.
      assert (Hn : (Z.of_nat (length (z :: l)) =? 0)%Z = false)
        by (apply Z.eqb_neq; cbn [length]; lia).
      rewrite Hn. reflexivity. }
    assert (Hpos : positive <> [] -> (0 < n <= total)%Z).
    { intros Hne. subst n total. split.
      - destruct positive; [contradiction|cbn [length]; lia].
      - apply sum_of_positive. apply positive_filter. }
    split; [exact Havg|]. split; [exact Hpos|].
    intros Hne Hbound. rewrite Havg.
    destruct (Hpos Hne) as (Hn & _).
    assert (Hz : (n =? 0)%Z = false) by (apply Z.eqb_neq; lia).
    assert (Hsum : (total <= n * (2 ^ 1024 - 2 ^ 970 - 1))%Z).
    { subst total n. apply sum_bounded. subst positive.
      clear - Hbound. induction Hbound as [|v l Hv _ IH];
        cbn [filter]; [constructor|].
      destruct (0 <? v)%Z; [constructor; [lia|exact IH]|exact IH]. }
    assert (Ho : true_div_overflows total n = false).
    { unfold true_div_overflows. apply Z.leb_gt.
      remember (2 ^ 1024 - 2 ^ 970)%Z as bound. nia. }
    rewrite Hz, Ho. reflexivity.
Qed.

Lemma avg_confidence_of_readings_witness :
  avg_confidence ref_runtime (scan_with_readings ["90"; "-1"; "80"; "0"])
  = JFloat (FloatDiv 170 2)
  /\ avg_confidence ref_runtime
       (scan_with_readings ["90"; superscript_two; "80"])
     = JInt 0.
Proof.
  destruct (avg_confidence_of_readings ref_runtime
              (scan_with_readings ["90"; "-1"; "80"; "0"]))
    as (_ & _ & Hmean).
  destruct (Hmean ["90"; "-1"; "80"; "0"] [90; 80; 0]%Z eq_refl)
    as (_ & _ & Hexact).
  { repeat constructor. }
  split.
  - apply Hexact; [discriminate|].
    repeat (constructor; [reflexivity|]). constructor.
  - destruct (avg_confidence_of_readings ref_runtime
                (scan_with_readings ["90"; superscript_two; "80"]))
      as (_ & Hrejected & _).
    apply (Hrejected ["90"; superscript_two; "80"] superscript_two eq_refl).
    + right. left. reflexivity.
    + reflexivity.
    + reflexivity.
Defined.

(** ** Tables from JSON, by the first object *)

Lemma json_rows_no_headers rt data :
  json_rows rt [] data = Some (map (fun _ => []) data).
Proof.
  induction data as [|v data IH]; [reflexivity|].
  cbn [json_rows json_row map]. rewrite IH. reflexivity.
Qed.

Lemma json_rows_some rt headers data rows :
  headers <> [] ->
  json_rows rt headers data = Some rows ->
  exists objs,
    data = map JObject objs
    /\ rows = map (fun row => map (json_cell rt row) headers) objs.
Proof.
  intros Hh. revert rows.
  induction data as [|v data IH]; cbn [json_rows]; intros rows.
  - intros H. inversion H. exists []. auto.
  - destruct headers as [|h headers]; [contradiction|].
    destruct v; try discriminate. cbn [json_row].
    destruct (json_rows rt (h :: headers) data) as [rows'|]; [|discriminate].
    intros H. inversion H; subst.
    destruct (IH rows' eq_refl) as (objs & -> & ->).
    exists (members :: objs). auto.
Qed.

Lemma json_rows_shape rt headers data rows :
  json_rows rt headers data = Some rows ->
  length rows = length data
  /\ Forall (fun row => length row = length headers) rows.
Proof.
  revert rows. induction data as [|v data IH]; cbn [json_rows]; intros rows.
  - intros H. inversion H. split; [reflexivity|constructor].
  - destruct (json_row rt headers v) as [cells|] eqn:Hrow; [|discriminate].
    destruct (json_rows rt headers data) as [rows'|]; [|discriminate].
    intros H. inversion H; subst.
    destruct (IH rows' eq_refl) as (Hlen & Hall).
    split; [cbn [length]; congruence|].
    constructor; [|exact Hall].
    unfold json_row in Hrow. destruct headers as [|h headers].
    + inversion Hrow. reflexivity.
    + destruct v; try discriminate.
      injection Hrow as <-. cbn [length]. rewrite length_map. reflexivity.
Qed.

Lemma json_tables_cases rt content :
  json_tables rt content = []
  \/ exists first rest rows,
      json_loads rt content = inr (JArray (JObject first :: rest))
      /\ json_rows rt (PyDict.keys first) (JObject first :: rest) = Some rows
      /\ json_tables rt content = [PyDict.keys first :: rows].
Proof.
  unfold json_tables.
  destruct (json_loads rt content) as [e|v]; [left; reflexivity|].
  destruct v; try (left; reflexivity).
  destruct items as [|v items]; [left; reflexivity|].
  destruct v; try (left; reflexivity).
  destruct (json_rows rt (PyDict.keys members) (JObject members :: items))
    as [rows|] eqn:E; [|left; reflexivity].
  right. exists members, items, rows. auto.
Qed.

(** X4: the tables of an ingested JSON file are fixed by the first
    element of the array.  There is a table only when the text parses as
    an array whose first element is an object, and then there is one.
    When that object has keys, every element must be an object: one
    element that is no object, anywhere in the array, leaves the document
    without table.  When it has no key, the other elements are not looked
    at: the table is an empty header and one empty row per element,
    whatever the elements are.  A table has one row per element after its
    header, and is rectangular: each row has as many cells as the
    header. *)
Theorem json_table_by_first_object rt w self p fp content :
  path_resolve w p = inr fp ->
  path_exists w fp = true ->
  _detect_file_type fp = "json" ->
  read_content w fp = inr content ->
  exists d,
    process rt w self p = inr d
    /\ (ExtractedDocument.tables d <> [] ->
        exists first rest,
          json_loads rt content = inr (JArray (JObject first :: rest))
          /\ length (ExtractedDocument.tables d) = 1
          /\ (first <> [] -> exists objs, rest = map JObject objs))
    /\ (forall first rest v,
           json_loads rt content = inr (JArray (JObject first :: rest)) ->
           first <> [] ->
           In v rest -> (forall m, v <> JObject m) ->
           ExtractedDocument.tables d = [])
    /\ (forall rest,
           json_loads rt content = inr (JArray (JObject [] :: rest)) ->
           ExtractedDocument.tables d
           = [ [] :: [] :: map (fun _ => []) rest ])
    /\ (forall items table,
           json_loads rt content = inr (JArray items) ->
           In table (ExtractedDocument.tables d) ->
           length table = 1 + length items)
    /\ (forall table row,
           In table (ExtractedDocument.tables d) -> In row table ->
           length row = length (hd [] table)).
Proof.
  intros Hres Hex Hft Hread.
  destruct (@process_json_file rt w self p fp content Hres Hex Hft Hread)
    as (d & Hd & Ht & _).
  exists d. split; [exact Hd|]. rewrite Ht.
  assert (Hkeys : forall first : list (string * json),
             first <> [] -> PyDict.keys first <> []).
  { intros [|[k v] first] H; [contradiction|discriminate]. }
  split; [|split; [|split; [|split]]].
  - intros Hne.
    destruct (json_tables_cases rt content)
      as [Hnil | (first & rest & rows & Hloads & Hrows & Htab)];
      [contradiction|].
    exists first, rest. split; [exact Hloads|].
    split; [rewrite Htab; reflexivity|].
    intros Hfirst.
    destruct (@json_rows_some rt _ _ _ (Hkeys first Hfirst) Hrows)
      as ([|o objs] & Hdata & _); [discriminate|].
    inversion Hdata. exists objs. reflexivity.
  - intros first rest v Hloads Hfirst Hin Hv.
    destruct (json_tables_cases rt content)
      as [Hnil | (first' & rest' & rows & Hloads' & Hrows & Htab)];
      [exact Hnil|].
    exfalso. rewrite Hloads in Hloads'. inversion Hloads'; subst first' rest'.
    destruct (@json_rows_some rt _ _ _ (Hkeys first Hfirst) Hrows)
      as ([|o objs] & Hdata & _); [discriminate|].
    inversion Hdata; subst rest.
    apply in_map_iff in Hin. destruct Hin as (m & <- & _).
    eapply Hv. reflexivity.
  - intros rest Hloads. unfold json_tables. rewrite Hloads.
    cbn [PyDict.keys map]. rewrite json_rows_no_headers. reflexivity.
  - intros items table Hloads Hin.
    destruct (json_tables_cases rt content)
      as [Hnil | (first & rest & rows & Hloads' & Hrows & Htab)].
    + rewrite Hnil in Hin. contradiction.
    + rewrite Htab in Hin. destruct Hin as [<- | []].
      rewrite Hloads in Hloads'. inversion Hloads'; subst items.
      destruct (json_rows_shape _ _ _ Hrows) as (Hlen & _).
      cbn [length] in *. lia.
  - intros table row Hin Hrow.
    destruct (json_tables_cases rt content)
      as [Hnil | (first & rest & rows & _ & Hrows & Htab)].
    + rewrite Hnil in Hin. contradiction.
    + rewrite Htab in Hin. destruct Hin as [<- | []]. cbn [hd].
      destruct Hrow as [<- | Hrow]; [reflexivity|].
      destruct (json_rows_shape _ _ _ Hrows) as (_ & Hall).
      rewrite Forall_forall in Hall. exact (Hall row Hrow).
Qed.

Lemma json_table_by_first_object_witness :
  (exists d,
      process ref_runtime mixed_array_world default_processor "mixed.json"
      = inr d
      /\ json_loads ref_runtime mixed_array_json
         = inr (JArray [JObject [("name", JString "Alice")]; JInt 7])
      /\ ExtractedDocument.tables d = [])
  /\ (exists d,
         process ref_runtime keyless_array_world default_processor
                 "keyless.json" = inr d
         /\ json_loads ref_runtime keyless_array_json
            = inr (JArray [JObject []; JInt 5])
         /\ ExtractedDocument.tables d = [ [ []; []; [] ] ]).
Proof.
  split.
  - destruct (@json_table_by_first_object ref_runtime mixed_array_world
                default_processor "mixed.json" "/work/mixed.json"
                mixed_array_json eq_refl eq_refl eq_refl eq_refl)
      as (d & Hd & _ & Hmixed & _).
    exists d. split; [exact Hd|]. split; [reflexivity|].
    apply (Hmixed [("name", JString "Alice")] [JInt 7] (JInt 7)).
    + reflexivity.
    + discriminate.
    + left. reflexivity.
    + intros m Hm. discriminate.
  - destruct (@json_table_by_first_object ref_runtime keyless_array_world
                default_processor "keyless.json" "/work/keyless.json"
                keyless_array_json eq_refl eq_refl eq_refl eq_refl)
      as (d & Hd & _ & _ & Hkeyless & _).
    exists d. split; [exact Hd|]. split; [reflexivity|].
    apply (Hkeyless [JInt 5]). reflexivity.
Defined.

(** ** The brace span of a reply *)

Lemma from_first_some c s t :
  PyStr.from_first c s = Some t ->
  exists pre rest,
    s = (pre ++ String c rest)%string /\ t = String c rest
    /\ PyStr.contains_char c pre = false.
Proof.
  induction s as [|x s IH]; simpl; [discriminate|].
  destruct (Ascii.eqb_spec x c) as [->|Hne].
  - intros H. inversion H. exists "", s. auto.
  - intros H. destruct (IH H) as (pre & rest & -> & -> & Hpre).
    exists (String x pre), rest. simpl.
    apply Ascii.eqb_neq in Hne. rewrite Hne, Hpre. auto.
Qed.

Lemma upto_last_some c s r :
  PyStr.upto_last c s = Some r ->
  exists mid post,
    s = (mid ++ String c post)%string /\ r = (mid ++ String c "")%string
    /\ PyStr.contains_char c post = false.
Proof.
  revert r. induction s as [|x s IH]; simpl; intros r; [discriminate|].
  destruct (PyStr.upto_last c s) as [r'|] eqn:E.
  - intros H. inversion H; subst.
    destruct (IH r' eq_refl) as (mid & post & -> & -> & Hpost).
    exists (String x mid), post. auto.
  - destruct (Ascii.eqb_spec x c) as [->|Hne]; [|discriminate].
    intros H. inversion H; subst. exists "", s. repeat split.
    clear -E. induction s as [|y s IH]; simpl in *; [reflexivity|].
    destruct (PyStr.upto_last c s); [discriminate|].
    destruct (Ascii.eqb y c); [discriminate|]. auto.
Qed.

(** X5: the span on which decoding is retried exists exactly when the
    text holds an opening brace with a closing brace somewhere after it,
    and it is then the longest such span: it runs from the first opening
    brace of the text to its last closing brace. *)
Theorem brace_span_is_outermost content span :
  brace_span content = Some span <->
  exists pre mid post,
    content = (pre ++ "{" ++ mid ++ "}" ++ post)%string
    /\ span = ("{" ++ mid ++ "}")%string
    /\ PyStr.contains_char "{" pre = false
    /\ PyStr.contains_char "}" post = false.
Proof.
  split.
  - unfold brace_span.
    destruct (PyStr.from_first "{" content) as [t|] eqn:E; [|discriminate].
    destruct (from_first_some _ _ E) as (pre & rest & -> & -> & Hpre).
    destruct (PyStr.upto_last "}" rest) as [r|] eqn:E2; [|discriminate].
    destruct (upto_last_some _ _ E2) as (mid & post & -> & -> & Hpost).
    intros H. inversion H. exists pre, mid, post. auto.
  - intros (pre & mid & post & -> & -> & Hpre & Hpost).
    apply (brace_span_prose _ _ _ Hpre Hpost).
Qed.

Lemma brace_span_is_outermost_witness :
  brace_span (json_text "note {a} then {'k': 1} and {b} end")
  = Some (json_text "{a} then {'k': 1} and {b}").
Proof.
  apply brace_span_is_outermost.
  exists "note ", (json_text "a} then {'k': 1} and {b"), " end".
  repeat split.
Defined.

(** ** Fenced replies of fewer than three lines *)

Lemma slice_short A (l : list A) :
  length l <= 2 -> PyStr.slice_1_m1 l = [].
Proof.
  destruct l as [|a [|b [|c l]]]; simpl; intros H; try reflexivity. lia.
Qed.

(** X6: when the trimmed reply starts with a code fence and has at most
    two lines, removing its first and last lines leaves nothing: a JSON
    text on the line of the fence is lost, and the decode raises the
    [ValueError] for an empty content whenever the empty text is no JSON. *)
Theorem fenced_reply_needs_three_lines rt raw e doc :
  PyStr.startswith (PyStr.strip raw) fence = true ->
  length (PyStr.split PyStr.newline (PyStr.strip raw)) <= 2 ->
  json_loads rt "" = inl (JSONDecodeError e doc) ->
  strip_code_fence (PyStr.strip raw) = ""
  /\ parse_structured rt raw
     = inl (ValueError (parse_failure_message e "")).
Proof.
  intros Hf Hlen He.
  assert (Hc : strip_code_fence (PyStr.strip raw) = "").
  { unfold strip_code_fence. rewrite Hf, slice_short by exact Hlen.
    reflexivity. }
  split; [exact Hc|].
  unfold parse_structured. rewrite Hc, He. reflexivity.
Qed.

Lemma fenced_reply_needs_three_lines_witness :
  parse_structured ref_runtime (fence ++ json_text "{'a': 1}" ++ fence)
  = inl (ValueError (parse_failure_message "invalid JSON" ""))
  /\ parse_structured ref_runtime
       (fence ++ "json" ++ PyStr.nl ++ json_text "{'a': 1}" ++ fence)
     = inl (ValueError (parse_failure_message "invalid JSON" "")).
Proof.
  split.
  - apply (@fenced_reply_needs_three_lines ref_runtime _ "invalid JSON" "");
      [reflexivity|vm_compute; lia|reflexivity].
  - apply (@fenced_reply_needs_three_lines ref_runtime _ "invalid JSON" "");
      [reflexivity|vm_compute; lia|reflexivity].
Defined.

(** ** PDF pages and the OCR fallback *)

Lemma page_header_shape i ocr :
  exists x, page_header i ocr = String PyStr.newline (String "-" x).
Proof. unfold page_header. simpl. eexists. reflexivity. Qed.

Lemma strip_header_nonempty x :
  PyStr.is_empty (PyStr.strip (String PyStr.newline (String "-" x))) = false.
Proof.
  unfold PyStr.strip.
  change (PyStr.lstrip (String PyStr.newline (String "-" x)))
    with (String "-" x).
  rewrite rstrip_cons_nonspace by reflexivity. reflexivity.
Qed.

Lemma pdf_pages_loop_ok i ps l l' :
  pdf_pages_loop i ps l = (l', None) ->
  length (l_pages l') = length (l_pages l) + length ps
  /\ l_metadata l' = l_metadata l
  /\ exists tail,
      l_all_text l' = (l_all_text l ++ tail)%string
      /\ (ps <> [] -> exists rest,
            tail = (page_header i false ++ rest)%string).
Proof.
  revert i l. induction ps as [|page ps IH]; intros i l;
    cbn [pdf_pages_loop].
  - intros H. inversion H; subst. split; [simpl; lia|].
    split; [reflexivity|].
    exists "". rewrite str_app_empty_r. split; [reflexivity|congruence].
  - destruct (extract_text page) as [e|t]; [discriminate|].
    destruct (extract_tables page) as [e|tbls]; [discriminate|].
    intros H. destruct (IH _ _ H) as (Hlen & Hmd & tail & Htxt & _).
    cbn [l_pages l_metadata l_all_text] in Hlen, Hmd, Htxt.
    split; [rewrite Hlen, length_app; simpl; lia|].
    split; [exact Hmd|].
    eexists. split.
    + rewrite Htxt, !str_app_assoc. reflexivity.
    + intros _. eexists. reflexivity.
Qed.

Lemma pdf_pages_loop_metadata i ps l l' r :
  pdf_pages_loop i ps l = (l', r) -> l_metadata l' = l_metadata l.
Proof.
  revert i l. induction ps as [|page ps IH]; intros i l; simpl.
  - intros H. inversion H. reflexivity.
  - destruct (extract_text page) as [e|t];
      [intros H; inversion H; reflexivity|].
    destruct (extract_tables page) as [e|tbls];
      [intros H; inversion H; reflexivity|].
    intros H. apply IH in H. exact H.
Qed.

(** X7: for a PDF with at least one page whose pages are all read without
    an exception, the OCR fallback is never used, whatever the pages hold,
    even when none has any text: the page headers make the accumulated
    text non-empty.  The document has one page text per PDF page, records
    the page count, and is tagged [pdfplumber]. *)
Theorem pdf_with_pages_skips_ocr w self fp info ps l :
  pdfplumber_importable w = true ->
  pdfplumber_open w fp = PdfOpened info ps ->
  ps <> [] ->
  pdf_pages_loop 0 ps (pdf_locals_opened info ps) = (l, None) ->
  exists d,
    _process_pdf w self fp = inr d
    /\ ExtractedDocument.extraction_method d = "pdfplumber"
    /\ PyDict.get "ocr_used" (ExtractedDocument.metadata d) = None
    /\ PyDict.get "page_count" (ExtractedDocument.metadata d)
       = Some (MetaJson (JInt (Z.of_nat (length ps))))
    /\ ExtractedDocument.pages d = l_pages l
    /\ length (ExtractedDocument.pages d) = length ps
    /\ ExtractedDocument.tables d = l_tables l
    /\ ExtractedDocument.raw_text d <> "".
Proof.
  intros Himp Hopen Hps Hloop.
  destruct (pdf_pages_loop_ok _ _ _ Hloop)
    as (Hlen & Hmd & tail & Htxt & Hhead).
  destruct (Hhead Hps) as (rest & ->).
  destruct (page_header_shape 0 false) as (x & Hx).
  assert (Hne : PyStr.is_empty (PyStr.strip (l_all_text l)) = false).
  { rewrite Htxt, Hx. apply strip_header_nonempty. }
  assert (Htry : pdf_try w self fp = l).
  { unfold pdf_try. rewrite Hopen. cbv zeta. rewrite Hloop, Hne.
    reflexivity. }
  unfold _process_pdf. rewrite Himp. simpl. rewrite Htry.
  eexists. split; [reflexivity|].
  cbn [ExtractedDocument.extraction_method ExtractedDocument.metadata
       ExtractedDocument.pages ExtractedDocument.tables
       ExtractedDocument.raw_text].
  rewrite Hmd. unfold ocr_not_used. simpl.
  repeat split; auto.
  intros Hraw. rewrite Hraw in Hne. discriminate.
Qed.

Lemma pdf_with_pages_skips_ocr_witness :
  exists d,
    process ref_runtime scanned_pdf_world default_processor "claim.pdf"
    = inr d
    /\ pdf_ocr_importable scanned_pdf_world = true
    /\ ExtractedDocument.pages d = [""]
    /\ ExtractedDocument.raw_text d = "--- Page 1 ---"
    /\ ExtractedDocument.extraction_method d = "pdfplumber".
Proof.
  destruct (@pdf_with_pages_skips_ocr scanned_pdf_world default_processor
              "/work/claim.pdf" []
              [ {| extract_text := inr None; extract_tables := inr [] |} ]
              _ eq_refl eq_refl ltac:(discriminate) eq_refl)
    as (d & Hd & Hm & _ & _ & Hp & _).
  exists d. split; [exact Hd|]. split; [reflexivity|].
  split; [exact Hp|]. split; [|exact Hm].
  vm_compute in Hd. inversion Hd. reflexivity.
Defined.

(** X8: when opening or reading a PDF raises and OCR is enabled, the text
    and the pages of the document are those of the OCR pass, which
    replace whatever had been read: the empty text and no page when the
    OCR libraries are missing.  The tables read before the failure are
    kept, the error is noted, and the document is tagged [ocr].  When the
    OCR pass itself raises, what had been read is kept and the tag stays
    [pdfplumber]. *)
Theorem pdf_failure_falls_back_to_ocr w self fp e l :
  pdfplumber_importable w = true ->
  ocr_enabled self = true ->
  (pdfplumber_open w fp = PdfRaises e /\ l = pdf_locals_init
   \/ exists info ps,
       pdfplumber_open w fp = PdfOpened info ps
       /\ pdf_pages_loop 0 ps (pdf_locals_opened info ps) = (l, Some e)) ->
  exists d,
    _process_pdf w self fp = inr d
    /\ ExtractedDocument.tables d = l_tables l
    /\ PyDict.get "error" (ExtractedDocument.metadata d)
       = Some (MetaJson (JString (exn_str e)))
    /\ match _ocr_pdf w self fp with
       | inr (text, pages) =>
           ExtractedDocument.raw_text d = PyStr.strip text
           /\ ExtractedDocument.pages d = pages
           /\ ExtractedDocument.extraction_method d = "ocr"
       | inl _ =>
           ExtractedDocument.raw_text d = PyStr.strip (l_all_text l)
           /\ ExtractedDocument.pages d = l_pages l
           /\ ExtractedDocument.extraction_method d = "pdfplumber"
       end
    /\ (pdf_ocr_importable w = false ->
        ExtractedDocument.raw_text d = ""
        /\ ExtractedDocument.pages d = []
        /\ ExtractedDocument.extraction_method d = "ocr").
Proof.
  intros Himp Hocr Hfail.
  assert (Htry : pdf_try w self fp = pdf_except w self fp e l
                 /\ PyDict.get "ocr_used" (l_metadata l) = None).
  { unfold pdf_try.
    destruct Hfail as [(Hopen & ->) | (info & ps & Hopen & Hloop)];
      rewrite Hopen; [split; reflexivity|].
    cbv zeta. rewrite Hloop. split; [reflexivity|].
    rewrite (pdf_pages_loop_metadata _ _ _ Hloop). reflexivity. }
  destruct Htry as (Htry & Hmd).
  unfold _process_pdf. rewrite Himp. simpl. rewrite Htry.
  eexists. split; [reflexivity|].
  cbn [ExtractedDocument.extraction_method ExtractedDocument.metadata
       ExtractedDocument.pages ExtractedDocument.tables
       ExtractedDocument.raw_text].
  split.
  { unfold pdf_except. rewrite Hocr.
    destruct (_ocr_pdf w self fp); reflexivity. }
  split; [apply pdf_except_error_note|].
  assert (Hcases :
            match _ocr_pdf w self fp with
            | inr (text, pages) =>
                PyStr.strip (l_all_text (pdf_except w self fp e l))
                = PyStr.strip text
                /\ l_pages (pdf_except w self fp e l) = pages
                /\ (if ocr_not_used (l_metadata (pdf_except w self fp e l))
                    then "pdfplumber" else "ocr") = "ocr"
            | inl _ =>
                PyStr.strip (l_all_text (pdf_except w self fp e l))
                = PyStr.strip (l_all_text l)
                /\ l_pages (pdf_except w self fp e l) = l_pages l
                /\ (if ocr_not_used (l_metadata (pdf_except w self fp e l))
                    then "pdfplumber" else "ocr") = "pdfplumber"
            end).
  { unfold pdf_except. rewrite Hocr.
    destruct (_ocr_pdf w self fp) as [e'|[text pages]]; simpl.
    - repeat split. unfold ocr_not_used.
      rewrite dict_get_set_other by discriminate. rewrite Hmd. reflexivity.
    - repeat split. unfold ocr_not_used.
      rewrite dict_get_set_same. reflexivity. }
  split; [exact Hcases|].
  intros Hlibs. revert Hcases. unfold _ocr_pdf at 1. rewrite Hlibs. simpl.
  intros (-> & -> & ->). repeat split.
Qed.

Lemma pdf_failure_falls_back_to_ocr_witness :
  exists d,
    process ref_runtime damaged_pdf_world default_processor "claim.pdf"
    = inr d
    /\ ExtractedDocument.raw_text d = ""
    /\ ExtractedDocument.pages d = []
    /\ ExtractedDocument.tables d = [ [ ["a"; ""] ] ]
    /\ ExtractedDocument.extraction_method d = "ocr".
Proof.
  destruct (pdf_pages_loop 0
              [ {| extract_text := inr (Some "Page one text");
                   extract_tables := inr [ [ [Some " a "; None] ] ] |};
                {| extract_text := inl (LibraryError "bad xref");
                   extract_tables := inr [] |} ]
              (pdf_locals_opened [] [
                 {| extract_text := inr (Some "Page one text");
                    extract_tables := inr [ [ [Some " a "; None] ] ] |};
                 {| extract_text := inl (LibraryError "bad xref");
                    extract_tables := inr [] |} ]))
    as [l [e|]] eqn:Hloop; [|vm_compute in Hloop; discriminate].
  destruct (@pdf_failure_falls_back_to_ocr damaged_pdf_world
              default_processor "/work/claim.pdf" e l eq_refl eq_refl)
    as (d & Hd & Ht & _ & _ & Hlost).
  { right. eexists _, _. split; [reflexivity|exact Hloop]. }
  destruct (Hlost eq_refl) as (Hr & Hp & Hm).
  exists d. split; [exact Hd|]. split; [exact Hr|]. split; [exact Hp|].
  split; [|exact Hm].
  rewrite Ht. vm_compute in Hloop. inversion Hloop. reflexivity.
Defined.

(** ** What one call of [process_form] does, case by case *)

Lemma process_form_outcome rt w p force s :
  process_form rt w p force s
  = match (if negb force
           then PyDict.get p (_processed_forms s) else None) with
    | Some form => (inr form, s)
    | None =>
        match process rt w (doc_processor s) p with
        | inl e => (inl e, s)
        | inr d =>
            let s1 := record_request (ReqExtractFields d) s in
            match structured_reply rt w s with
            | inl e => (inl e, s1)
            | inr (JObject m) =>
                let er := extraction_of_mapping m in
                match log_extraction er with
                | inl e => (inl e, counted s1)
                | inr _ =>
                    (inr (build_form w p d er),
                     with_form p (build_form w p d er) (counted s1))
                end
            | inr v => (inl (no_get v), s1)
            end
        end
    end.
Proof.
  unfold process_form.
  destruct (if negb force then PyDict.get p (_processed_forms s) else None);
    [reflexivity|].
  unfold bind at 1. unfold lift at 1.
  destruct (process rt w (doc_processor s) p) as [e|d]; [reflexivity|].
  unfold bind at 1. rewrite FieldExtractionTool_run_eq.
  destruct (structured_reply rt w s) as [e|[]]; reflexivity.
Qed.

(** X9: a field-extraction reply that decodes to a mapping but whose
    [confidence] cannot be shown as a percentage (it is [null], a string,
    a list or a mapping), or whose [fields] has no length, makes
    [process_form] raise after the call of the model was made and counted;
    the form is not cached, so the next call for the path calls the model
    again. *)
Theorem process_form_raises_after_counting rt w p force s d m e :
  (if negb force then PyDict.get p (_processed_forms s) else None) = None ->
  process rt w (doc_processor s) p = inr d ->
  structured_reply rt w s = inr (JObject m) ->
  log_extraction (extraction_of_mapping m) = inl e ->
  let s' := snd (process_form rt w p force s) in
  fst (process_form rt w p force s) = inl e
  /\ call_history s' = call_history s ++ [ReqExtractFields d]
  /\ total_llm_calls s' = total_llm_calls s + 1
  /\ _processed_forms s' = _processed_forms s
  /\ (PyDict.get "confidence" m = Some JNull ->
      PyDict.get "fields" m = None ->
      e = TypeError
            "unsupported format string passed to NoneType.__format__").
Proof.
  intros Hmiss Hd Hreply Hlog s'. subst s'.
  rewrite process_form_outcome, Hmiss, Hd, Hreply. cbv zeta. rewrite Hlog.
  split; [reflexivity|]. split; [reflexivity|].
  split; [reflexivity|]. split; [reflexivity|].
  intros Hc Hf. revert Hlog.
  unfold log_extraction, extraction_of_mapping, PyDict.get_default.
  rewrite Hc, Hf. simpl. congruence.
Qed.

Lemma process_form_raises_after_counting_witness :
  let w := null_confidence_world in
  let run := process_form ref_runtime w "form.txt" false (new_agent false) in
  fst run = inl (TypeError
             "unsupported format string passed to NoneType.__format__")
  /\ total_llm_calls (snd run) = 1
  /\ _processed_forms (snd run) = []
  /\ length (call_history
               (snd (process_form ref_runtime w "form.txt" false (snd run))))
     = 2.
Proof.
  intros w run.
  destruct (process ref_runtime w (doc_processor (new_agent false))
                    "form.txt") as [e|d] eqn:Hd;
    [vm_compute in Hd; discriminate|].
  destruct (@process_form_raises_after_counting ref_runtime w "form.txt"
              false (new_agent false) d
              [("fields", JObject [("Name", JString "John Doe")]);
               ("confidence", JNull)]
              (TypeError
             "unsupported format string passed to NoneType.__format__")
              eq_refl Hd eq_refl eq_refl) as (Hr & _ & Ht & Hc & _).
  split; [exact Hr|]. split; [exact Ht|]. split; [exact Hc|].
  vm_compute. reflexivity.
Defined.

(** ** The question operations, case by case *)

Lemma ask_outcome rt w q form s :
  ask rt w q form s
  = let s1 := record_request
                (ReqAnswerQuestion q (document_of_form w form)
                   (ProcessedForm.extracted_fields form)) s in
    match structured_reply rt w s with
    | inl e => (inl e, s1)
    | inr (JObject m) =>
        let r := QAResult.mk
                   (PyDict.get_default "answer"
                      (JString "Unable to determine") m)
                   (PyDict.get_default "confidence" zero_float m)
                   (PyDict.get_default "evidence" empty_list m)
                   (PyDict.get_default "reasoning" empty_str m) in
        match format_percent (QAResult.confidence r) with
        | inl e => (inl e, counted s1)
        | inr _ => (inr r, counted s1)
        end
    | inr v => (inl (no_get v), s1)
    end.
Proof.
  unfold ask, bind at 1. rewrite QuestionAnsweringTool_run_eq.
  destruct (structured_reply rt w s) as [e|[]]; reflexivity.
Qed.

Lemma summarize_outcome rt w form style s :
  summarize rt w form style s
  = let s1 := record_request (summary_request w style form) s in
    match structured_reply rt w s with
    | inl e => (inl e, s1)
    | inr (JObject m) =>
        (inr (SummaryResult.mk
                (PyDict.get_default "summary" empty_str m)
                (PyDict.get_default "key_points" empty_list m)
                (PyDict.get_default "form_type" (JString "unknown") m)
                (PyDict.get_default "important_values" empty_dict m)),
         counted s1)
    | inr v => (inl (no_get v), s1)
    end.
Proof.
  unfold summarize, bind at 1. rewrite SummarizationTool_run_eq.
  destruct (structured_reply rt w s) as [e|[]]; reflexivity.
Qed.

Lemma analyze_outcome rt w q forms s :
  analyze rt w q forms s
  = let s1 := record_request
                (ReqAnalyze q (map (document_of_form w) forms)
                   (map ProcessedForm.extracted_fields forms)) s in
    match structured_reply rt w s with
    | inl e => (inl e, s1)
    | inr (JObject m) =>
        (inr (AnalysisResult.mk
                (PyDict.get_default "answer" empty_str m)
                (PyDict.get_default "insights" empty_list m)
                (PyDict.get_default "comparisons" empty_dict m)
                (PyDict.get_default "statistics" empty_dict m)),
         counted s1)
    | inr v => (inl (no_get v), s1)
    end.
Proof.
  unfold analyze, bind at 1. rewrite CrossDocumentAnalysisTool_run_eq.
  destruct (structured_reply rt w s) as [e|[]]; reflexivity.
Qed.

Lemma analyze_task_outcome rt w task q n s :
  _analyze_task rt w task q n s
  = let s1 := record_request (ReqClassifyTask task q n) s in
    match structured_reply rt w s with
    | inl e => (inl e, s1)
    | inr v => (inr v, counted s1)
    end.
Proof.
  unfold _analyze_task, bind at 1. rewrite generate_structured_eq.
  destruct (structured_reply rt w s); reflexivity.
Qed.

(** ** Composition of advancing and of cache-keeping computations *)

Lemma advances_refl s : advances s s.
Proof.
  repeat split. exists []. rewrite app_nil_r. simpl. repeat split; lia.
Qed.

Lemma advances_trans s1 s2 s3 :
  advances s1 s2 -> advances s2 s3 -> advances s1 s3.
Proof.
  intros (Hv1 & Hd1 & h1 & Hh1 & Hlo1 & Hhi1)
         (Hv2 & Hd2 & h2 & Hh2 & Hlo2 & Hhi2).
  split; [congruence|]. split; [congruence|].
  exists (h1 ++ h2). rewrite Hh2, Hh1, app_assoc, length_app.
  repeat split; lia.
Qed.

Lemma advances_request r s : advances s (record_request r s).
Proof.
  repeat split. exists [r]. simpl. repeat split; lia.
Qed.

Lemma advances_counted_request r s :
  advances s (counted (record_request r s)).
Proof.
  repeat split. exists [r]. simpl. repeat split; lia.
Qed.

Lemma advances_with_form p f r s :
  advances s (with_form p f (counted (record_request r s))).
Proof.
  repeat split. exists [r]. simpl. repeat split; lia.
Qed.

Create HintDb agent.
#[local] Hint Resolve advances_refl advances_request
  advances_counted_request advances_with_form : agent.

Lemma bind_advancing A B (c : M A) (k : A -> M B) :
  advancing c -> (forall a, advancing (k a)) -> advancing (bind c k).
Proof.
  intros Hc Hk s. unfold bind. specialize (Hc s).
  destruct (c s) as [[e|a] s1]; [exact Hc|].
  eapply advances_trans; [exact Hc|apply Hk].
Qed.

Lemma ret_advancing A (a : A) : advancing (ret a).
Proof. intros s. apply advances_refl. Qed.

Lemma lift_advancing A (r : result A) : advancing (lift r).
Proof. intros s. apply advances_refl. Qed.

Lemma for_each_advancing A B (f : A -> M B) l :
  (forall a, advancing (f a)) -> advancing (for_each f l).
Proof.
  intros Hf. induction l as [|x l IH]; simpl.
  - apply ret_advancing.
  - apply bind_advancing; [apply Hf|]. intros y.
    apply bind_advancing; [exact IH|]. intros ys. apply ret_advancing.
Qed.

Lemma bind_keeps_cache A B (c : M A) (k : A -> M B) :
  keeps_cache c -> (forall a, keeps_cache (k a)) -> keeps_cache (bind c k).
Proof.
  intros Hc Hk s. unfold bind. specialize (Hc s).
  destruct (c s) as [[e|a] s1]; [exact Hc|].
  cbn [snd] in Hc. rewrite Hk. exact Hc.
Qed.

Lemma ret_keeps_cache A (a : A) : keeps_cache (ret a).
Proof. intros s. reflexivity. Qed.

Lemma lift_keeps_cache A (r : result A) : keeps_cache (lift r).
Proof. intros s. reflexivity. Qed.

Lemma for_each_keeps_cache A B (f : A -> M B) l :
  (forall a, keeps_cache (f a)) -> keeps_cache (for_each f l).
Proof.
  intros Hf. induction l as [|x l IH]; simpl.
  - apply ret_keeps_cache.
  - apply bind_keeps_cache; [apply Hf|]. intros y.
    apply bind_keeps_cache; [exact IH|]. intros ys. apply ret_keeps_cache.
Qed.

Lemma ask_advancing rt w q form : advancing (ask rt w q form).
Proof.
  intros s. rewrite ask_outcome. cbv zeta.
  destruct (structured_reply rt w s) as [e|[]]; cbn [snd];
    auto with agent.
  match goal with
  | |- context [format_percent ?c] => destruct (format_percent c)
  end; cbn [snd]; auto with agent.
Qed.

Lemma summarize_advancing rt w form style :
  advancing (summarize rt w form style).
Proof.
  intros s. rewrite summarize_outcome. cbv zeta.
  destruct (structured_reply rt w s) as [e|[]]; cbn [snd];
    auto with agent.
Qed.

Lemma analyze_advancing rt w q forms : advancing (analyze rt w q forms).
Proof.
  intros s. rewrite analyze_outcome. cbv zeta.
  destruct (structured_reply rt w s) as [e|[]]; cbn [snd];
    auto with agent.
Qed.

Lemma analyze_task_advancing rt w task q n :
  advancing (_analyze_task rt w task q n).
Proof.
  intros s. rewrite analyze_task_outcome. cbv zeta.
  destruct (structured_reply rt w s); cbn [snd]; auto with agent.
Qed.

Lemma process_form_advancing rt w p force :
  advancing (process_form rt w p force).
Proof.
  intros s. rewrite process_form_outcome.
  destruct (if negb force then PyDict.get p (_processed_forms s) else None);
    [apply advances_refl|].
  destruct (process rt w (doc_processor s) p); [apply advances_refl|].
  cbv zeta.
  destruct (structured_reply rt w s) as [e|[]]; cbn [snd];
    auto with agent.
  destruct (log_extraction (extraction_of_mapping members));
    cbn [snd]; auto with agent.
Qed.

Lemma ask_keeps_cache rt w q form : keeps_cache (ask rt w q form).
Proof.
  intros s. rewrite ask_outcome. cbv zeta.
  destruct (structured_reply rt w s) as [e|[]]; try reflexivity.
  match goal with
  | |- context [format_percent ?c] => destruct (format_percent c)
  end; reflexivity.
Qed.

Lemma summarize_keeps_cache rt w form style :
  keeps_cache (summarize rt w form style).
Proof.
  intros s. rewrite summarize_outcome. cbv zeta.
  destruct (structured_reply rt w s) as [e|[]]; reflexivity.
Qed.

Lemma analyze_keeps_cache rt w q forms : keeps_cache (analyze rt w q forms).
Proof.
  intros s. rewrite analyze_outcome. cbv zeta.
  destruct (structured_reply rt w s) as [e|[]]; reflexivity.
Qed.

Lemma analyze_task_keeps_cache rt w task q n :
  keeps_cache (_analyze_task rt w task q n).
Proof.
  intros s. rewrite analyze_task_outcome. cbv zeta.
  destruct (structured_reply rt w s); reflexivity.
Qed.

Lemma workflow_qa_keeps_cache rt w task q forms :
  keeps_cache (workflow_qa rt w task q forms).
Proof.
  unfold workflow_qa. destruct forms as [|f [|f' forms]];
    apply bind_keeps_cache;
    try (intros; apply ret_keeps_cache);
    try apply ask_keeps_cache; apply analyze_keeps_cache.
Qed.

Lemma workflow_qa_advancing rt w task q forms :
  advancing (workflow_qa rt w task q forms).
Proof.
  unfold workflow_qa. destruct forms as [|f [|f' forms]];
    apply bind_advancing;
    try (intros; apply ret_advancing);
    try apply ask_advancing; apply analyze_advancing.
Qed.

(** The steps of [run_workflow] that follow the processing of the paths. *)
Lemma workflow_rest rt w task paths q s :
  exists rest : list ProcessedForm.t -> M workflow_result,
    run_workflow rt w task paths q s
    = bind (process_forms rt w paths) rest s
    /\ (forall forms, keeps_cache (rest forms))
    /\ (forall forms, advancing (rest forms)).
Proof.
  eexists. split; [reflexivity|]. split; intros forms.
  - apply bind_keeps_cache; [apply analyze_task_keeps_cache|]. intros ta.
    apply bind_keeps_cache; [apply lift_keeps_cache|]. intros tt.
    destruct (eq_str tt "extract"); [apply ret_keeps_cache|].
    destruct (eq_str tt "qa"); [apply workflow_qa_keeps_cache|].
    destruct (eq_str tt "summarize").
    { apply bind_keeps_cache;
        [apply for_each_keeps_cache; intros; apply summarize_keeps_cache|].
      intros; apply ret_keeps_cache. }
    destruct (eq_str tt "analyze").
    { apply bind_keeps_cache; [apply analyze_keeps_cache|].
      intros; apply ret_keeps_cache. }
    apply bind_keeps_cache;
      [apply for_each_keeps_cache; intros; apply summarize_keeps_cache|].
    intros; apply ret_keeps_cache.
  - apply bind_advancing; [apply analyze_task_advancing|]. intros ta.
    apply bind_advancing; [apply lift_advancing|]. intros tt.
    destruct (eq_str tt "extract"); [apply ret_advancing|].
    destruct (eq_str tt "qa"); [apply workflow_qa_advancing|].
    destruct (eq_str tt "summarize").
    { apply bind_advancing;
        [apply for_each_advancing; intros; apply summarize_advancing|].
      intros; apply ret_advancing. }
    destruct (eq_str tt "analyze").
    { apply bind_advancing; [apply analyze_advancing|].
      intros; apply ret_advancing. }
    apply bind_advancing;
      [apply for_each_advancing; intros; apply summarize_advancing|].
    intros; apply ret_advancing.
Qed.

Lemma process_forms_advancing rt w paths :
  advancing (process_forms rt w paths).
Proof.
  apply for_each_advancing. intros p. apply process_form_advancing.
Qed.

Lemma run_workflow_advancing rt w task paths q :
  advancing (run_workflow rt w task paths q).
Proof.
  intros s.
  destruct (workflow_rest rt w task paths q s) as (rest & -> & _ & Hadv).
  apply bind_advancing; [apply process_forms_advancing|exact Hadv].
Qed.

(** X10: every operation of the agent keeps its settings, only appends
    to the history of requests, never decreases the call counter, and
    raises the counter by no more than the number of requests it sent.
    Hence the counter never exceeds the number of requests made: it can
    fall short of it, since a request whose reply fails to decode is not
    counted. *)
Theorem agent_operations_advance rt w :
  (forall p force, advancing (process_form rt w p force))
  /\ (forall paths, advancing (process_forms rt w paths))
  /\ (forall q form, advancing (ask rt w q form))
  /\ (forall q forms, advancing (ask_multiple rt w q forms))
  /\ (forall form style, advancing (summarize rt w form style))
  /\ (forall q forms, advancing (analyze rt w q forms))
  /\ (forall f1 f2, advancing (compare rt w f1 f2))
  /\ (forall task paths q, advancing (run_workflow rt w task paths q))
  /\ (forall s s',
         advances s s' ->
         total_llm_calls s <= length (call_history s) ->
         total_llm_calls s' <= length (call_history s')).
Proof.
  split; [intros; apply process_form_advancing|].
  split; [intros; apply process_forms_advancing|].
  split; [intros; apply ask_advancing|].
  split; [intros; apply analyze_advancing|].
  split; [intros; apply summarize_advancing|].
  split; [intros; apply analyze_advancing|].
  split; [intros; apply analyze_advancing|].
  split; [intros; apply run_workflow_advancing|].
  intros s s' (_ & _ & h & Hh & _ & Hhi) Hs.
  rewrite Hh, length_app. lia.
Qed.

Lemma agent_operations_advance_witness :
  let final := snd (run_workflow ref_runtime qa_world "What is the total?"
                                 ["form.txt"] None (new_agent false)) in
  total_llm_calls final <= length (call_history final)
  /\ length (call_history final) = 3.
Proof.
  intro final.
  destruct (agent_operations_advance ref_runtime qa_world)
    as (_ & _ & _ & _ & _ & _ & _ & Hrun & Hbound).
  split; [|vm_compute; reflexivity].
  apply (Hbound (new_agent false) final).
  - apply Hrun.
  - simpl. lia.
Defined.

(** X11: the question operations do not touch the cache of forms:
    [ask], [ask_multiple], [summarize], [analyze], [compare] and the task
    classification leave it as it is, whether they return or raise; and
    [run_workflow] changes the cache only through its first step, the
    processing of its paths. *)
Theorem question_operations_keep_cache rt w :
  (forall q form, keeps_cache (ask rt w q form))
  /\ (forall q forms, keeps_cache (ask_multiple rt w q forms))
  /\ (forall form style, keeps_cache (summarize rt w form style))
  /\ (forall q forms, keeps_cache (analyze rt w q forms))
  /\ (forall f1 f2, keeps_cache (compare rt w f1 f2))
  /\ (forall task q n, keeps_cache (_analyze_task rt w task q n))
  /\ (forall task paths q s,
         _processed_forms (snd (run_workflow rt w task paths q s))
         = _processed_forms (snd (process_forms rt w paths s))).
Proof.
  split; [intros; apply ask_keeps_cache|].
  split; [intros; apply analyze_keeps_cache|].
  split; [intros; apply summarize_keeps_cache|].
  split; [intros; apply analyze_keeps_cache|].
  split; [intros; apply analyze_keeps_cache|].
  split; [intros; apply analyze_task_keeps_cache|].
  intros task paths q s.
  destruct (workflow_rest rt w task paths q s) as (rest & -> & Hkeep & _).
  unfold bind.
  destruct (process_forms rt w paths s) as [[e|forms] s1]; [reflexivity|].
  apply Hkeep.
Qed.

(** X12: each of [ask], [summarize], [analyze] and the task
    classification sends exactly one request, whether it returns or
    raises, and raises the counter by one exactly when the reply was
    decoded (to a mapping, for the three tools): a call whose transport
    or decoding fails is not counted, while [ask] counts a call even when
    it then raises because the confidence cannot be shown as a
    percentage. *)
Theorem counter_counts_decoded_replies rt w s :
  let tool_count :=
    match structured_reply rt w s with
    | inr v => if is_mapping v then 1 else 0
    | inl _ => 0
    end in
  (forall q form,
      length (call_history (snd (ask rt w q form s)))
      = length (call_history s) + 1
      /\ total_llm_calls (snd (ask rt w q form s))
         = total_llm_calls s + tool_count)
  /\ (forall form style,
         length (call_history (snd (summarize rt w form style s)))
         = length (call_history s) + 1
         /\ total_llm_calls (snd (summarize rt w form style s))
            = total_llm_calls s + tool_count)
  /\ (forall q forms,
         length (call_history (snd (analyze rt w q forms s)))
         = length (call_history s) + 1
         /\ total_llm_calls (snd (analyze rt w q forms s))
            = total_llm_calls s + tool_count)
  /\ (forall task q n,
         length (call_history (snd (_analyze_task rt w task q n s)))
         = length (call_history s) + 1
         /\ total_llm_calls (snd (_analyze_task rt w task q n s))
            = total_llm_calls s
              + match structured_reply rt w s with
                | inr _ => 1
                | inl _ => 0
                end)
  /\ (forall q form m e,
         structured_reply rt w s = inr (JObject m) ->
         format_percent (PyDict.get_default "confidence" zero_float m)
         = inl e ->
         fst (ask rt w q form s) = inl e
         /\ total_llm_calls (snd (ask rt w q form s))
            = total_llm_calls s + 1).
Proof.
  intros tool_count. subst tool_count.
  split.
  { intros q form. rewrite ask_outcome. cbv zeta.
    destruct (structured_reply rt w s) as [e|[]]; cbn [snd is_mapping];
      try (simpl; rewrite length_app; simpl; split; lia).
    match goal with
    | |- context [format_percent ?c] => destruct (format_percent c)
    end; simpl; rewrite length_app; simpl; split; lia. }
  split.
  { intros form style. rewrite summarize_outcome. cbv zeta.
    destruct (structured_reply rt w s) as [e|[]]; cbn [snd is_mapping];
      simpl; rewrite length_app; simpl; split; lia. }
  split.
  { intros q forms. rewrite analyze_outcome. cbv zeta.
    destruct (structured_reply rt w s) as [e|[]]; cbn [snd is_mapping];
      simpl; rewrite length_app; simpl; split; lia. }
  split.
  { intros task q n. rewrite analyze_task_outcome. cbv zeta.
    destruct (structured_reply rt w s); simpl; rewrite length_app; simpl;
      split; lia. }
  intros q form m e Hreply Hfmt. rewrite ask_outcome. cbv zeta.
  rewrite Hreply. cbn [QAResult.confidence]. rewrite Hfmt.
  split; reflexivity.
Qed.

Lemma counter_counts_decoded_replies_witness :
  let w := world_with_file "/work/none" ""
             (fun _ => inr (json_text
                              "{'answer': 'yes', 'confidence': 'high'}")) in
  let run := ask ref_runtime w "Is it signed?" sample_form (new_agent false) in
  fst run
  = inl (ValueError "Unknown format code '%' for object of type 'str'")
  /\ total_llm_calls (snd run) = 1.
Proof.
  intros w run.
  destruct (counter_counts_decoded_replies ref_runtime w (new_agent false))
    as (_ & _ & _ & _ & Hfmt).
  apply (Hfmt "Is it signed?" sample_form
              [("answer", JString "yes"); ("confidence", JString "high")]);
    reflexivity.
Defined.

(** ** The cache stays well formed *)

Lemma dict_get_none_not_in V k (d : PyDict.t V) :
  PyDict.get k d = None <-> ~ In k (PyDict.keys d).
Proof.
  unfold PyDict.keys. induction d as [|[k' v] d IH]; simpl.
  - tauto.
  - destruct (String.eqb_spec k k') as [->|Hne].
    + split; [discriminate|]. intros H. exfalso. apply H. auto.
    + rewrite IH. split.
      * intros H [Heq|Hin]; [congruence|contradiction].
      * intros H Hin. apply H. auto.
Qed.

Lemma dict_keys_set_absent V k (v : V) d :
  PyDict.get k d = None ->
  PyDict.keys (PyDict.set k v d) = PyDict.keys d ++ [k].
Proof.
  unfold PyDict.keys. induction d as [|[k' v'] d IH]; simpl; [reflexivity|].
  destruct (String.eqb k k'); [discriminate|].
  intros H. simpl. rewrite IH; auto.
Qed.

Lemma dict_keys_set_present V k (v : V) d :
  PyDict.get k d <> None ->
  PyDict.keys (PyDict.set k v d) = PyDict.keys d.
Proof.
  unfold PyDict.keys. induction d as [|[k' v'] d IH]; simpl; [congruence|].
  destruct (String.eqb k k'); [reflexivity|].
  intros H. simpl. rewrite IH; auto.
Qed.

Lemma dict_keys_set_nodup V k (v : V) d :
  NoDup (PyDict.keys d) -> NoDup (PyDict.keys (PyDict.set k v d)).
Proof.
  intros Hnd. destruct (PyDict.get k d) eqn:E.
  - rewrite dict_keys_set_present by congruence. exact Hnd.
  - rewrite dict_keys_set_absent by exact E.
    apply NoDup_app; [exact Hnd|repeat constructor; simpl; tauto|].
    intros x Hx [<- | []]. apply dict_get_none_not_in in E. contradiction.
Qed.

Lemma cache_wf_set s p f s' :
  cache_wf s -> ProcessedForm.file_path f = p ->
  _processed_forms s' = PyDict.set p f (_processed_forms s) ->
  cache_wf s'.
Proof.
  intros (Hnd & Hkey) Hf Hc. unfold cache_wf. rewrite Hc. split.
  - apply dict_keys_set_nodup. exact Hnd.
  - intros k g. destruct (String.eqb_spec k p) as [->|Hne].
    + rewrite dict_get_set_same. intros H. inversion H; subst. reflexivity.
    + rewrite dict_get_set_other by exact Hne. apply Hkey.
Qed.

(** An unforced call of [process_form] keeps the cache well formed, keeps
    every entry it finds, and a form it returns is the one cached under
    the path, which bears that path. *)
Lemma process_form_cache rt w p s r s' :
  cache_wf s ->
  process_form rt w p false s = (r, s') ->
  cache_wf s'
  /\ (forall q g, PyDict.get q (_processed_forms s) = Some g ->
                  PyDict.get q (_processed_forms s') = Some g)
  /\ (forall f, r = inr f ->
                ProcessedForm.file_path f = p
                /\ PyDict.get p (_processed_forms s') = Some f).
Proof.
  intros Hwf Hrun.
  destruct (PyDict.get p (_processed_forms s)) as [f0|] eqn:Hget.
  - rewrite (process_form_hit rt w p s Hget) in Hrun.
    inversion Hrun; subst. split; [exact Hwf|]. split; [auto|].
    intros f Hf. inversion Hf; subst. split; [|exact Hget].
    destruct Hwf as (_ & Hkey). apply Hkey. exact Hget.
  - destruct (process_form_run rt w p false s Hget Hrun)
      as (_ & _ & [(e & _ & -> & ->) | (d & _ & _ & Hres)]).
    { split; [exact Hwf|]. split; [auto|]. intros f Hf. discriminate. }
    destruct Hres as [(f & -> & Hc & _ & Hfp) | (e & -> & Hc)].
    + split; [eapply cache_wf_set; eauto|]. split.
      * intros q g Hq. rewrite Hc.
        rewrite dict_get_set_other; [exact Hq|]. congruence.
      * intros f' Hf'. inversion Hf'; subst. split; [reflexivity|].
        rewrite Hc. apply dict_get_set_same.
    + split.
      * destruct Hwf as (Hnd & Hkey). unfold cache_wf. rewrite Hc. auto.
      * split; [intros q g Hq; rewrite Hc; exact Hq|].
        intros f Hf. discriminate.
Qed.

Lemma for_each_cons A B (f : A -> M B) x l s :
  for_each f (x :: l) s
  = match f x s with
    | (inl e, s1) => (inl e, s1)
    | (inr y, s1) =>
        match for_each f l s1 with
        | (inl e, s2) => (inl e, s2)
        | (inr ys, s2) => (inr (y :: ys), s2)
        end
    end.
Proof.
  simpl. unfold bind at 1. destruct (f x s) as [[e|y] s1]; [reflexivity|].
  unfold bind, ret. destruct (for_each f l s1) as [[e|ys] s2]; reflexivity.
Qed.

Lemma process_forms_cache rt w paths s forms s' :
  cache_wf s ->
  process_forms rt w paths s = (inr forms, s') ->
  cache_wf s'
  /\ map ProcessedForm.file_path forms = paths
  /\ Forall2 (fun p f => PyDict.get p (_processed_forms s') = Some f)
             paths forms
  /\ (forall q g, PyDict.get q (_processed_forms s) = Some g ->
                  PyDict.get q (_processed_forms s') = Some g).
Proof.
  unfold process_forms.
  revert s forms s'. induction paths as [|p paths IH]; intros s forms s' Hwf.
  - simpl. unfold ret. intros H. inversion H; subst.
    split; [exact Hwf|]. split; [reflexivity|]. split; [constructor|auto].
  - rewrite for_each_cons.
    destruct (process_form rt w p false s) as [[e|f] s1] eqn:Hp;
      [discriminate|].
    destruct (for_each (fun path => process_form rt w path false) paths s1)
      as [[e|fs] s2] eqn:Hrest; [discriminate|].
    intros H. inversion H; subst.
    destruct (@process_form_cache _ _ _ _ _ _ Hwf Hp) as (Hwf1 & Hkeep1 & Hf).
    destruct (Hf f eq_refl) as (Hfp & Hget).
    destruct (IH _ _ _ Hwf1 Hrest) as (Hwf2 & Hmap & Hall & Hkeep2).
    split; [exact Hwf2|]. split; [simpl; congruence|].
    split; [constructor; auto|]. auto.
Qed.

(** X13: starting from a well-formed cache (each form stored once, under
    its own path), a batch that returns gives one form per path, in the
    order of the paths, each bearing its path and being the form cached
    under it afterwards; the cache is still well formed and has kept every
    entry it had. *)
Theorem process_forms_returns_cached_forms rt w paths s forms s' :
  cache_wf s ->
  process_forms rt w paths s = (inr forms, s') ->
  cache_wf s'
  /\ map ProcessedForm.file_path forms = paths
  /\ Forall2 (fun p f => PyDict.get p (_processed_forms s') = Some f)
             paths forms
  /\ (forall q g, PyDict.get q (_processed_forms s) = Some g ->
                  PyDict.get q (_processed_forms s') = Some g).
Proof.
  apply process_forms_cache.
Qed.

Lemma cache_wf_new verbose : cache_wf (new_agent verbose).
Proof.
  split; [constructor|]. intros k f H. discriminate.
Qed.

Lemma process_forms_returns_cached_forms_witness :
  exists forms s',
    process_forms ref_runtime form_world ["form.txt"; "/work/form.txt";
                                          "form.txt"] (new_agent false)
    = (inr forms, s')
    /\ map ProcessedForm.file_path forms
       = ["form.txt"; "/work/form.txt"; "form.txt"]
    /\ stat_cached_form_paths (get_stats s') = ["form.txt"; "/work/form.txt"]
    /\ total_llm_calls s' = 2.
Proof.
  destruct (process_forms ref_runtime form_world
              ["form.txt"; "/work/form.txt"; "form.txt"] (new_agent false))
    as [[e|forms] s'] eqn:Hrun; [vm_compute in Hrun; discriminate|].
  exists forms, s'. split; [reflexivity|].
  destruct (@process_forms_returns_cached_forms _ _ _ _ _ _
              (cache_wf_new false) Hrun)
    as (_ & Hmap & _).
  split; [exact Hmap|].
  vm_compute in Hrun. inversion Hrun; subst. split; reflexivity.
Defined.

(** X14: a batch stops at the first path whose processing raises: the
    error is that of the path, no later path is looked at, and the forms
    of the earlier paths stay cached. *)
Theorem process_forms_stops_at_first_error rt w before p after s forms s1
        e s2 :
  cache_wf s ->
  process_forms rt w before s = (inr forms, s1) ->
  process_form rt w p false s1 = (inl e, s2) ->
  process_forms rt w (before ++ p :: after) s = (inl e, s2)
  /\ Forall2 (fun q f => PyDict.get q (_processed_forms s2) = Some f)
             before forms
  /\ length (call_history s2) <= length (call_history s1) + 1.
Proof.
  intros Hwf Hbefore Hp.
  destruct (@process_forms_cache _ _ _ _ _ _ Hwf Hbefore) as (Hwf1 & _ & Hall & _).
  destruct (@process_form_cache _ _ _ _ _ _ Hwf1 Hp) as (_ & Hkeep & _).
  split.
  - revert s forms Hwf Hbefore Hwf1 Hall. unfold process_forms.
    induction before as [|q before IH]; intros s forms Hwf Hbefore Hwf1 Hall.
    + simpl in Hbefore. unfold ret in Hbefore. inversion Hbefore; subst.
      simpl app. rewrite for_each_cons, Hp. reflexivity.
    + simpl app. rewrite for_each_cons. rewrite for_each_cons in Hbefore.
      destruct (process_form rt w q false s) as [[e'|f] s0] eqn:Hq;
        [discriminate|].
      destruct (for_each (fun path => process_form rt w path false)
                         before s0) as [[e'|fs] s0'] eqn:Hrest;
        [discriminate|].
      inversion Hbefore; subst.
      destruct (@process_form_cache _ _ _ _ _ _ Hwf Hq) as (Hwf0 & _).
      destruct (@process_forms_cache _ _ _ _ _ _ Hwf0 Hrest) as (_ & _ & Hall' & _).
      rewrite (IH s0 fs Hwf0 Hrest Hwf1 Hall'). reflexivity.
  - split.
    + eapply Forall2_impl; [|exact Hall]. intros q f Hq. apply Hkeep. exact Hq.
    + destruct (process_form_advancing rt w p false s1)
        as (_ & _ & h & Hh & _ & _).
      rewrite Hp in Hh. cbn [snd] in Hh.
      destruct (PyDict.get p (_processed_forms s1)) eqn:Hget.
      * rewrite (process_form_hit rt w p s1 Hget) in Hp. discriminate.
      * destruct (process_form_run rt w p false s1 Hget Hp)
          as (_ & _ & [(e' & _ & _ & ->) | (d & _ & -> & _)]);
          [lia|rewrite length_app; simpl; lia].
Qed.

Lemma process_forms_stops_at_first_error_witness :
  exists forms s1 e s2,
    process_forms ref_runtime form_world ["form.txt"] (new_agent false)
    = (inr forms, s1)
    /\ process_form ref_runtime form_world "missing.txt" false s1
       = (inl e, s2)
    /\ process_forms ref_runtime form_world
         (["form.txt"] ++ "missing.txt" :: ["/work/form.txt"])
         (new_agent false)
       = (inl e, s2)
    /\ e = FileNotFoundError "Document not found: /work/missing.txt"
    /\ stat_cached_form_paths (get_stats s2) = ["form.txt"].
Proof.
  destruct (process_forms ref_runtime form_world ["form.txt"]
                          (new_agent false))
    as [[e|forms] s1] eqn:Hb; [vm_compute in Hb; discriminate|].
  destruct (process_form ref_runtime form_world "missing.txt" false s1)
    as [[e|f] s2] eqn:Hp.
  2:{ exfalso. vm_compute in Hb. inversion Hb; subst.
      vm_compute in Hp. discriminate. }
  exists forms, s1, e, s2. split; [reflexivity|]. split; [exact Hp|].
  destruct (@process_forms_stops_at_first_error ref_runtime form_world
              ["form.txt"] "missing.txt" ["/work/form.txt"]
              (new_agent false) forms s1 e s2 (cache_wf_new false) Hb Hp)
    as (Hrun & _).
  split; [exact Hrun|].
  vm_compute in Hb. inversion Hb; subst.
  vm_compute in Hp. inversion Hp; subst. split; reflexivity.
Defined.

(** X15: a batch whose paths are all cached returns the cached forms, in
    order, and leaves the agent exactly as it was: no file is read and no
    request is sent, whatever the world has become. *)
Theorem process_forms_all_cached rt w paths s :
  Forall (fun p => PyDict.get p (_processed_forms s) <> None) paths ->
  exists forms,
    process_forms rt w paths s = (inr forms, s)
    /\ Forall2 (fun p f => PyDict.get p (_processed_forms s) = Some f)
               paths forms.
Proof.
  unfold process_forms. induction 1 as [|p paths Hp _ IH].
  - exists []. split; [reflexivity|constructor].
  - destruct IH as (forms & Hrun & Hall).
    destruct (PyDict.get p (_processed_forms s)) as [f|] eqn:Hget;
      [|congruence].
    exists (f :: forms). split; [|constructor; auto].
    rewrite for_each_cons, (process_form_hit rt w p s Hget), Hrun.
    reflexivity.
Qed.

Lemma process_forms_all_cached_witness :
  let s := snd (process_form ref_runtime form_world "form.txt" false
                             (new_agent false)) in
  exists forms,
    process_forms ref_runtime empty_world ["form.txt"; "form.txt"] s
    = (inr forms, s)
    /\ length forms = 2.
Proof.
  intro s.
  destruct (@process_forms_all_cached ref_runtime empty_world
              ["form.txt"; "form.txt"] s) as (forms & Hrun & Hall).
  { repeat constructor; vm_compute; discriminate. }
  exists forms. split; [exact Hrun|].
  apply Forall2_length in Hall. symmetry. exact Hall.
Defined.

(** X16: the list of cached paths that [get_stats] reports is in order of
    first processing: a call of [process_form] that returns a form for a
    path not yet cached appends the path at the end, and any call for a
    path already cached, forced or not, leaves the list as it is. *)
Theorem cached_paths_keep_first_order rt w p force s f s' :
  process_form rt w p force s = (inr f, s') ->
  stat_cached_form_paths (get_stats s')
  = (if PyDict.mem p (_processed_forms s)
     then stat_cached_form_paths (get_stats s)
     else stat_cached_form_paths (get_stats s) ++ [p])
  /\ stat_cached_forms (get_stats s')
     = (if PyDict.mem p (_processed_forms s)
        then stat_cached_forms (get_stats s)
        else stat_cached_forms (get_stats s) + 1).
Proof.
  intros Hrun. unfold get_stats, PyDict.mem. simpl.
  destruct (if negb force then PyDict.get p (_processed_forms s) else None)
    as [f0|] eqn:Hc.
  - destruct force; [discriminate|]. simpl in Hc.
    rewrite (process_form_hit rt w p s Hc) in Hrun. inversion Hrun; subst.
    rewrite Hc. split; reflexivity.
  - destruct (process_form_run rt w p force s Hc Hrun)
      as (_ & _ & [(e & _ & He & _) | (d & _ & _ & Hres)]); [discriminate|].
    destruct Hres as [(f1 & _ & Hset & _) | (e & He & _)]; [|discriminate].
    rewrite Hset.
    destruct (PyDict.get p (_processed_forms s)) eqn:Hget.
    + rewrite dict_keys_set_present, dict_len_set_present by congruence.
      split; reflexivity.
    + rewrite dict_keys_set_absent, dict_len_set_absent by exact Hget.
      split; [reflexivity|]. unfold PyDict.len. lia.
Qed.

Lemma cached_paths_keep_first_order_witness :
  let s1 := snd (process_forms ref_runtime form_world
                               ["form.txt"; "/work/form.txt"]
                               (new_agent false)) in
  exists f s2,
    process_form ref_runtime form_world "form.txt" true s1 = (inr f, s2)
    /\ stat_cached_form_paths (get_stats s2)
       = ["form.txt"; "/work/form.txt"]
    /\ total_llm_calls s2 = 3.
Proof.
  intro s1.
  destruct (process_form ref_runtime form_world "form.txt" true s1)
    as [[e|f] s2] eqn:Hrun; [vm_compute in Hrun; discriminate|].
  exists f, s2. split; [reflexivity|].
  destruct (cached_paths_keep_first_order _ _ _ _ _ Hrun) as (Hk & _).
  split; [rewrite Hk; vm_compute; reflexivity|].
  vm_compute in Hrun. inversion Hrun; subst. reflexivity.
Defined.

(** ** The other branches of [run_workflow] *)

Lemma run_workflow_classified rt w task paths q s forms s1 :
  process_forms rt w paths s = (inr forms, s1) ->
  run_workflow rt w task paths q s
  = match structured_reply rt w s1 with
    | inl e =>
        (inl e,
         record_request (ReqClassifyTask task q (length forms)) s1)
    | inr ta =>
        let s2 := counted (record_request
                             (ReqClassifyTask task q (length forms)) s1) in
        match subscript ta "task_type" with
        | inl e => (inl e, s2)
        | inr label =>
            (if eq_str label "extract" then ret (WfExtraction task forms)
             else if eq_str label "qa" then workflow_qa rt w task q forms
             else if eq_str label "summarize" then
               bind (for_each (fun f => summarize rt w f "detailed") forms)
                 (fun summaries =>
                    ret (WfSummarization task
                           (map (fun fs =>
                                   (ProcessedForm.file_path (fst fs),
                                    SummaryResult.summary (snd fs),
                                    SummaryResult.key_points (snd fs)))
                                (combine forms summaries))))
             else if eq_str label "analyze" then
               bind (analyze rt w (question_or_task q task) forms)
                 (fun result =>
                    ret (WfAnalysis task (AnalysisResult.answer result)
                           (AnalysisResult.insights result)
                           (AnalysisResult.statistics result)
                           (AnalysisResult.comparisons result)))
             else
               bind (for_each (fun f => summarize rt w f "detailed") forms)
                 (fun summaries =>
                    ret (WfGeneral task forms
                           (map SummaryResult.summary summaries)))) s2
        end
    end.
Proof.
  intros Hforms. unfold run_workflow. unfold bind at 1. rewrite Hforms.
  unfold bind at 1. rewrite analyze_task_outcome. cbv zeta.
  destruct (structured_reply rt w s1) as [e|ta]; [reflexivity|].
  unfold bind at 1. unfold lift at 1.
  destruct (subscript ta "task_type") as [e|label]; reflexivity.
Qed.

(** X17: when the reply of the classification decodes to a value from
    which no [task_type] can be read, [run_workflow] raises after every
    path has been processed and the classification call has been counted:
    [KeyError] for a mapping without that key, [TypeError] for a value that
    is no mapping.  No question, summary or analysis request is sent. *)
Theorem run_workflow_without_task_type rt w task paths q s forms s1 ta :
  process_forms rt w paths s = (inr forms, s1) ->
  structured_reply rt w s1 = inr ta ->
  (forall m, ta = JObject m -> PyDict.get "task_type" m = None) ->
  let s2 := snd (run_workflow rt w task paths q s) in
  (exists e, fst (run_workflow rt w task paths q s) = inl e
             /\ (is_mapping ta = true -> e = KeyError "task_type")
             /\ (is_mapping ta = false -> exists msg, e = TypeError msg))
  /\ call_history s2
     = call_history s1 ++ [ReqClassifyTask task q (length forms)]
  /\ total_llm_calls s2 = total_llm_calls s1 + 1
  /\ _processed_forms s2 = _processed_forms s1.
Proof.
  intros Hforms Hreply Hkey s2. subst s2.
  rewrite (run_workflow_classified rt w task paths q s Hforms), Hreply.
  cbv zeta.
  destruct ta; simpl;
    try (split; [eexists; split; [reflexivity|];
                 split; [discriminate|eauto]|repeat split]).
  rewrite (Hkey members eq_refl).
  split; [|repeat split].
  eexists. split; [reflexivity|]. split; [reflexivity|discriminate].
Qed.

Lemma run_workflow_without_task_type_witness :
  let w := world_with_file "/work/form.txt" "Name: John Doe"
             (replies_of [extraction_reply;
                          json_text "{'reasoning': 'unclear request'}"]) in
  let run := run_workflow ref_runtime w "Do something" ["form.txt"] None
                          (new_agent false) in
  fst run = inl (KeyError "task_type")
  /\ total_llm_calls (snd run) = 2
  /\ stat_cached_form_paths (get_stats (snd run)) = ["form.txt"].
Proof.
  intros w run.
  destruct (process_forms ref_runtime w ["form.txt"] (new_agent false))
    as [[e|forms] s1] eqn:Hforms; [vm_compute in Hforms; discriminate|].
  assert (Hreply : structured_reply ref_runtime w s1
                   = inr (JObject [("reasoning",
                                    JString "unclear request")])).
  { vm_compute in Hforms. inversion Hforms; subst. reflexivity. }
  destruct (@run_workflow_without_task_type ref_runtime w "Do something"
              ["form.txt"] None (new_agent false) forms s1 _ Hforms Hreply)
    as ((e & He & Hk & _) & _ & Ht & Hc).
  { intros m Hm. inversion Hm; subst. reflexivity. }
  fold run in He, Ht, Hc.
  split; [rewrite He, (Hk eq_refl); reflexivity|].
  split.
  - rewrite Ht. vm_compute in Hforms. inversion Hforms; subst. reflexivity.
  - change (PyDict.keys (_processed_forms (snd run)) = ["form.txt"]).
    rewrite Hc. vm_compute in Hforms. inversion Hforms; subst. reflexivity.
Defined.

Lemma for_each_summarize rt w style forms s sums s' :
  for_each (fun f => summarize rt w f style) forms s = (inr sums, s') ->
  length sums = length forms
  /\ call_history s'
     = call_history s ++ map (summary_request w style) forms
  /\ total_llm_calls s' = total_llm_calls s + length forms.
Proof.
  revert s sums s'. induction forms as [|f forms IH]; intros s sums s'.
  - simpl. unfold ret. intros H. inversion H; subst.
    rewrite app_nil_r. repeat split. simpl. lia.
  - rewrite for_each_cons, summarize_outcome. cbv zeta.
    destruct (structured_reply rt w s) as [e|[]]; try discriminate.
    match goal with
    | |- context [for_each ?g forms ?st] =>
        destruct (for_each g forms st) as [[e|ys] s2] eqn:Hrest
    end; [discriminate|].
    intros H. inversion H; subst.
    destruct (IH _ _ _ Hrest) as (Hlen & Hh & Ht).
    split; [simpl; congruence|]. split.
    + rewrite Hh. simpl. rewrite <- app_assoc. reflexivity.
    + rewrite Ht. simpl. lia.
Qed.

(** X18: once the paths are processed and the classification has
    returned a [task_type]:
    - [extract] returns the processed forms and sends no further request;
    - any value other than the four labels, a value that is no string
      included, takes the same steps as [summarize]: when the workflow
      returns, it has sent exactly one summary request per form, in the
      order of the paths and in the detailed style, counted each of them,
      and holds one summary per form. *)
Theorem run_workflow_extract_and_fallback rt w task paths q s forms s1 ta
        label :
  process_forms rt w paths s = (inr forms, s1) ->
  structured_reply rt w s1 = inr ta ->
  subscript ta "task_type" = inr label ->
  let s2 := counted (record_request
                       (ReqClassifyTask task q (length forms)) s1) in
  (eq_str label "extract" = true ->
   run_workflow rt w task paths q s = (inr (WfExtraction task forms), s2))
  /\ (eq_str label "extract" = false -> eq_str label "qa" = false ->
      eq_str label "analyze" = false ->
      forall r s3,
        run_workflow rt w task paths q s = (inr r, s3) ->
        call_history s3
        = call_history s2 ++ map (summary_request w "detailed") forms
        /\ total_llm_calls s3 = total_llm_calls s2 + length forms
        /\ (if eq_str label "summarize"
            then exists summaries,
                r = WfSummarization task summaries
                /\ map (fun x => fst (fst x)) summaries = form_paths forms
            else exists summaries,
                r = WfGeneral task forms summaries
                /\ length summaries = length forms)).
Proof.
  intros Hforms Hreply Htype s2.
  rewrite (run_workflow_classified rt w task paths q s Hforms), Hreply.
  cbv zeta. rewrite Htype. fold s2.
  split; [intros ->; reflexivity|].
  intros -> -> Han r s3.
  destruct (eq_str label "summarize").
  - unfold bind, ret.
    destruct (for_each (fun f => summarize rt w f "detailed") forms s2)
      as [[e|sums] s4] eqn:Hsum; [discriminate|].
    intros H. inversion H; subst.
    destruct (for_each_summarize _ _ _ _ _ Hsum) as (Hlen & Hh & Ht).
    split; [exact Hh|]. split; [exact Ht|].
    eexists. split; [reflexivity|].
    rewrite map_map. simpl. unfold form_paths.
    clear -Hlen. revert sums Hlen.
    induction forms as [|f forms IH]; intros [|x sums] Hlen;
      simpl in *; try discriminate; [reflexivity|].
    f_equal. apply IH. congruence.
  - rewrite Han. unfold bind, ret.
    destruct (for_each (fun f => summarize rt w f "detailed") forms s2)
      as [[e|sums] s4] eqn:Hsum; [discriminate|].
    intros H. inversion H; subst.
    destruct (for_each_summarize _ _ _ _ _ Hsum) as (Hlen & Hh & Ht).
    split; [exact Hh|]. split; [exact Ht|].
    eexists. split; [reflexivity|]. rewrite length_map. exact Hlen.
Qed.

Lemma run_workflow_extract_and_fallback_witness :
  let run := run_workflow ref_runtime translate_world "Translate the form"
                          ["form.txt"] None (new_agent false) in
  exists forms,
    fst run = inr (WfGeneral "Translate the form" forms
                             [JString "A one-line note"])
    /\ length forms = 1
    /\ total_llm_calls (snd run) = 3.
Proof.
  intro run.
  destruct (process_forms ref_runtime translate_world ["form.txt"]
                          (new_agent false))
    as [[e|forms] s1] eqn:Hforms; [vm_compute in Hforms; discriminate|].
  assert (Hreply : structured_reply ref_runtime translate_world s1
                   = inr (JObject [("task_type", JString "translate")])).
  { vm_compute in Hforms. inversion Hforms; subst. reflexivity. }
  destruct (@run_workflow_extract_and_fallback ref_runtime translate_world
              "Translate the form" ["form.txt"] None (new_agent false)
              forms s1 _ (JString "translate") Hforms Hreply eq_refl)
    as (_ & Hfall).
  destruct run as [[e|r] s3] eqn:Hrun.
  { exfalso. subst run. vm_compute in Hrun. discriminate. }
  destruct (Hfall eq_refl eq_refl eq_refl r s3 Hrun)
    as (_ & Ht & (sums & -> & Hlen)).
  exists forms. cbn [fst snd].
  assert (Hf : length forms = 1).
  { vm_compute in Hforms. inversion Hforms; subst. reflexivity. }
  split.
  - subst run. vm_compute in Hrun. inversion Hrun; subst.
    vm_compute in Hforms. inversion Hforms; subst. reflexivity.
  - split; [exact Hf|]. rewrite Ht, Hf.
    vm_compute in Hforms. inversion Hforms; subst. reflexivity.
Defined.

(** ** Responses with tool calls *)

Lemma last_default_irrelevant A (l : list A) d1 d2 :
  l <> [] -> last l d1 = last l d2.
Proof.
  induction l as [|x [|y l] IH]; intros H; [contradiction|reflexivity|].
  change (last (y :: l) d1 = last (y :: l) d2). apply IH. discriminate.
Qed.

Lemma collect_blocks blocks r :
  let out := fold_left collect_block blocks r in
  result_tool_calls out = result_tool_calls r ++ block_tool_calls blocks
  /\ result_content out
     = last (map Some (block_texts blocks)) (result_content r)
  /\ result_stop_reason out = result_stop_reason r.
Proof.
  revert r. induction blocks as [|b blocks IH]; intros r; simpl.
  - rewrite app_nil_r. auto.
  - destruct (IH (collect_block r b)) as (Hc & Ht & Hs).
    rewrite Hc, Ht, Hs. destruct b; simpl.
    + split; [reflexivity|]. split; [|reflexivity].
      destruct (block_texts blocks) as [|t ts]; [reflexivity|].
      apply last_default_irrelevant. discriminate.
    + rewrite <- app_assoc. auto.
    + auto.
Qed.

(** X19: [generate_with_tools] passes on an error of the API; from a
    response it returns the tool calls of the tool-use blocks, all of them
    and in the order of the response, the stop reason of the response,
    and as content the text of the last text block only (the text of any
    earlier text block is dropped), or [None] when the response has no
    text block; blocks of any other type are ignored. *)
Theorem generate_with_tools_collects response :
  (forall e, generate_with_tools (inl e) = inl e)
  /\ exists r,
      generate_with_tools (inr response) = inr r
      /\ result_tool_calls r = block_tool_calls (response_content response)
      /\ result_content r
         = last (map Some (block_texts (response_content response))) None
      /\ result_stop_reason r = response_stop_reason response
      /\ length (result_tool_calls r)
         <= length (response_content response).
Proof.
  split; [reflexivity|].
  eexists. split; [reflexivity|].
  match goal with
  | |- context [fold_left collect_block ?b ?r0] =>
      destruct (collect_blocks b r0) as (Hc & Ht & Hs)
  end.
  cbv zeta in Hc, Ht, Hs. rewrite Hc, Ht, Hs. simpl.
  repeat split.
  generalize (response_content response). intros blocks.
  unfold block_tool_calls.
  induction blocks as [|b blocks IH]; simpl; [lia|].
  rewrite length_app. destruct b; simpl; lia.
Qed.

Lemma generate_with_tools_collects_witness :
  exists r,
    generate_with_tools (inr sample_response) = inr r
    /\ result_content r = Some "Done."
    /\ map call_id (result_tool_calls r) = ["call_1"; "call_2"].
Proof.
  destruct (generate_with_tools_collects sample_response)
    as (_ & r & Hr & Hc & Ht & _).
  exists r. split; [exact Hr|]. split.
  - rewrite Ht. reflexivity.
  - rewrite Hc. reflexivity.
Defined.

(** ** The extraction-method tag *)

Lemma pdf_try_ocr_used w self fp :
  PyDict.get "ocr_used" (l_metadata (pdf_try w self fp)) = None
  \/ PyDict.get "ocr_used" (l_metadata (pdf_try w self fp))
     = Some (MetaJson (JBool true)).
Proof.
  assert (Hex : forall e l,
             PyDict.get "ocr_used" (l_metadata l) = None ->
             PyDict.get "ocr_used" (l_metadata (pdf_except w self fp e l))
             = None
             \/ PyDict.get "ocr_used"
                  (l_metadata (pdf_except w self fp e l))
                = Some (MetaJson (JBool true))).
  { intros e l Hl. unfold pdf_except.
    destruct (ocr_enabled self); [destruct (_ocr_pdf w self fp)|]; simpl.
    - left. rewrite dict_get_set_other by discriminate. exact Hl.
    - right. apply dict_get_set_same.
    - left. rewrite dict_get_set_other by discriminate. exact Hl. }
  unfold pdf_try.
  destruct (pdfplumber_open w fp) as [e|info ps]; [apply Hex; reflexivity|].
  cbv zeta.
  destruct (pdf_pages_loop 0 ps (pdf_locals_opened info ps))
    as [l2 [e|]] eqn:Hloop.
  - apply Hex. rewrite (pdf_pages_loop_metadata _ _ _ Hloop). reflexivity.
  - assert (Hl2 : PyDict.get "ocr_used" (l_metadata l2) = None)
      by (rewrite (pdf_pages_loop_metadata _ _ _ Hloop); reflexivity).
    destruct (PyStr.is_empty (PyStr.strip (l_all_text l2))
              && ocr_enabled self); [|left; exact Hl2].
    destruct (_ocr_pdf w self fp) as [e|r]; [apply Hex; exact Hl2|].
    right. simpl. apply dict_get_set_same.
Qed.

(** X20: the extraction-method tag of an ingested document is one of
    [pdfplumber], [ocr], [text] and [unknown], fixed by the branch taken:
    a PDF is tagged [ocr] exactly when its metadata records [ocr_used] and
    [pdfplumber] otherwise; an image is tagged [ocr] when OCR is enabled
    and [unknown] when it is disabled; any other file is tagged [text]. *)
Theorem extraction_method_by_branch rt w self p fp d :
  path_resolve w p = inr fp ->
  process rt w self p = inr d ->
  let ft := _detect_file_type fp in
  let md := ExtractedDocument.metadata d in
  let tag := ExtractedDocument.extraction_method d in
  (ft = "pdf" ->
   (tag = "ocr" /\ PyDict.get "ocr_used" md = Some (MetaJson (JBool true)))
   \/ (tag = "pdfplumber" /\ PyDict.get "ocr_used" md = None))
  /\ (ft <> "pdf" -> existsb (String.eqb ft) image_types = true ->
      tag = if ocr_enabled self then "ocr" else "unknown")
  /\ (ft <> "pdf" -> existsb (String.eqb ft) image_types = false ->
      tag = "text")
  /\ In tag ["pdfplumber"; "ocr"; "unknown"; "text"].
Proof.
  intros Hres Hd ft md tag.
  assert (Hall :
            (ft = "pdf" ->
             (tag = "ocr"
              /\ PyDict.get "ocr_used" md = Some (MetaJson (JBool true)))
             \/ (tag = "pdfplumber" /\ PyDict.get "ocr_used" md = None))
            /\ (ft <> "pdf" -> existsb (String.eqb ft) image_types = true ->
                tag = if ocr_enabled self then "ocr" else "unknown")
            /\ (ft <> "pdf" ->
                existsb (String.eqb ft) image_types = false ->
                tag = "text")).
  { subst md tag. revert Hd. unfold process. rewrite Hres.
    unfold process_resolved_path. fold ft.
    destruct (negb (path_exists w fp)); [discriminate|].
    destruct (String.eqb_spec ft "pdf") as [Hpdf|Hnpdf].
    - unfold _process_pdf.
      destruct (negb (pdfplumber_importable w)); [discriminate|].
      intros H. inversion H; subst d. simpl.
      split; [|split; intros; contradiction].
      intros _. unfold ocr_not_used.
      destruct (pdf_try_ocr_used w self fp) as [-> | ->];
        [right|left]; split; reflexivity.
    - destruct (existsb (String.eqb ft) image_types) eqn:Himg.
      + unfold _process_image.
        destruct (ocr_enabled self); simpl.
        * destruct (negb (pil_importable w)); [discriminate|].
          destruct (image_open w _) as [e|img]; [discriminate|].
          destruct (image_to_string img _); [discriminate|].
          intros H. inversion H; subst d. simpl.
          split; [contradiction|]. split; [reflexivity|discriminate].
        * intros H. inversion H; subst d. simpl.
          split; [contradiction|]. split; [reflexivity|discriminate].
      + unfold _process_text.
        destruct (read_content w _); [discriminate|].
        destruct (String.eqb _ "csv").
        * destruct (csv_reader rt _); [discriminate|].
          intros H. inversion H; subst d. simpl.
          split; [contradiction|]. split; [discriminate|reflexivity].
        * destruct (String.eqb _ "json"); intros H; inversion H; subst d;
            simpl; (split; [contradiction|]);
            (split; [discriminate|reflexivity]). }
  destruct Hall as (Hpdf & Himg & Htxt).
  split; [exact Hpdf|]. split; [exact Himg|]. split; [exact Htxt|].
  destruct (String.eqb_spec ft "pdf") as [Heq|Hne].
  - destruct (Hpdf Heq) as [(-> & _) | (-> & _)]; simpl; tauto.
  - destruct (existsb (String.eqb ft) image_types) eqn:E.
    + rewrite (Himg Hne eq_refl). destruct (ocr_enabled self); simpl; tauto.
    + rewrite (Htxt Hne eq_refl). simpl. tauto.
Qed.

Lemma extraction_method_by_branch_witness :
  exists d,
    process ref_runtime no_library_world
            {| ocr_enabled := false; ocr_language := "eng" |} "scan.png"
    = inr d
    /\ ExtractedDocument.extraction_method d = "unknown".
Proof.
  destruct (process ref_runtime no_library_world
                    {| ocr_enabled := false; ocr_language := "eng" |}
                    "scan.png") as [e|d] eqn:Hd;
    [vm_compute in Hd; discriminate|].
  exists d. split; [reflexivity|].
  destruct (@extraction_method_by_branch
              ref_runtime no_library_world
              {| ocr_enabled := false; ocr_language := "eng" |}
              "scan.png" "/work/scan.png" d eq_refl Hd) as (_ & Himg & _).
  apply Himg; [discriminate|reflexivity].
Defined.

(* ------------------------------------------------------------------ *)
(** ** The clients and their factory *)

Lemma is_empty_iff s : PyStr.is_empty s = true <-> s = "".
Proof. destruct s; simpl; split; congruence. Qed.

(** A key is usable when the argument is a non-empty string, or when the
    argument is missing or empty and the environment has a non-empty one. *)
Lemma str_or_some a b k :
  str_or a b = Some k -> k <> "" ->
  a = Some k \/ ((a = None \/ a = Some "") /\ b = Some k).
Proof.
  unfold str_or. destruct a as [x|].
  - destruct x as [|c x]; simpl.
    + intros -> _. right. split; [right|]; reflexivity.
    + intros H _. left. exact H.
  - intros -> _. right. split; [left|]; reflexivity.
Qed.

Lemma str_or_usable a b k :
  k <> "" ->
  a = Some k \/ ((a = None \/ a = Some "") /\ b = Some k) ->
  str_or a b = Some k.
Proof.
  intros Hk [-> | [[-> | ->] ->]]; unfold str_or; simpl; try reflexivity.
  destruct k; [contradiction|reflexivity].
Qed.

Lemma ClaudeClient_init_cases env api_key kwargs :
  match ClaudeClient_init env api_key kwargs with
  | inr c =>
      ANTHROPIC_AVAILABLE env = true
      /\ ClaudeClient.api_key c <> ""
      /\ str_or api_key (getenv_api_key env) = Some (ClaudeClient.api_key c)
      /\ ClaudeClient.model c
         = match kw_model kwargs with
           | Some m => m
           | None => "claude-sonnet-4-20250514"
           end
      /\ ClaudeClient.max_tokens c
         = match kw_max_tokens kwargs with Some n => n | None => 4096 end
  | inl e =>
      (ANTHROPIC_AVAILABLE env = false
       /\ e = ImportError
                "anthropic package required. Install with: pip install anthropic")
      \/ (ANTHROPIC_AVAILABLE env = true
          /\ (forall k, str_or api_key (getenv_api_key env) = Some k -> k = "")
          /\ e = ValueError
                   "ANTHROPIC_API_KEY environment variable or api_key parameter required")
  end.
Proof.
  unfold ClaudeClient_init.
  destruct (ANTHROPIC_AVAILABLE env); simpl; [|left; split; reflexivity].
  destruct (str_or api_key (getenv_api_key env)) as [key|].
  - destruct key as [|c key]; simpl.
    + right. split; [reflexivity|]. split; [|reflexivity].
      intros k H. congruence.
    + split; [reflexivity|]. split; [discriminate|].
      split; [reflexivity|]. split; reflexivity.
  - right. split; [reflexivity|]. split; [|reflexivity].
    intros k H. discriminate.
Qed.

(** X21 ([get_llm_client], [ClaudeClient.__init__]): what the factory
    gives, by cases.  A mock client is returned only for the provider
    ["mock"], with an empty history and whatever the key and the
    environment are.  A Claude client is returned only for ["claude"] when
    the package is importable, and its key is not empty: it is the
    [api_key] argument when that is a non-empty string, the key of the
    environment otherwise.  A failure is the [ImportError] of the missing
    package (raised before the key is looked at), the [ValueError] of the
    missing key, or the [ValueError] naming a provider that is neither. *)
Theorem get_llm_client_outcomes env provider api_key kwargs :
  match get_llm_client env provider api_key kwargs with
  | inr (IsMock m) => provider = "mock" /\ mock_call_history m = []
  | inr (IsClaude c) =>
      provider = "claude"
      /\ ANTHROPIC_AVAILABLE env = true
      /\ ClaudeClient.api_key c <> ""
      /\ (api_key = Some (ClaudeClient.api_key c)
          \/ ((api_key = None \/ api_key = Some "")
              /\ getenv_api_key env = Some (ClaudeClient.api_key c)))
  | inl e =>
      (provider = "claude"
       /\ ANTHROPIC_AVAILABLE env = false
       /\ e = ImportError
                "anthropic package required. Install with: pip install anthropic")
      \/ (provider = "claude"
          /\ ANTHROPIC_AVAILABLE env = true
          /\ (forall k, k <> "" -> api_key <> Some k)
          /\ (forall k, k <> "" -> getenv_api_key env <> Some k)
          /\ e = ValueError
                   "ANTHROPIC_API_KEY environment variable or api_key parameter required")
      \/ (provider <> "claude" /\ provider <> "mock"
          /\ e = ValueError ("Unknown provider: " ++ provider))
  end.
Proof.
  unfold get_llm_client.
  destruct (String.eqb_spec provider "claude") as [Hc|Hc].
  - pose proof (ClaudeClient_init_cases env api_key kwargs) as H.
    destruct (ClaudeClient_init env api_key kwargs) as [e|c].
    + destruct H as [(Hav & ->) | (Hav & Hkey & ->)].
      * left. split; [exact Hc|]. split; [exact Hav|reflexivity].
      * right. left. split; [exact Hc|]. split; [exact Hav|].
        split; [|split; [|reflexivity]].
        -- intros k Hk Heq. apply Hk, Hkey.
           apply str_or_usable; [exact Hk|left; exact Heq].
        -- intros k Hk Heq.
           destruct api_key as [[|c x]|].
           ++ apply Hk, Hkey. apply str_or_usable; [exact Hk|].
              right. split; [right; reflexivity|exact Heq].
           ++ assert (String c x = "") as Habs by (apply Hkey; reflexivity).
              discriminate.
           ++ apply Hk, Hkey. apply str_or_usable; [exact Hk|].
              right. split; [left; reflexivity|exact Heq].
    + destruct H as (Hav & Hne & Hkey & _).
      split; [exact Hc|]. split; [exact Hav|]. split; [exact Hne|].
      apply str_or_some; assumption.
  - destruct (String.eqb_spec provider "mock") as [Hm|Hm].
    + split; [exact Hm|reflexivity].
    + right. right. split; [exact Hc|]. split; [exact Hm|reflexivity].
Qed.

Lemma get_llm_client_outcomes_witness :
  (exists c, get_llm_client ready_env "claude" (Some "") no_kwargs
             = inr (IsClaude c)
             /\ ClaudeClient.api_key c = "sk-env")
  /\ get_llm_client bare_env "openai" (Some "sk-arg") no_kwargs
     = inl (ValueError "Unknown provider: openai").
Proof.
  split.
  - pose proof (get_llm_client_outcomes ready_env "claude" (Some "")
                                        no_kwargs) as H.
    destruct (get_llm_client ready_env "claude" (Some "") no_kwargs)
      as [e|[c|m]] eqn:Hrun; [vm_compute in Hrun; discriminate| |
                              vm_compute in Hrun; discriminate].
    exists c. split; [reflexivity|].
    destruct H as (_ & _ & Hne & [Harg | (_ & Henv)]).
    + exfalso. apply Hne. inversion Harg. reflexivity.
    + simpl in Henv. inversion Henv. reflexivity.
  - pose proof (get_llm_client_outcomes bare_env "openai" (Some "sk-arg")
                                        no_kwargs) as H.
    destruct (get_llm_client bare_env "openai" (Some "sk-arg") no_kwargs)
      as [e|[c|m]] eqn:Hrun; [| vm_compute in Hrun; discriminate |
                              vm_compute in Hrun; discriminate].
    destruct H as [(Habs & _) | [(Habs & _) | (_ & _ & ->)]];
      [discriminate Habs|discriminate Habs|reflexivity].
Defined.

(** X22 ([IntelligentFormAgent.__init__], [create_agent]): an agent is
    built exactly when the package is importable and a non-empty key comes
    from the argument or the environment; its client is then a Claude
    client (never the mock) with the model asked for and 4096 tokens, its
    statistics are all zero and nothing has been sent to the model.
    Otherwise the constructor raises the client's [ImportError] or
    [ValueError] and no agent exists. *)
Theorem agent_construction env api_key model (log : bool) :
  ((exists llm a,
       IntelligentFormAgent_init env api_key model log = inr (llm, a))
   <-> (ANTHROPIC_AVAILABLE env = true
        /\ exists k, k <> ""
                     /\ (api_key = Some k
                         \/ ((api_key = None \/ api_key = Some "")
                             /\ getenv_api_key env = Some k))))
  /\ (forall llm a,
         IntelligentFormAgent_init env api_key model log = inr (llm, a) ->
         (exists c, llm = IsClaude c
                    /\ ClaudeClient.model c = model
                    /\ ClaudeClient.max_tokens c = 4096)
         /\ get_stats a
            = {| stat_total_llm_calls := 0; stat_cached_forms := 0;
                 stat_cached_form_paths := [] |}
         /\ call_history a = []
         /\ verbose a = log)
  /\ (forall e,
         IntelligentFormAgent_init env api_key model log = inl e ->
         (exists m, e = ImportError m) \/ is_ValueError e = true).
Proof.
  unfold IntelligentFormAgent_init, get_llm_client. simpl.
  pose proof (ClaudeClient_init_cases env api_key
                {| kw_model := Some model; kw_max_tokens := None;
                   kw_temperature := None |}) as H.
  destruct (ClaudeClient_init env api_key _) as [e|c].
  - split; [split|split].
    + intros (llm & a & Habs). discriminate.
    + intros (Hav & k & Hk & Hsrc).
      destruct H as [(Hav' & _) | (_ & Hkey & _)]; [congruence|].
      exfalso. apply Hk, Hkey. apply str_or_usable; assumption.
    + intros llm a Habs. discriminate.
    + intros e' He. inversion He; subst e'.
      destruct H as [(_ & ->) | (_ & _ & ->)];
        [left; eexists; reflexivity|right; reflexivity].
  - destruct H as (Hav & Hne & Hkey & Hmodel & Htok). simpl in Hmodel, Htok.
    split; [split|split].
    + intros _. split; [exact Hav|].
      exists (ClaudeClient.api_key c). split; [exact Hne|].
      apply str_or_some; assumption.
    + intros _. eexists. eexists. reflexivity.
    + intros llm a Heq. inversion Heq; subst llm a.
      split; [exists c; split; [reflexivity|split; assumption]|].
      split; [reflexivity|]. split; reflexivity.
    + intros e He. discriminate.
Qed.

Lemma agent_construction_witness :
  exists llm a,
    create_agent ready_env None true = inr (llm, a)
    /\ get_stats a
       = {| stat_total_llm_calls := 0; stat_cached_forms := 0;
            stat_cached_form_paths := [] |}.
Proof.
  destruct (create_agent ready_env None true) as [e|[llm a]] eqn:Hrun;
    [vm_compute in Hrun; discriminate|].
  exists llm, a. split; [reflexivity|].
  destruct (agent_construction ready_env None "claude-sonnet-4-20250514" true)
    as (_ & Hok & _).
  destruct (Hok llm a Hrun) as (_ & Hstats & _). exact Hstats.
Defined.

(* ------------------------------------------------------------------ *)
(** ** The tools over the mock client *)

(** The tools over any client, at the Claude client of an agent, are the
    tools the agent's operations are written with. *)
Lemma tools_on_claude_client rt w s :
  (forall d, FieldExtractionTool_run_on (llm := Claude_client rt w) d s
             = FieldExtractionTool_run rt w d s)
  /\ (forall q d fs,
         QuestionAnsweringTool_run_on (llm := Claude_client rt w) q d fs s
         = QuestionAnsweringTool_run rt w q d fs s)
  /\ (forall d fs style,
         SummarizationTool_run_on (llm := Claude_client rt w) d fs style s
         = SummarizationTool_run rt w d fs style s)
  /\ (forall q ds fl,
         CrossDocumentAnalysisTool_run_on (llm := Claude_client rt w)
                                          q ds fl s
         = CrossDocumentAnalysisTool_run rt w q ds fl s).
Proof.
  split; [|split; [|split]]; intros.
  - rewrite FieldExtractionTool_run_eq.
    unfold FieldExtractionTool_run_on, tool_run_on. simpl.
    rewrite generate_structured_eq.
    destruct (structured_reply rt w s) as [?|[]]; reflexivity.
  - rewrite QuestionAnsweringTool_run_eq.
    unfold QuestionAnsweringTool_run_on, tool_run_on. simpl.
    rewrite generate_structured_eq.
    destruct (structured_reply rt w s) as [?|[]]; reflexivity.
  - rewrite SummarizationTool_run_eq.
    unfold SummarizationTool_run_on, tool_run_on. simpl.
    rewrite generate_structured_eq.
    destruct (structured_reply rt w s) as [?|[]]; reflexivity.
  - rewrite CrossDocumentAnalysisTool_run_eq.
    unfold CrossDocumentAnalysisTool_run_on, tool_run_on. simpl.
    rewrite generate_structured_eq.
    destruct (structured_reply rt w s) as [?|[]]; reflexivity.
Qed.

(** The mock client's choice for the schemas of the code. *)
Lemma mock_reply_by_schema rt p m :
  let sent schema :=
    {| mock_call_history :=
         mock_call_history m ++ [MockStructured p schema] |} in
  Mock_generate_structured rt p extraction_schema m
  = (inr mock_fields_reply, sent extraction_schema)
  /\ Mock_generate_structured rt p qa_schema m
     = (inr mock_answer_reply, sent qa_schema)
  /\ Mock_generate_structured rt p summary_schema m
     = (inr mock_summary_reply, sent summary_schema)
  /\ Mock_generate_structured rt p analysis_schema m
     = (inr mock_answer_reply, sent analysis_schema)
  /\ Mock_generate_structured rt p task_schema m
     = (inr (JObject []), sent task_schema).
Proof.
  intros sent. unfold Mock_generate_structured.
  assert (contains (repr_value rt extraction_schema) "fields" = true) as ->
      by (vm_compute; reflexivity).
  assert (contains (repr_value rt qa_schema) "fields" = false) as ->
      by (vm_compute; reflexivity).
  assert (contains (repr_value rt qa_schema) "answer" = true) as ->
      by (vm_compute; reflexivity).
  assert (contains (repr_value rt summary_schema) "fields" = false) as ->
      by (vm_compute; reflexivity).
  assert (contains (repr_value rt summary_schema) "answer" = false) as ->
      by (vm_compute; reflexivity).
  assert (contains (repr_value rt summary_schema) "summary" = true) as ->
      by (vm_compute; reflexivity).
  assert (contains (repr_value rt analysis_schema) "fields" = false) as ->
      by (vm_compute; reflexivity).
  assert (contains (repr_value rt analysis_schema) "answer" = true) as ->
      by (vm_compute; reflexivity).
  assert (contains (repr_value rt task_schema) "fields" = false) as ->
      by (vm_compute; reflexivity).
  assert (contains (repr_value rt task_schema) "answer" = false) as ->
      by (vm_compute; reflexivity).
  assert (contains (repr_value rt task_schema) "summary" = false) as ->
      by (vm_compute; reflexivity).
  repeat split.
Qed.

(** X23 ([MockLLMClient.generate_structured] under the four tools): with
    the mock client every tool returns, for every input and whatever the
    Python runtime, one fixed result, the mock's canned reply completed by
    the tool's defaults, and adds exactly one entry with the tool's schema
    to the client's history.  The cross-document tool receives the
    question-answering reply, because the text of its schema contains
    [answer]: its insights, comparisons and statistics are the empty
    defaults. *)
Theorem mock_client_tool_results rt (m : MockLLMClient)
        (document : ExtractedDocument.t) (question style : string)
        (extracted_fields : json) (documents : list ExtractedDocument.t)
        (extracted_fields_list : list json) :
  let sent req schema :=
    {| mock_call_history :=
         mock_call_history m ++ [MockStructured (inr req) schema] |} in
  FieldExtractionTool_run_on (llm := Mock_client rt) document m
  = (inr (ExtractionResult.mk
            (JObject [("Name", JString "John Doe");
                      ("Amount", JString "$1,000")])
            JNull zero_float empty_str),
     sent (ReqExtractFields document) extraction_schema)
  /\ QuestionAnsweringTool_run_on (llm := Mock_client rt)
                                  question document extracted_fields m
     = (inr (QAResult.mk (JString "Mock answer") (JFloat (FloatLit "0.9"))
                         empty_list empty_str),
        sent (ReqAnswerQuestion question document extracted_fields)
             qa_schema)
  /\ SummarizationTool_run_on (llm := Mock_client rt)
                              document extracted_fields style m
     = (inr (SummaryResult.mk
               (JString "Mock summary")
               (JArray [JString "Point 1"; JString "Point 2"])
               (JString "unknown") empty_dict),
        sent (ReqSummarize document extracted_fields style) summary_schema)
  /\ CrossDocumentAnalysisTool_run_on (llm := Mock_client rt)
                                      question documents
                                      extracted_fields_list m
     = (inr (AnalysisResult.mk (JString "Mock answer") empty_list
                               empty_dict empty_dict),
        sent (ReqAnalyze question documents extracted_fields_list)
             analysis_schema).
Proof.
  intros sent.
  unfold FieldExtractionTool_run_on, QuestionAnsweringTool_run_on,
    SummarizationTool_run_on, CrossDocumentAnalysisTool_run_on, tool_run_on.
  simpl generate_structured_on.
  split; [|split; [|split]].
  - destruct (mock_reply_by_schema rt (inr (ReqExtractFields document)) m)
      as (-> & _). reflexivity.
  - destruct (mock_reply_by_schema
                rt (inr (ReqAnswerQuestion question document
                                           extracted_fields)) m)
      as (_ & -> & _). reflexivity.
  - destruct (mock_reply_by_schema
                rt (inr (ReqSummarize document extracted_fields style)) m)
      as (_ & _ & -> & _). reflexivity.
  - destruct (mock_reply_by_schema
                rt (inr (ReqAnalyze question documents
                                    extracted_fields_list)) m)
      as (_ & _ & _ & -> & _). reflexivity.
Qed.
